(** * GoTo device locator: a shallow embedding of the OAuth session handling
      and of the authenticated API client, with the properties of the
      specification stated over it.

    Sources embedded:
    - [app/services/goto_api_service.py]  ([GoToAPIService])
    - [app/services/auth_service.py]      ([AuthService])
    - [app.py]                            (the Flask handlers)

    Python values are kept dynamically typed ([pyval]); the handlers and the
    services run in a monad [M] that threads the observable world (log,
    network trace, session, flashed messages) and carries raised exceptions. *)

From Stdlib Require Import String Ascii ZArith List Bool Lia.
Import ListNotations.
Set Warnings "-register-all".
Local Open Scope string_scope.
Local Open Scope Z_scope.
Local Open Scope list_scope.

(* ===================================================================== *)
(** ** Python values                                                      *)
(* ===================================================================== *)

(** The values that flow through the program: JSON documents, the session
    dictionary and the arguments of the handlers.  Dictionaries keep their
    insertion order, as Python's do; every dictionary of the program is
    keyed by strings.  Numbers are integers: the program computes with no
    number of the upstream, and only compares the status code. *)
Inductive pyval : Type :=
| PNone
| PBool (b : bool)
| PInt (z : Z)
| PStr (s : string)
| PList (xs : list pyval)
| PDict (kvs : list (string * pyval)).

(** Association lists keyed by strings, used for every dictionary. *)
Module Dict.
Section Ops.
Context {V : Type}.

Fixpoint get (k : string) (d : list (string * V)) : option V :=
  match d with
  | [] => None
  | (k', v) :: d' => if String.eqb k k' then Some v else get k d'
  end.

Definition mem (k : string) (d : list (string * V)) : bool :=
  match get k d with Some _ => true | None => false end.

(** [d[k] = v]: overwrite in place, or append a new key. *)
Fixpoint set (k : string) (v : V) (d : list (string * V)) : list (string * V) :=
  match d with
  | [] => [(k, v)]
  | (k', v') :: d' =>
      if String.eqb k k' then (k', v) :: d' else (k', v') :: set k v d'
  end.

Fixpoint remove (k : string) (d : list (string * V)) : list (string * V) :=
  match d with
  | [] => []
  | (k', v') :: d' =>
      if String.eqb k k' then remove k d' else (k', v') :: remove k d'
  end.

(** [d.update(e)] *)
Definition update (d e : list (string * V)) : list (string * V) :=
  fold_left (fun acc kv => set (fst kv) (snd kv) acc) e d.

Definition keys (d : list (string * V)) : list string := map fst d.
End Ops.
End Dict.

(** [bool(v)] *)
Definition truthy (v : pyval) : bool :=
  match v with
  | PNone => false
  | PBool b => b
  | PInt z => negb (z =? 0)
  | PStr s => negb (String.eqb s "")
  | PList xs => match xs with [] => false | _ => true end
  | PDict kvs => match kvs with [] => false | _ => true end
  end.

(** [a or b] *)
Definition py_or (a b : pyval) : pyval := if truthy a then a else b.

(** [a == b]; [bool] is a subtype of [int], dictionaries compare as maps. *)
Fixpoint py_eq (a b : pyval) {struct a} : bool :=
  match a, b with
  | PNone, PNone => true
  | PBool x, PBool y => Bool.eqb x y
  | PBool x, PInt y => (if x then 1 else 0) =? y
  | PInt x, PBool y => x =? (if y then 1 else 0)
  | PInt x, PInt y => x =? y
  | PStr x, PStr y => String.eqb x y
  | PList xs, PList ys =>
      (fix go (xs : list pyval) (ys : list pyval) : bool :=
         match xs, ys with
         | [], [] => true
         | x :: xs', y :: ys' => py_eq x y && go xs' ys'
         | _, _ => false
         end) xs ys
  | PDict d1, PDict d2 =>
      Nat.eqb (length d1) (length d2) &&
      (fix go (d : list (string * pyval)) : bool :=
         match d with
         | [] => true
         | (k, v) :: d' =>
             match Dict.get k d2 with
             | Some v' => py_eq v v'
             | None => false
             end && go d'
         end) d1
  | _, _ => false
  end.

(* ===================================================================== *)
(** ** Formatted text and exceptions                                      *)
(* ===================================================================== *)

Inductive exn_kind : Type :=
| TypeError
| KeyError
| AttributeError
| ValueError
| RequestException      (* requests.exceptions.RequestException and subclasses *)
| AuthenticationError   (* auth_service.AuthenticationError *)
| OtherException.       (* any other subclass of Exception *)

(** An f-string is kept as the sequence of its literal pieces and of the
    values it formats: [f"Bearer {tok}"] is [[Lit "Bearer "; Fmt tok]].
    Formatted text only flows into URLs, headers, log lines, flashed
    messages and exception messages. *)
Inductive piece : Type :=
| Lit (s : string)
| Fmt (v : pyval)
| FmtExn (k : exn_kind) (msg : list piece).

Definition text : Type := list piece.

Record exn : Type := Exn { exn_class : exn_kind; exn_msg : text }.

(** [f"{e}"] and [str(e)] for an exception [e] *)
Definition fmt_exn (e : exn) : piece := FmtExn (exn_class e) (exn_msg e).

Inductive outcome (A : Type) : Type :=
| Return (a : A)
| Raise (e : exn).
Arguments Return {A} a.
Arguments Raise {A} e.

(* ===================================================================== *)
(** ** Strings                                                            *)
(* ===================================================================== *)

(** [s.upper()] on ASCII letters *)
Definition upper_ascii (c : ascii) : ascii :=
  let n := nat_of_ascii c in
  if (Nat.leb 97 n && Nat.leb n 122)%bool then ascii_of_nat (n - 32) else c.

Fixpoint upper (s : string) : string :=
  match s with
  | EmptyString => EmptyString
  | String c s' => String (upper_ascii c) (upper s')
  end.

(** [s.lstrip(c)] for a single character [c] *)
Fixpoint lstrip (c : ascii) (s : string) : string :=
  match s with
  | EmptyString => EmptyString
  | String c' s' => if Ascii.eqb c c' then lstrip c s' else s
  end.

(** [t.lstrip('/')] on formatted text.  A formatted [str] is the string
    itself; the format of [None], of a number, of a list or of a dictionary
    never starts with a slash, so stripping stops there (no endpoint of the
    program starts with a formatted exception). *)
Fixpoint text_lstrip_slash (t : text) : text :=
  match t with
  | [] => []
  | Lit s :: t' =>
      match lstrip "/"%char s with
      | EmptyString => text_lstrip_slash t'
      | s' => Lit s' :: t'
      end
  | Fmt (PStr s) :: t' =>
      match lstrip "/"%char s with
      | EmptyString => text_lstrip_slash t'
      | s' => Lit s' :: t'
      end
  | _ => t
  end.

(** [needle in hay] for two strings *)
Definition is_substring (needle hay : string) : bool :=
  match String.index 0 needle hay with Some _ => true | None => false end.

(* ===================================================================== *)
(** ** Operations on values that may raise                                *)
(* ===================================================================== *)

(** [k in v] for a string [k] *)
Definition py_contains (k : string) (v : pyval) : outcome bool :=
  match v with
  | PDict d => Return (Dict.mem k d)
  | PList xs => Return (existsb (py_eq (PStr k)) xs)
  | PStr s => Return (is_substring k s)
  | _ => Raise (Exn TypeError [Lit "argument is not iterable"])
  end.

(** [v[k]] for a string [k] *)
Definition py_getitem (v : pyval) (k : string) : outcome pyval :=
  match v with
  | PDict d =>
      match Dict.get k d with
      | Some x => Return x
      | None => Raise (Exn KeyError [Lit k])
      end
  | PStr _ => Raise (Exn TypeError [Lit "string indices must be integers"])
  | PList _ => Raise (Exn TypeError [Lit "list indices must be integers or slices, not str"])
  | _ => Raise (Exn TypeError [Lit "object is not subscriptable"])
  end.

(** [v.get(k, default)]: a method of dictionaries only *)
Definition py_get (v : pyval) (k : string) (default : pyval) : outcome pyval :=
  match v with
  | PDict d =>
      match Dict.get k d with
      | Some x => Return x
      | None => Return default
      end
  | _ => Raise (Exn AttributeError [Lit "object has no attribute 'get'"])
  end.

(** The sequence a [for] loop runs over *)
Definition py_iter (v : pyval) : outcome (list pyval) :=
  match v with
  | PList xs => Return xs
  | PDict d => Return (map (fun kv => PStr (fst kv)) d)
  | PStr s => Return (map (fun c => PStr (String c EmptyString)) (list_ascii_of_string s))
  | _ => Raise (Exn TypeError [Lit "object is not iterable"])
  end.

(** [len(v)] *)
Definition py_len (v : pyval) : outcome Z :=
  match v with
  | PList xs => Return (Z.of_nat (length xs))
  | PDict d => Return (Z.of_nat (length d))
  | PStr s => Return (Z.of_nat (String.length s))
  | _ => Raise (Exn TypeError [Lit "object has no len()"])
  end.

(** [isinstance(v, dict)] *)
Definition is_dict (v : pyval) : bool :=
  match v with PDict _ => true | _ => false end.

(* ===================================================================== *)
(** ** The observable world and the monad of the program                  *)
(* ===================================================================== *)

Inductive level : Type := INFO | WARNING | ERROR.

(** What [requests.request(method, url, headers=..., **kwargs)] is given. *)
Record request : Type := mkRequest {
  rq_method : string;
  rq_url : text;
  rq_headers : list (string * text);
  rq_kwargs : list (string * pyval)   (* params=..., timeout=... *)
}.

(** What the upstream answers: [status_code], [text] and the result of
    [json()], which raises when the body is not JSON. *)
Record response : Type := mkResponse {
  status_code : Z;
  resp_text : string;
  resp_json : outcome pyval
}.

Inductive reply : Type :=
| Answer (r : response)
| Fails (e : exn).        (* the transport raised *)

(** Calls that leave the process. *)
Inductive event : Type :=
| Http (r : request)
| FetchToken (client_id redirect_uri state token_url code client_secret : pyval)
| RefreshToken (client_id token_url refresh_token client_secret : pyval).

Record world : Type := mkWorld {
  w_log : list (level * text);           (* logger.info / warning / error *)
  w_net : list event;                    (* calls made so far, oldest first *)
  w_session : list (string * pyval);     (* flask.session *)
  w_flashes : list (text * string)       (* flask.flash(message, category) *)
}.

Definition M (A : Type) : Type := world -> outcome A * world.

Definition ret {A} (a : A) : M A := fun w => (Return a, w).

Definition bind {A B} (m : M A) (k : A -> M B) : M B :=
  fun w =>
    match m w with
    | (Return a, w') => k a w'
    | (Raise e, w') => (Raise e, w')
    end.

Definition raise {A} (e : exn) : M A := fun w => (Raise e, w).

(** [try: m  except Exception as e: h e]; the effects of [m] up to the
    raise are kept. *)
Definition try_except {A} (m : M A) (h : exn -> M A) : M A :=
  fun w =>
    match m w with
    | (Return a, w') => (Return a, w')
    | (Raise e, w') => h e w'
    end.

(** A pure operation that may raise. *)
Definition lift {A} (o : outcome A) : M A := fun w => (o, w).

Declare Scope py_scope.
Delimit Scope py_scope with py.
Notation "x <- m ;; k" := (bind m (fun x => k))
  (at level 61, m at next level, right associativity) : py_scope.
Notation "m ;; k" := (bind m (fun _ => k))
  (at level 61, right associativity) : py_scope.
Local Open Scope py_scope.

Definition log (l : level) (msg : text) : M unit :=
  fun w => (Return tt,
            mkWorld (w_log w ++ [(l, msg)]) (w_net w) (w_session w) (w_flashes w)).

Definition logger_info := log INFO.
Definition logger_warning := log WARNING.
Definition logger_error := log ERROR.

(** [for x in xs: acc = body x acc] *)
Fixpoint for_each {A B} (xs : list A) (body : A -> B -> M B) (acc : B) : M B :=
  match xs with
  | [] => ret acc
  | x :: xs' => acc' <- body x acc ;; for_each xs' body acc'
  end.

(** The upstream: its reply to a request may depend on the calls made
    before. *)
Definition upstream : Type := list event -> request -> reply.

(** [requests.request(method, url, headers=headers, **kwargs)]: the call is
    recorded, and the upstream decides the reply. *)
Definition requests_request (net : upstream) (method : string) (url : text)
    (headers : list (string * text)) (kw : list (string * pyval)) : M response :=
  fun w =>
    let rq := mkRequest method url headers kw in
    let w' := mkWorld (w_log w) (w_net w ++ [Http rq]) (w_session w) (w_flashes w) in
    match net (w_net w) rq with
    | Answer r => (Return r, w')
    | Fails e => (Raise e, w')
    end.

(** [requests.get(url, headers=headers, **kwargs)] *)
Definition requests_get (net : upstream) (url : text)
    (headers : list (string * text)) (kw : list (string * pyval)) : M response :=
  requests_request net "get" url headers kw.

Definition http_requests (w : world) : list request :=
  flat_map (fun ev => match ev with Http r => [r] | _ => [] end) (w_net w).

(* ===================================================================== *)
(** ** app/config.py                                                      *)
(* ===================================================================== *)

Module Config.
Definition GOTO_API_BASE : string := "https://api.goto.com".
Definition GOTO_VOICE_ADMIN_API : string := GOTO_API_BASE ++ "/voice-admin/v1".
End Config.

(** The deployment's environment: what [os.getenv] gives [Config]. *)
Record settings : Type := mkSettings {
  GOTO_CLIENT_ID : pyval;
  GOTO_CLIENT_SECRET : pyval;
  GOTO_REDIRECT_URI : pyval;
  GOTO_AUTH_URL : pyval;
  GOTO_TOKEN_URL : pyval;
  APP_TITLE : pyval;
  DEBUG : bool
}.

(* ===================================================================== *)
(** ** app/services/goto_api_service.py                                   *)
(* ===================================================================== *)

(** The [**kwargs] of [_make_authenticated_request]: an optional [headers]
    dictionary, and whatever else is handed on to [requests.request]. *)
Record kwargs : Type := mkKwargs {
  kw_headers : option (list (string * text));
  kw_rest : list (string * pyval)
}.

Definition no_kwargs : kwargs := mkKwargs None [].
Definition kw_params (params : list (string * pyval)) : kwargs :=
  mkKwargs None [("params", PDict params)].

(** An optional parameter of a method: [None] when the call site leaves it
    out, so that the default applies. *)
Definition default_arg (dflt : pyval) (arg : option pyval) : pyval :=
  match arg with Some v => v | None => dflt end.

Module GoToAPIService.
Section Service.
Variable net : upstream.

Definition base_url : string := Config.GOTO_VOICE_ADMIN_API.

(** What Python raises when a call binds no value to the required
    positional parameter [access_token]. *)
Definition missing_access_token : exn :=
  Exn TypeError
    [Lit "_make_authenticated_request() missing 1 required positional argument: 'access_token'"].

(** [access_token] is a required positional parameter: it is [None] here
    when the call site passes no such argument, and Python then raises
    [TypeError] while binding the arguments, before the body runs. *)
Definition _make_authenticated_request (method : string) (endpoint : text)
    (access_token : option pyval) (kw : kwargs) : M pyval :=
  match access_token with
  | None => raise missing_access_token
  | Some access_token =>
      if negb (truthy access_token) then
        logger_error [Lit "No access token provided - cannot make API request"] ;;
        ret PNone
      else
        let url := [Lit base_url; Lit "/"] ++ text_lstrip_slash endpoint in
        let headers :=
          [("Authorization", [Lit "Bearer "; Fmt access_token]);
           ("Content-Type", [Lit "application/json"])] in
        let headers :=
          match kw_headers kw with
          | Some h => Dict.update headers h
          | None => headers
          end in
        try_except
          (response <- requests_request net (upper method) url headers (kw_rest kw) ;;
           if status_code response =? 200 then
             lift (resp_json response)
           else if status_code response =? 401 then
             logger_error [Lit "Authentication failed - token may be expired"] ;;
             ret PNone
           else
             logger_error [Lit "API request failed with status ";
                           Fmt (PInt (status_code response)); Lit ": ";
                           Lit (resp_text response)] ;;
             ret PNone)
          (fun e =>
             match exn_class e with
             | RequestException =>
                 logger_error [Lit "API request failed: "; fmt_exn e] ;;
                 ret PNone
             | _ =>
                 logger_error [Lit "Unexpected error making API request: "; fmt_exn e] ;;
                 ret PNone
             end)
  end.

Definition get_account_info (account_key access_token : pyval) : M pyval :=
  logger_info [Lit "Getting account info for account: "; Fmt account_key] ;;
  _make_authenticated_request "GET" [Lit "accounts/"; Fmt account_key]
    (Some access_token) no_kwargs.

Definition get_locations (account_key access_token : pyval)
    (page_size page_marker : option pyval) : M pyval :=
  let page_size := default_arg (PInt 50) page_size in
  let page_marker := default_arg PNone page_marker in
  logger_info [Lit "Getting locations for account: "; Fmt account_key] ;;
  let params := [("accountKey", account_key); ("pageSize", page_size)] in
  let params :=
    if truthy page_marker then Dict.set "pageMarker" page_marker params else params in
  _make_authenticated_request "GET" [Lit "locations"] (Some access_token) (kw_params params).

Definition get_devices (account_key access_token : pyval)
    (page_size page_marker : option pyval) : M pyval :=
  let page_size := default_arg (PInt 50) page_size in
  let page_marker := default_arg PNone page_marker in
  logger_info [Lit "Getting devices for account: "; Fmt account_key] ;;
  let params := [("accountKey", account_key); ("pageSize", page_size)] in
  let params :=
    if truthy page_marker then Dict.set "pageMarker" page_marker params else params in
  _make_authenticated_request "GET" [Lit "devices"] (Some access_token) (kw_params params).

Definition get_device_details (device_id access_token : pyval) : M pyval :=
  logger_info [Lit "Getting device details for device: "; Fmt device_id] ;;
  _make_authenticated_request "GET" [Lit "devices/"; Fmt device_id]
    (Some access_token) no_kwargs.

(** The method takes no access token and passes none on. *)
Definition get_location_devices (location_id : pyval)
    (page_size page_marker : option pyval) : M pyval :=
  let page_size := default_arg (PInt 50) page_size in
  let page_marker := default_arg PNone page_marker in
  logger_info [Lit "Getting devices for location: "; Fmt location_id] ;;
  let params := [("pageSize", page_size)] in
  let params :=
    if truthy page_marker then Dict.set "pageMarker" page_marker params else params in
  _make_authenticated_request "GET" [Lit "locations/"; Fmt location_id; Lit "/devices"]
    None (kw_params params).

Definition get_location_users (location_id : pyval)
    (page_size page_marker : option pyval) : M pyval :=
  let page_size := default_arg (PInt 50) page_size in
  let page_marker := default_arg PNone page_marker in
  logger_info [Lit "Getting users for location: "; Fmt location_id] ;;
  let params := [("pageSize", page_size)] in
  let params :=
    if truthy page_marker then Dict.set "pageMarker" page_marker params else params in
  _make_authenticated_request "GET" [Lit "locations/"; Fmt location_id; Lit "/users"]
    None (kw_params params).

Definition get_extensions (account_key access_token : pyval)
    (page_size page_marker : option pyval) : M pyval :=
  let page_size := default_arg (PInt 50) page_size in
  let page_marker := default_arg PNone page_marker in
  logger_info [Lit "Getting extensions for account: "; Fmt account_key] ;;
  let params := [("accountKey", account_key); ("pageSize", page_size)] in
  let params :=
    if truthy page_marker then Dict.set "pageMarker" page_marker params else params in
  _make_authenticated_request "GET" [Lit "extensions"] (Some access_token) (kw_params params).

Definition get_phone_numbers (account_key access_token : pyval)
    (page_size page_marker : option pyval) : M pyval :=
  let page_size := default_arg (PInt 50) page_size in
  let page_marker := default_arg PNone page_marker in
  logger_info [Lit "Getting phone numbers for account: "; Fmt account_key] ;;
  let params := [("accountKey", account_key); ("pageSize", page_size)] in
  let params :=
    if truthy page_marker then Dict.set "pageMarker" page_marker params else params in
  _make_authenticated_request "GET" [Lit "phone-numbers"] (Some access_token) (kw_params params).

Definition get_phone_number_details (phone_number_id access_token : pyval) : M pyval :=
  logger_info [Lit "Getting phone number details for: "; Fmt phone_number_id] ;;
  _make_authenticated_request "GET" [Lit "phone-numbers/"; Fmt phone_number_id]
    (Some access_token) no_kwargs.

Definition get_device_models (access_token : pyval)
    (page_size page_marker : option pyval) : M pyval :=
  let page_size := default_arg (PInt 50) page_size in
  let page_marker := default_arg PNone page_marker in
  logger_info [Lit "Getting device models"] ;;
  let params := [("pageSize", page_size)] in
  let params :=
    if truthy page_marker then Dict.set "pageMarker" page_marker params else params in
  _make_authenticated_request "GET" [Lit "device-models"] (Some access_token) (kw_params params).

Definition get_device_button_configuration (device_id access_token : pyval) : M pyval :=
  logger_info [Lit "Getting button configuration for device: "; Fmt device_id] ;;
  _make_authenticated_request "GET"
    [Lit "devices/"; Fmt device_id; Lit "/buttons-configuration"]
    (Some access_token) no_kwargs.

Definition reboot_device (device_id access_token : pyval) : M pyval :=
  logger_info [Lit "Rebooting device: "; Fmt device_id] ;;
  _make_authenticated_request "POST" [Lit "devices/"; Fmt device_id; Lit "/reboot"]
    (Some access_token) no_kwargs.

Definition resync_device (device_id access_token : pyval) : M pyval :=
  logger_info [Lit "Resyncing device: "; Fmt device_id] ;;
  _make_authenticated_request "POST" [Lit "devices/"; Fmt device_id; Lit "/resync"]
    (Some access_token) no_kwargs.

Definition get_extension_details (extension_id access_token : pyval) : M pyval :=
  logger_info [Lit "Getting extension details for: "; Fmt extension_id] ;;
  _make_authenticated_request "GET" [Lit "extensions/"; Fmt extension_id]
    (Some access_token) no_kwargs.

(** The record built for one device of one location. *)
Definition device_info (location_id location_name location device : pyval) : M pyval :=
  device_id <- lift (py_get device "id" PNone) ;;
  device_status <- lift (py_get device "status" PNone) ;;
  license_key <- lift (py_get device "licenseKey" PNone) ;;
  location_address <- lift (py_get location "address" (PDict [])) ;;
  used_for_emergency <- lift (py_get location "usedForEmergencyServices" (PBool false)) ;;
  ret (PDict [("device_id", device_id);
              ("device_status", device_status);
              ("license_key", license_key);
              ("location_id", location_id);
              ("location_name", location_name);
              ("location_address", location_address);
              ("used_for_emergency", used_for_emergency)]).

(** The body of the loop over the locations; [device_location_data] is
    the list the source appends to. *)
Definition location_step
    (self_get_location_devices : pyval -> option pyval -> option pyval -> M pyval)
    (location : pyval) (device_location_data : list pyval) : M (list pyval) :=
  location_id <- lift (py_get location "id" PNone) ;;
  location_name <- lift (py_get location "name" (PStr "Unknown Location")) ;;
  devices_response <- self_get_location_devices location_id (Some (PInt 100)) None ;;
  has_items <- (if truthy devices_response
                then lift (py_contains "items" devices_response)
                else ret false) ;;
  if has_items then
    devices <- lift (py_getitem devices_response "items") ;;
    devices <- lift (py_iter devices) ;;
    for_each devices
      (fun device device_location_data =>
         info <- device_info location_id location_name location device ;;
         ret (device_location_data ++ [info]))
      device_location_data
  else ret device_location_data.

(** [search_devices_by_location], written against the method
    [self.get_location_devices] it calls for each location; Python looks
    the method up on [self] at each call. *)
Definition search_devices_by_location_via
    (self_get_location_devices : pyval -> option pyval -> option pyval -> M pyval)
    (account_key access_token : pyval) : M pyval :=
  logger_info [Lit "Searching devices by location for account: "; Fmt account_key] ;;
  locations_response <- get_locations account_key access_token (Some (PInt 100)) None ;;
  failed <- (if negb (truthy locations_response)
             then ret true
             else (b <- lift (py_contains "items" locations_response) ;; ret (negb b))) ;;
  if failed then
    logger_error [Lit "Failed to get locations"] ;;
    ret (PList [])
  else
    locations <- lift (py_getitem locations_response "items") ;;
    locs <- lift (py_iter locations) ;;
    device_location_data <- for_each locs (location_step self_get_location_devices) [] ;;
    n_locations <- lift (py_len locations) ;;
    logger_info [Lit "Found "; Fmt (PInt (Z.of_nat (length device_location_data)));
                 Lit " devices across "; Fmt (PInt n_locations); Lit " locations"] ;;
    ret (PList device_location_data).

(** The method of the class: [self.get_location_devices] is the class's
    own [get_location_devices]. *)
Definition search_devices_by_location (account_key access_token : pyval) : M pyval :=
  search_devices_by_location_via get_location_devices account_key access_token.

(** The operations of the client, each with the arguments of one call. *)
Inductive operation : Type :=
| AccountInfo (account_key access_token : pyval)
| ListLocations (account_key access_token : pyval) (page_size page_marker : option pyval)
| ListDevices (account_key access_token : pyval) (page_size page_marker : option pyval)
| DeviceDetail (device_id access_token : pyval)
| LocationDevices (location_id : pyval) (page_size page_marker : option pyval)
| LocationUsers (location_id : pyval) (page_size page_marker : option pyval)
| ListExtensions (account_key access_token : pyval) (page_size page_marker : option pyval)
| ListPhoneNumbers (account_key access_token : pyval) (page_size page_marker : option pyval)
| PhoneNumberDetail (phone_number_id access_token : pyval)
| ListDeviceModels (access_token : pyval) (page_size page_marker : option pyval)
| DeviceButtons (device_id access_token : pyval)
| RebootDevice (device_id access_token : pyval)
| ResyncDevice (device_id access_token : pyval)
| ExtensionDetail (extension_id access_token : pyval).

Definition call (op : operation) : M pyval :=
  match op with
  | AccountInfo k t => get_account_info k t
  | ListLocations k t ps pm => get_locations k t ps pm
  | ListDevices k t ps pm => get_devices k t ps pm
  | DeviceDetail d t => get_device_details d t
  | LocationDevices l ps pm => get_location_devices l ps pm
  | LocationUsers l ps pm => get_location_users l ps pm
  | ListExtensions k t ps pm => get_extensions k t ps pm
  | ListPhoneNumbers k t ps pm => get_phone_numbers k t ps pm
  | PhoneNumberDetail p t => get_phone_number_details p t
  | ListDeviceModels t ps pm => get_device_models t ps pm
  | DeviceButtons d t => get_device_button_configuration d t
  | RebootDevice d t => reboot_device d t
  | ResyncDevice d t => resync_device d t
  | ExtensionDetail e t => get_extension_details e t
  end.
End Service.

(** The access token an operation is called with, when its signature has
    one. *)
Definition token_of (op : operation) : option pyval :=
  match op with
  | AccountInfo _ t | ListLocations _ t _ _ | ListDevices _ t _ _
  | DeviceDetail _ t | ListExtensions _ t _ _ | ListPhoneNumbers _ t _ _
  | PhoneNumberDetail _ t | ListDeviceModels t _ _ | DeviceButtons _ t
  | RebootDevice _ t | ResyncDevice _ t | ExtensionDetail _ t => Some t
  | LocationDevices _ _ _ | LocationUsers _ _ _ => None
  end.

(** The paginated list operations, with the [page_size] and [page_marker]
    arguments of the call. *)
Definition pagination_of (op : operation) : option (option pyval * option pyval) :=
  match op with
  | ListLocations _ _ ps pm | ListDevices _ _ ps pm | ListExtensions _ _ ps pm
  | ListPhoneNumbers _ _ ps pm | ListDeviceModels _ ps pm
  | LocationDevices _ ps pm | LocationUsers _ ps pm => Some (ps, pm)
  | _ => None
  end.
End GoToAPIService.

(* ===================================================================== *)
(** ** app/services/auth_service.py                                       *)
(* ===================================================================== *)

(** [requests_oauthlib.OAuth2Session], as far as the service uses it:
    [authorization_url] computes the redirect URL and the state it carries;
    [fetch_token] and [refresh_token] call the identity provider, which
    answers with a token or makes the library raise. *)
Record oauthlib : Type := mkOauthlib {
  oauth_authorization_url :
    pyval (* client_id *) -> list string (* scope *) -> pyval (* redirect_uri *) ->
    pyval (* state *) -> pyval (* auth_url *) -> outcome (pyval * pyval);
  oauth_provider : list event -> event -> outcome pyval
}.

Module AuthService.
Section Service.
Variable cfg : settings.
Variable net : upstream.
Variable lib : oauthlib.

Definition client_id : pyval := GOTO_CLIENT_ID cfg.
Definition client_secret : pyval := GOTO_CLIENT_SECRET cfg.
Definition redirect_uri : pyval := GOTO_REDIRECT_URI cfg.
Definition auth_url : pyval := GOTO_AUTH_URL cfg.
Definition token_url : pyval := GOTO_TOKEN_URL cfg.
Definition scope : list string := ["voice-admin.v1.read"; "voice-admin.v1.write"].

(** A call of the library that reaches the identity provider. *)
Definition provider_call (ev : event) : M pyval :=
  fun w =>
    (oauth_provider lib (w_net w) ev,
     mkWorld (w_log w) (w_net w ++ [ev]) (w_session w) (w_flashes w)).

Definition get_authorization_url (state : option pyval) : M (pyval * pyval) :=
  let state := default_arg PNone state in
  try_except
    (r <- lift (oauth_authorization_url lib client_id scope redirect_uri state auth_url) ;;
     logger_info [Lit "Generated authorization URL"] ;;
     ret r)
    (fun e =>
       logger_error [Lit "Error generating authorization URL: "; fmt_exn e] ;;
       raise (Exn AuthenticationError
                [Lit "Failed to generate authorization URL: "; fmt_exn e])).

Definition exchange_code_for_token (authorization_code : pyval) (state : option pyval)
    : M pyval :=
  let state := default_arg PNone state in
  try_except
    (token <- provider_call
                (FetchToken client_id redirect_uri state token_url
                            authorization_code client_secret) ;;
     logger_info [Lit "Successfully exchanged authorization code for token"] ;;
     ret token)
    (fun e =>
       logger_error [Lit "Error exchanging code for token: "; fmt_exn e] ;;
       raise (Exn AuthenticationError
                [Lit "Failed to exchange code for token: "; fmt_exn e])).

Definition refresh_access_token (refresh_token : pyval) : M pyval :=
  try_except
    (token <- provider_call
                (RefreshToken client_id token_url refresh_token client_secret) ;;
     logger_info [Lit "Successfully refreshed access token"] ;;
     ret token)
    (fun e =>
       logger_error [Lit "Error refreshing token: "; fmt_exn e] ;;
       raise (Exn AuthenticationError [Lit "Failed to refresh token: "; fmt_exn e])).

Definition is_token_valid (token : pyval) : M bool :=
  lacks <- (if negb (truthy token)
            then ret true
            else (b <- lift (py_contains "access_token" token) ;; ret (negb b))) ;;
  if lacks then ret false
  else
    try_except
      (access_token <- lift (py_getitem token "access_token") ;;
       let headers := [("Authorization", [Lit "Bearer "; Fmt access_token])] in
       response <- requests_get net [Lit "https://api.jive.com/voice-admin/v1/accounts"]
                     headers [("timeout", PInt 10)] ;;
       ret (status_code response =? 200))
      (fun e =>
         logger_warning [Lit "Token validation failed: "; fmt_exn e] ;;
         ret false).
End Service.
End AuthService.

(* ===================================================================== *)
(** ** app.py: Flask, as far as the handlers use it                        *)
(* ===================================================================== *)

(** [flask.request] *)
Record flask_request : Type := mkFlaskRequest {
  method : string;
  args : list (string * string);       (* request.args *)
  form : list (string * string);       (* request.form *)
  get_json : outcome pyval;            (* request.get_json() *)
  cookies : list (string * string)     (* request.cookies *)
}.

Definition multidict_get (d : list (string * string)) (k : string) : pyval :=
  match Dict.get k d with Some v => PStr v | None => PNone end.

(** A value handed to a template or to [jsonify]: a Python value, formatted
    text, or a dictionary of lists keyed by arbitrary values. *)
Inductive field : Type :=
| V (v : pyval)
| T (t : text)
| Groups (g : list (pyval * list pyval)).

Inductive flask_response : Type :=
| Redirect (endpoint : string) (values : list (string * pyval))
    (* redirect(url_for(endpoint, **values)) *)
| RedirectTo (url : pyval)                                (* redirect(url) *)
| Render (template : string) (context : list (string * field)) (status : Z)
| Jsonify (body : list (string * field)) (status : Z)     (* jsonify({...}) *)
| JsonifyValue (body : pyval) (status : Z)                (* jsonify(value) *)
| Body (body : string) (status : Z).

(** The session.  Flask keeps the pending flashed messages in the session
    too, under its private key [_flashes]; the model keeps the calls to
    [flash] apart, in [w_flashes], and [w_session] holds the keys the
    program writes. *)
Definition session_contains (k : string) : M bool :=
  fun w => (Return (Dict.mem k (w_session w)), w).

Definition session_get (k : string) : M pyval :=
  fun w => (Return (match Dict.get k (w_session w) with Some v => v | None => PNone end), w).

Definition session_getitem (k : string) : M pyval :=
  fun w => (match Dict.get k (w_session w) with
            | Some v => Return v
            | None => Raise (Exn KeyError [Lit k])
            end, w).

Definition session_set (k : string) (v : pyval) : M unit :=
  fun w => (Return tt,
            mkWorld (w_log w) (w_net w) (Dict.set k v (w_session w)) (w_flashes w)).

(** [session.pop(k, None)] *)
Definition session_pop (k : string) : M unit :=
  fun w => (Return tt,
            mkWorld (w_log w) (w_net w) (Dict.remove k (w_session w)) (w_flashes w)).

Definition session_clear : M unit :=
  fun w => (Return tt, mkWorld (w_log w) (w_net w) [] (w_flashes w)).

Definition session_keys : M (list string) :=
  fun w => (Return (Dict.keys (w_session w)), w).

Definition flash (message : text) (category : string) : M unit :=
  fun w => (Return tt,
            mkWorld (w_log w) (w_net w) (w_session w) (w_flashes w ++ [(message, category)])).

Definition is_none (v : pyval) : bool :=
  match v with PNone => true | _ => false end.

(** Keys of a dictionary must be hashable. *)
Definition check_hashable (v : pyval) : outcome unit :=
  match v with
  | PList _ => Raise (Exn TypeError [Lit "unhashable type: 'list'"])
  | PDict _ => Raise (Exn TypeError [Lit "unhashable type: 'dict'"])
  | _ => Return tt
  end.

(** Dictionaries built by the handlers to group records, keyed by values
    compared with [==]. *)
Fixpoint group_mem {A} (k : pyval) (g : list (pyval * A)) : bool :=
  match g with
  | [] => false
  | (k', _) :: g' => py_eq k k' || group_mem k g'
  end.

Fixpoint group_modify {A} (k : pyval) (f : A -> A) (g : list (pyval * A)) : list (pyval * A) :=
  match g with
  | [] => []
  | (k', a) :: g' => if py_eq k k' then (k', f a) :: g' else (k', a) :: group_modify k f g'
  end.

Module App.
Section Handlers.
Variable cfg : settings.
Variable net : upstream.
Variable lib : oauthlib.

Definition is_authenticated : M bool :=
  has_token <- session_contains "access_token" ;;
  if has_token then
    token <- session_getitem "access_token" ;;
    ok <- (if is_dict token then lift (py_contains "access_token" token) else ret false) ;;
    if ok then
      logger_info [Lit "User is authenticated with valid token"] ;;
      ret true
    else
      logger_warning [Lit "Invalid token structure in session"] ;;
      ret false
  else
    logger_info [Lit "No access token in session"] ;;
    ret false.

Definition index : M flask_response :=
  authenticated <- is_authenticated ;;
  ret (Render "index.html"
         [("is_authenticated", V (PBool authenticated)); ("app_title", V (APP_TITLE cfg))]
         200).

(** [token_urlsafe] is the string [secrets.token_urlsafe(32)] draws. *)
Definition authenticate (token_urlsafe : string) : M flask_response :=
  try_except
    (let state := PStr token_urlsafe in
     r <- AuthService.get_authorization_url cfg lib (Some state) ;;
     let authorization_url := fst r in
     let returned_state := snd r in
     session_set "oauth_state" returned_state ;;
     logger_info [Lit "Starting OAuth flow with state: "; Fmt returned_state] ;;
     ret (RedirectTo authorization_url))
    (fun e =>
       logger_error [Lit "Authentication initiation failed: "; fmt_exn e] ;;
       flash [Lit "Failed to start authentication. Please try again."] "error" ;;
       ret (Redirect "index" [])).

Definition auth_callback (request : flask_request) : M flask_response :=
  try_except
    (let code := multidict_get (args request) "code" in
     let state := multidict_get (args request) "state" in
     let error := multidict_get (args request) "error" in
     logger_info [Lit "OAuth callback received - code: ";
                  Fmt (PStr (if truthy code then "present" else "missing"));
                  Lit ", state: "; Fmt state] ;;
     s <- session_get "oauth_state" ;;
     logger_info [Lit "Session state: "; Fmt s] ;;
     if truthy error then
       flash [Lit "Authentication error: "; Fmt error] "error" ;;
       ret (Redirect "index" [])
     else if negb (truthy code) then
       flash [Lit "Authentication was cancelled or failed."] "error" ;;
       ret (Redirect "index" [])
     else
       session_state <- session_get "oauth_state" ;;
       if negb (truthy session_state) || negb (py_eq state session_state) then
         logger_error [Lit "State mismatch - received: "; Fmt state;
                       Lit ", expected: "; Fmt session_state] ;;
         flash [Lit "Authentication failed due to state mismatch. Please try again."] "error" ;;
         ret (Redirect "index" [])
       else
         token <- AuthService.exchange_code_for_token cfg lib code (Some state) ;;
         session_set "access_token" token ;;
         session_pop "oauth_state" ;;
         flash [Lit "Authentication successful!"] "success" ;;
         ret (Redirect "dashboard" []))
    (fun e =>
       logger_error [Lit "Authentication callback failed: "; fmt_exn e] ;;
       flash [Lit "Authentication failed. Please try again."] "error" ;;
       ret (Redirect "index" [])).

Definition logout : M flask_response :=
  session_clear ;;
  flash [Lit "You have been logged out."] "info" ;;
  ret (Redirect "index" []).

Definition dashboard (request : flask_request) : M flask_response :=
  keys <- session_keys ;;
  logger_info [Lit "Dashboard accessed. Session keys: "; Fmt (PList (map PStr keys))] ;;
  authenticated <- is_authenticated ;;
  if negb authenticated then
    logger_warning [Lit "Dashboard access denied - user not authenticated"] ;;
    flash [Lit "Please authenticate first."] "warning" ;;
    ret (Redirect "index" [])
  else
    (if String.eqb (method request) "POST" then
       let account_key := multidict_get (form request) "account_key" in
       if truthy account_key then
         session_set "account_key" account_key ;;
         flash [Lit "Account key updated successfully!"] "success"
       else
         flash [Lit "Please enter an account key."] "error"
     else ret tt) ;;
    stored <- session_get "account_key" ;;
    let account_key := py_or stored (multidict_get (args request) "account_key") in
    logger_info [Lit "Dashboard access granted - user authenticated"] ;;
    ret (Render "dashboard.html"
           [("account_key", V account_key); ("app_title", V (APP_TITLE cfg))] 200).

Definition locations (request : flask_request) : M flask_response :=
  authenticated <- is_authenticated ;;
  if negb authenticated then
    flash [Lit "Please authenticate first."] "warning" ;;
    ret (Redirect "index" [])
  else
    stored <- session_get "account_key" ;;
    let account_key := py_or stored (multidict_get (args request) "account_key") in
    if negb (truthy account_key) then
      flash [Lit "Please set your account key in the dashboard first."] "warning" ;;
      ret (Redirect "dashboard" [])
    else
      (if truthy (multidict_get (args request) "account_key")
       then session_set "account_key" account_key
       else ret tt) ;;
      try_except
        (token <- session_getitem "access_token" ;;
         access_token <- lift (py_getitem token "access_token") ;;
         locations_data <- GoToAPIService.get_locations net account_key access_token None None ;;
         if is_none locations_data then
           flash [Lit "Failed to fetch locations. Please try again."] "error" ;;
           ret (Redirect "dashboard" [])
         else
           locations_list <- lift (py_get locations_data "items" (PList [])) ;;
           next_page_marker <- lift (py_get locations_data "nextPageMarker" PNone) ;;
           ret (Render "locations.html"
                  [("locations", V locations_list);
                   ("account_key", V account_key);
                   ("next_page_marker", V next_page_marker);
                   ("app_title", V (APP_TITLE cfg))] 200))
        (fun e =>
           logger_error [Lit "Error fetching locations: "; fmt_exn e] ;;
           flash [Lit "Error fetching locations: "; fmt_exn e] "error" ;;
           ret (Redirect "dashboard" [])).

Definition devices (request : flask_request) : M flask_response :=
  authenticated <- is_authenticated ;;
  if negb authenticated then
    flash [Lit "Please authenticate first."] "warning" ;;
    ret (Redirect "index" [])
  else
    stored <- session_get "account_key" ;;
    let account_key := py_or stored (multidict_get (args request) "account_key") in
    if negb (truthy account_key) then
      flash [Lit "Please set your account key in the dashboard first."] "warning" ;;
      ret (Redirect "dashboard" [])
    else
      (if truthy (multidict_get (args request) "account_key")
       then session_set "account_key" account_key
       else ret tt) ;;
      try_except
        (token <- session_getitem "access_token" ;;
         access_token <- lift (py_getitem token "access_token") ;;
         devices_data <- GoToAPIService.get_devices net account_key access_token None None ;;
         if is_none devices_data then
           flash [Lit "Failed to fetch devices. Please try again."] "error" ;;
           ret (Redirect "dashboard" [])
         else
           devices_list <- lift (py_get devices_data "items" (PList [])) ;;
           next_page_marker <- lift (py_get devices_data "nextPageMarker" PNone) ;;
           ret (Render "devices.html"
                  [("devices", V devices_list);
                   ("account_key", V account_key);
                   ("next_page_marker", V next_page_marker);
                   ("app_title", V (APP_TITLE cfg))] 200))
        (fun e =>
           logger_error [Lit "Error fetching devices: "; fmt_exn e] ;;
           flash [Lit "Error fetching devices: "; fmt_exn e] "error" ;;
           ret (Redirect "dashboard" [])).

(** One turn of the grouping loop of [device_locations]: a group is the
    [location] dictionary with the list of its [devices]. *)
Definition group_device (item : pyval) (location_groups : list (pyval * (pyval * list pyval)))
    : M (list (pyval * (pyval * list pyval))) :=
  location_name <- lift (py_getitem item "location_name") ;;
  lift (check_hashable location_name) ;;
  location_groups <-
    (if negb (group_mem location_name location_groups) then
       location_id <- lift (py_getitem item "location_id") ;;
       location_address <- lift (py_getitem item "location_address") ;;
       used_for_emergency <- lift (py_getitem item "used_for_emergency") ;;
       ret (location_groups ++
              [(location_name,
                (PDict [("name", location_name);
                        ("id", location_id);
                        ("address", location_address);
                        ("usedForEmergencyServices", used_for_emergency)],
                 []))])
     else ret location_groups) ;;
  ret (group_modify location_name
         (fun g => (fst g, snd g ++ [item])) location_groups).

Definition device_locations : M flask_response :=
  authenticated <- is_authenticated ;;
  if negb authenticated then ret (Redirect "index" [])
  else
    account_key <- session_get "account_key" ;;
    if negb (truthy account_key) then
      logger_warning [Lit "No account key in session for device locations"] ;;
      ret (Redirect "dashboard" [])
    else
      try_except
        (access_token <- session_get "access_token" ;;
         if negb (truthy access_token) then
           logger_error [Lit "No access token available"] ;;
           ret (Redirect "index" [])
         else
           device_location_data <-
             GoToAPIService.search_devices_by_location net account_key access_token ;;
           n <- lift (py_len device_location_data) ;;
           logger_info [Lit "Retrieved "; Fmt (PInt n); Lit " device-location mappings"] ;;
           items <- lift (py_iter device_location_data) ;;
           location_groups <- for_each items group_device [] ;;
           ret (Render "device_locations.html"
                  [("location_groups",
                    V (PList (map (fun g => PDict [("location", fst (snd g));
                                                   ("devices", PList (snd (snd g)))])
                                  location_groups)));
                   ("account_key", V account_key)] 200))
        (fun e =>
           logger_error [Lit "Error retrieving device locations: "; fmt_exn e] ;;
           ret (Render "error.html"
                  [("error_message", V (PStr "Failed to retrieve device locations"));
                   ("error_details", T [fmt_exn e])] 200)).

Definition phone_numbers : M flask_response :=
  authenticated <- is_authenticated ;;
  if negb authenticated then ret (Redirect "index" [])
  else
    account_key <- session_get "account_key" ;;
    if negb (truthy account_key) then
      logger_warning [Lit "No account key in session for phone numbers"] ;;
      ret (Redirect "dashboard" [])
    else
      try_except
        (access_token <- session_get "access_token" ;;
         if negb (truthy access_token) then
           logger_error [Lit "No access token available"] ;;
           ret (Redirect "index" [])
         else
           token <- lift (py_getitem access_token "access_token") ;;
           phone_numbers_response <- GoToAPIService.get_phone_numbers net account_key token None None ;;
           phone_numbers <- (if truthy phone_numbers_response
                             then lift (py_get phone_numbers_response "items" (PList []))
                             else ret (PList [])) ;;
           n <- lift (py_len phone_numbers) ;;
           logger_info [Lit "Retrieved "; Fmt (PInt n); Lit " phone numbers"] ;;
           ret (Render "phone_numbers.html"
                  [("phone_numbers", V phone_numbers); ("account_key", V account_key)] 200))
        (fun e =>
           logger_error [Lit "Error retrieving phone numbers: "; fmt_exn e] ;;
           ret (Render "error.html"
                  [("error_message", V (PStr "Failed to retrieve phone numbers"));
                   ("error_details", T [fmt_exn e])] 200)).

(** One turn of the grouping loop of [extensions]. *)
Definition group_extension (ext : pyval) (extension_groups : list (pyval * list pyval))
    : M (list (pyval * list pyval)) :=
  ext_type <- lift (py_get ext "type" (PStr "UNKNOWN")) ;;
  lift (check_hashable ext_type) ;;
  let extension_groups :=
    if negb (group_mem ext_type extension_groups)
    then extension_groups ++ [(ext_type, [])]
    else extension_groups in
  ret (group_modify ext_type (fun l => l ++ [ext]) extension_groups).

Definition extensions : M flask_response :=
  authenticated <- is_authenticated ;;
  if negb authenticated then ret (Redirect "index" [])
  else
    account_key <- session_get "account_key" ;;
    if negb (truthy account_key) then
      logger_warning [Lit "No account key in session for extensions"] ;;
      ret (Redirect "dashboard" [])
    else
      try_except
        (access_token <- session_get "access_token" ;;
         if negb (truthy access_token) then
           logger_error [Lit "No access token available"] ;;
           ret (Redirect "index" [])
         else
           token <- lift (py_getitem access_token "access_token") ;;
           extensions_response <- GoToAPIService.get_extensions net account_key token None None ;;
           extensions <- (if truthy extensions_response
                          then lift (py_get extensions_response "items" (PList []))
                          else ret (PList [])) ;;
           n <- lift (py_len extensions) ;;
           logger_info [Lit "Retrieved "; Fmt (PInt n); Lit " extensions"] ;;
           exts <- lift (py_iter extensions) ;;
           extension_groups <- for_each exts group_extension [] ;;
           ret (Render "extensions.html"
                  [("extension_groups", Groups extension_groups);
                   ("account_key", V account_key)] 200))
        (fun e =>
           logger_error [Lit "Error retrieving extensions: "; fmt_exn e] ;;
           ret (Render "error.html"
                  [("error_message", V (PStr "Failed to retrieve extensions"));
                   ("error_details", T [fmt_exn e])] 200)).

Definition device_models : M flask_response :=
  authenticated <- is_authenticated ;;
  if negb authenticated then ret (Redirect "index" [])
  else
    account_key <- session_get "account_key" ;;
    if negb (truthy account_key) then
      logger_warning [Lit "No account key in session for device models"] ;;
      ret (Redirect "dashboard" [])
    else
      try_except
        (access_token <- session_get "access_token" ;;
         if negb (truthy access_token) then
           logger_error [Lit "No access token available"] ;;
           ret (Redirect "index" [])
         else
           token <- lift (py_getitem access_token "access_token") ;;
           models_response <- GoToAPIService.get_device_models net token None None ;;
           device_models_list <- (if truthy models_response
                                  then lift (py_get models_response "items" (PList []))
                                  else ret (PList [])) ;;
           n <- lift (py_len device_models_list) ;;
           logger_info [Lit "Retrieved "; Fmt (PInt n); Lit " device models"] ;;
           ret (Render "device_models.html"
                  [("device_models", V device_models_list); ("account_key", V account_key)] 200))
        (fun e =>
           logger_error [Lit "Error retrieving device models: "; fmt_exn e] ;;
           ret (Render "error.html"
                  [("error_message", V (PStr "Failed to retrieve device models"));
                   ("error_details", T [fmt_exn e])] 200)).

Definition reboot_device (device_id : string) : M flask_response :=
  authenticated <- is_authenticated ;;
  if negb authenticated then
    ret (Jsonify [("success", V (PBool false)); ("message", V (PStr "Not authenticated"))] 200)
  else
    account_key <- session_get "account_key" ;;
    if negb (truthy account_key) then
      ret (Jsonify [("success", V (PBool false));
                    ("message", V (PStr "No account key in session"))] 200)
    else
      try_except
        (access_token <- session_get "access_token" ;;
         if negb (truthy access_token) then
           ret (Jsonify [("success", V (PBool false));
                         ("message", V (PStr "No access token available"))] 200)
         else
           result <- GoToAPIService.reboot_device net (PStr device_id) access_token ;;
           logger_info [Lit "Device reboot initiated for: "; Fmt (PStr device_id)] ;;
           ret (Jsonify [("success", V (PBool true));
                         ("message", V (PStr "Device reboot initiated successfully"))] 200))
        (fun e =>
           logger_error [Lit "Error rebooting device: "; fmt_exn e] ;;
           ret (Jsonify [("success", V (PBool false));
                         ("message", T [Lit "Failed to reboot device: "; fmt_exn e])] 200)).

Definition resync_device (device_id : string) : M flask_response :=
  authenticated <- is_authenticated ;;
  if negb authenticated then
    ret (Jsonify [("success", V (PBool false)); ("message", V (PStr "Not authenticated"))] 200)
  else
    account_key <- session_get "account_key" ;;
    if negb (truthy account_key) then
      ret (Jsonify [("success", V (PBool false));
                    ("message", V (PStr "No account key in session"))] 200)
    else
      try_except
        (access_token <- session_get "access_token" ;;
         if negb (truthy access_token) then
           ret (Jsonify [("success", V (PBool false));
                         ("message", V (PStr "No access token available"))] 200)
         else
           result <- GoToAPIService.resync_device net (PStr device_id) access_token ;;
           logger_info [Lit "Device resync initiated for: "; Fmt (PStr device_id)] ;;
           ret (Jsonify [("success", V (PBool true));
                         ("message", V (PStr "Device resync initiated successfully"))] 200))
        (fun e =>
           logger_error [Lit "Error resyncing device: "; fmt_exn e] ;;
           ret (Jsonify [("success", V (PBool false));
                         ("message", T [Lit "Failed to resync device: "; fmt_exn e])] 200)).

Definition location_detail (location_id : string) : M flask_response :=
  authenticated <- is_authenticated ;;
  if negb authenticated then
    flash [Lit "Please authenticate first."] "warning" ;;
    ret (Redirect "index" [])
  else
    try_except
      (devices_data <- GoToAPIService.get_location_devices net (PStr location_id) None None ;;
       devices_list <- (if truthy devices_data
                        then lift (py_get devices_data "items" (PList []))
                        else ret (PList [])) ;;
       users_data <- GoToAPIService.get_location_users net (PStr location_id) None None ;;
       users_list <- (if truthy users_data
                      then lift (py_get users_data "items" (PList []))
                      else ret (PList [])) ;;
       ret (Render "location_detail.html"
              [("location_id", V (PStr location_id));
               ("devices", V devices_list);
               ("users", V users_list);
               ("app_title", V (APP_TITLE cfg))] 200))
      (fun e =>
         logger_error [Lit "Error fetching location details: "; fmt_exn e] ;;
         flash [Lit "Error fetching location details: "; fmt_exn e] "error" ;;
         ret (Redirect "dashboard" [])).

Definition api_device_details (device_id : string) : M flask_response :=
  authenticated <- is_authenticated ;;
  if negb authenticated then
    ret (Jsonify [("error", V (PStr "Not authenticated"))] 401)
  else
    try_except
      (access_token <- session_get "access_token" ;;
       if negb (truthy access_token) then
         ret (Jsonify [("error", V (PStr "No access token available"))] 401)
       else
         token <- lift (py_getitem access_token "access_token") ;;
         device_data <- GoToAPIService.get_device_details net (PStr device_id) token ;;
         if is_none device_data then
           ret (Jsonify [("error", V (PStr "Device not found"))] 404)
         else
           ret (JsonifyValue device_data 200))
      (fun e =>
         logger_error [Lit "Error fetching device details: "; fmt_exn e] ;;
         ret (Jsonify [("error", T [fmt_exn e])] 500)).

Definition device_details (device_key : string) : M flask_response :=
  authenticated <- is_authenticated ;;
  if negb authenticated then ret (Redirect "index" [])
  else
    try_except
      (account_key <- session_get "account_key" ;;
       access_token <- session_get "access_token" ;;
       if negb (truthy account_key) then
         flash [Lit "Please set your account key in the dashboard first."] "warning" ;;
         ret (Redirect "dashboard" [])
       else if negb (truthy access_token) then
         flash [Lit "Authentication required."] "warning" ;;
         ret (Redirect "index" [])
       else
         token <- lift (py_getitem access_token "access_token") ;;
         device_data <- GoToAPIService.get_device_details net (PStr device_key) token ;;
         if negb (truthy device_data) then
           flash [Lit "Device not found."] "error" ;;
           ret (Redirect "devices" [])
         else
           ret (Render "device_detail.html"
                  [("device", V device_data); ("account_key", V account_key)] 200))
      (fun e =>
         logger_error [Lit "Error loading device details: "; fmt_exn e] ;;
         flash [Lit "Error loading device details: "; fmt_exn e] "error" ;;
         ret (Redirect "devices" [])).

Definition device_location (device_key : string) : M flask_response :=
  authenticated <- is_authenticated ;;
  if negb authenticated then ret (Redirect "index" [])
  else
    try_except
      (account_key <- session_get "account_key" ;;
       access_token <- session_get "access_token" ;;
       if negb (truthy account_key) then
         flash [Lit "Please set your account key in the dashboard first."] "warning" ;;
         ret (Redirect "dashboard" [])
       else
         token <- lift (py_getitem access_token "access_token") ;;
         device_data <- GoToAPIService.get_device_details net (PStr device_key) token ;;
         no_location <- (if negb (truthy device_data) then ret true
                         else (l <- lift (py_get device_data "location" PNone) ;;
                               ret (negb (truthy l)))) ;;
         if no_location then
           flash [Lit "Device or location not found."] "error" ;;
           ret (Redirect "devices" [])
         else
           location <- lift (py_getitem device_data "location") ;;
           key <- lift (py_get location "key" PNone) ;;
           location_id <- (if truthy key then ret key
                           else (location <- lift (py_getitem device_data "location") ;;
                                 lift (py_get location "id" PNone))) ;;
           if truthy location_id then
             ret (Redirect "location_detail" [("location_id", location_id)])
           else
             flash [Lit "Location information not available for this device."] "warning" ;;
             ret (Redirect "device_details" [("device_key", PStr device_key)]))
      (fun e =>
         logger_error [Lit "Error loading device location: "; fmt_exn e] ;;
         flash [Lit "Error loading device location: "; fmt_exn e] "error" ;;
         ret (Redirect "devices" [])).

Definition phone_number_details (phone_number_id : string) : M flask_response :=
  authenticated <- is_authenticated ;;
  if negb authenticated then ret (Redirect "index" [])
  else
    account_key <- session_get "account_key" ;;
    if negb (truthy account_key) then
      flash [Lit "Please set your account key in the dashboard first."] "warning" ;;
      ret (Redirect "dashboard" [])
    else
      try_except
        (token <- session_getitem "access_token" ;;
         access_token <- lift (py_getitem token "access_token") ;;
         phone_number_data <-
           GoToAPIService.get_phone_number_details net (PStr phone_number_id) access_token ;;
         if is_none phone_number_data then
           flash [Lit "Phone number not found or access denied."] "error" ;;
           ret (Redirect "phone_numbers" [])
         else
           ret (Render "phone_number_detail.html"
                  [("phone_number", V phone_number_data); ("account_key", V account_key)] 200))
        (fun e =>
           logger_error [Lit "Error loading phone number details: "; fmt_exn e] ;;
           flash [Lit "Error loading phone number details: "; fmt_exn e] "error" ;;
           ret (Redirect "phone_numbers" [])).

Definition favicon : M flask_response := ret (Body "" 204).

Definition reboot_device_api (request : flask_request) : M flask_response :=
  authenticated <- is_authenticated ;;
  if negb authenticated then
    ret (Jsonify [("success", V (PBool false)); ("error", V (PStr "Not authenticated"))] 401)
  else
    try_except
      (data <- lift (get_json request) ;;
       device_key <- lift (py_get data "device_key" PNone) ;;
       if negb (truthy device_key) then
         ret (Jsonify [("success", V (PBool false));
                       ("error", V (PStr "Device key is required"))] 200)
       else
         account_key <- session_get "account_key" ;;
         access_token <- session_get "access_token" ;;
         if negb (truthy access_token) then
           ret (Jsonify [("success", V (PBool false));
                         ("error", V (PStr "No access token available"))] 200)
         else
           token <- lift (py_getitem access_token "access_token") ;;
           result <- GoToAPIService.reboot_device net device_key token ;;
           ret (Jsonify [("success", V (PBool true)); ("result", V result)] 200))
      (fun e =>
         ret (Jsonify [("success", V (PBool false)); ("error", T [fmt_exn e])] 200)).

Definition resync_device_api (request : flask_request) : M flask_response :=
  authenticated <- is_authenticated ;;
  if negb authenticated then
    ret (Jsonify [("success", V (PBool false)); ("error", V (PStr "Not authenticated"))] 401)
  else
    try_except
      (data <- lift (get_json request) ;;
       device_key <- lift (py_get data "device_key" PNone) ;;
       if negb (truthy device_key) then
         ret (Jsonify [("success", V (PBool false));
                       ("error", V (PStr "Device key is required"))] 200)
       else
         account_key <- session_get "account_key" ;;
         access_token <- session_get "access_token" ;;
         if negb (truthy access_token) then
           ret (Jsonify [("success", V (PBool false));
                         ("error", V (PStr "No access token available"))] 200)
         else
           token <- lift (py_getitem access_token "access_token") ;;
           result <- GoToAPIService.resync_device net device_key token ;;
           ret (Jsonify [("success", V (PBool true)); ("result", V result)] 200))
      (fun e =>
         ret (Jsonify [("success", V (PBool false)); ("error", T [fmt_exn e])] 200)).

Definition device_management : M flask_response :=
  authenticated <- is_authenticated ;;
  if negb authenticated then ret (Redirect "index" [])
  else
    try_except
      (account_key <- session_get "account_key" ;;
       access_token <- session_get "access_token" ;;
       if negb (truthy account_key) then
         flash [Lit "Please set your account key in the dashboard first."] "warning" ;;
         ret (Redirect "dashboard" [])
       else
         token <- lift (py_getitem access_token "access_token") ;;
         devices_data <- GoToAPIService.get_devices net account_key token None None ;;
         devices <- (if truthy devices_data
                     then lift (py_get devices_data "items" (PList []))
                     else ret (PList [])) ;;
         ret (Render "device_management.html" [("devices", V devices)] 200))
      (fun e =>
         flash [Lit "Error loading device management: "; fmt_exn e] "error" ;;
         ret (Redirect "dashboard" [])).

Definition extension_details (extension_id : string) : M flask_response :=
  authenticated <- is_authenticated ;;
  if negb authenticated then ret (Redirect "index" [])
  else
    try_except
      (flash [Lit "Extension details view not yet implemented"] "info" ;;
       ret (Redirect "extensions" []))
      (fun e =>
         flash [Lit "Error loading extension details: "; fmt_exn e] "error" ;;
         ret (Redirect "extensions" [])).

Definition debug_session (request : flask_request) : M flask_response :=
  if negb (DEBUG cfg) then ret (Body "Debug mode only" 403)
  else
    keys <- session_keys ;;
    oauth_state <- session_get "oauth_state" ;;
    ret (Jsonify [("session_keys", V (PList (map PStr keys)));
                  ("oauth_state", V oauth_state);
                  ("session_id", V (multidict_get (cookies request) "session"))] 200).

(** The handlers that start by checking [is_authenticated], each with the
    path parameters of its route. *)
Inductive protected : Type :=
| Dashboard | Locations | Devices | DeviceLocations | PhoneNumbers | Extensions
| DeviceModels
| RebootDeviceById (device_id : string)
| ResyncDeviceById (device_id : string)
| LocationDetail (location_id : string)
| ApiDeviceDetails (device_id : string)
| DeviceDetails (device_key : string)
| DeviceLocation (device_key : string)
| PhoneNumberDetails (phone_number_id : string)
| RebootDeviceApi | ResyncDeviceApi | DeviceManagement
| ExtensionDetails (extension_id : string).

Definition serve (r : protected) (request : flask_request) : M flask_response :=
  match r with
  | Dashboard => dashboard request
  | Locations => locations request
  | Devices => devices request
  | DeviceLocations => device_locations
  | PhoneNumbers => phone_numbers
  | Extensions => extensions
  | DeviceModels => device_models
  | RebootDeviceById d => reboot_device d
  | ResyncDeviceById d => resync_device d
  | LocationDetail l => location_detail l
  | ApiDeviceDetails d => api_device_details d
  | DeviceDetails d => device_details d
  | DeviceLocation d => device_location d
  | PhoneNumberDetails p => phone_number_details p
  | RebootDeviceApi => reboot_device_api request
  | ResyncDeviceApi => resync_device_api request
  | DeviceManagement => device_management
  | ExtensionDetails e => extension_details e
  end.
End Handlers.

(** What a protected handler answers to a caller it takes for
    unauthenticated: a redirect to the home page, or a JSON refusal. *)
Definition refusal (r : flask_response) : bool :=
  match r with
  | Redirect "index" [] => true
  | Jsonify [("success", V (PBool false)); ("message", V (PStr "Not authenticated"))] 200 => true
  | Jsonify [("success", V (PBool false)); ("error", V (PStr "Not authenticated"))] 401 => true
  | Jsonify [("error", V (PStr "Not authenticated"))] 401 => true
  | _ => false
  end.
End App.

(* ===================================================================== *)
(** ** Vocabulary of the properties                                       *)
(* ===================================================================== *)

(** The world after one more log line, and after one more request. *)
Definition logged (l : level) (msg : text) (w : world) : world :=
  mkWorld (w_log w ++ [(l, msg)]) (w_net w) (w_session w) (w_flashes w).

Definition sent (rq : request) (w : world) : world :=
  mkWorld (w_log w) (w_net w ++ [Http rq]) (w_session w) (w_flashes w).

(** The request [_make_authenticated_request] builds from its arguments. *)
Definition request_of (method : string) (endpoint : text) (access_token : pyval)
    (kw : kwargs) : request :=
  mkRequest (upper method)
    ([Lit GoToAPIService.base_url; Lit "/"] ++ text_lstrip_slash endpoint)
    (match kw_headers kw with
     | Some h => Dict.update [("Authorization", [Lit "Bearer "; Fmt access_token]);
                              ("Content-Type", [Lit "application/json"])] h
     | None => [("Authorization", [Lit "Bearer "; Fmt access_token]);
                ("Content-Type", [Lit "application/json"])]
     end)
    (kw_rest kw).

(** The table of operations of the specification: method, endpoint, log
    line and query parameters of each. *)
Definition method_of (op : GoToAPIService.operation) : string :=
  match op with
  | GoToAPIService.RebootDevice _ _ | GoToAPIService.ResyncDevice _ _ => "POST"
  | _ => "GET"
  end.

Definition endpoint_of (op : GoToAPIService.operation) : text :=
  match op with
  | GoToAPIService.AccountInfo k _ => [Lit "accounts/"; Fmt k]
  | GoToAPIService.ListLocations _ _ _ _ => [Lit "locations"]
  | GoToAPIService.ListDevices _ _ _ _ => [Lit "devices"]
  | GoToAPIService.DeviceDetail d _ => [Lit "devices/"; Fmt d]
  | GoToAPIService.LocationDevices l _ _ => [Lit "locations/"; Fmt l; Lit "/devices"]
  | GoToAPIService.LocationUsers l _ _ => [Lit "locations/"; Fmt l; Lit "/users"]
  | GoToAPIService.ListExtensions _ _ _ _ => [Lit "extensions"]
  | GoToAPIService.ListPhoneNumbers _ _ _ _ => [Lit "phone-numbers"]
  | GoToAPIService.PhoneNumberDetail p _ => [Lit "phone-numbers/"; Fmt p]
  | GoToAPIService.ListDeviceModels _ _ _ => [Lit "device-models"]
  | GoToAPIService.DeviceButtons d _ => [Lit "devices/"; Fmt d; Lit "/buttons-configuration"]
  | GoToAPIService.RebootDevice d _ => [Lit "devices/"; Fmt d; Lit "/reboot"]
  | GoToAPIService.ResyncDevice d _ => [Lit "devices/"; Fmt d; Lit "/resync"]
  | GoToAPIService.ExtensionDetail e _ => [Lit "extensions/"; Fmt e]
  end.

Definition info_of (op : GoToAPIService.operation) : text :=
  match op with
  | GoToAPIService.AccountInfo k _ => [Lit "Getting account info for account: "; Fmt k]
  | GoToAPIService.ListLocations k _ _ _ => [Lit "Getting locations for account: "; Fmt k]
  | GoToAPIService.ListDevices k _ _ _ => [Lit "Getting devices for account: "; Fmt k]
  | GoToAPIService.DeviceDetail d _ => [Lit "Getting device details for device: "; Fmt d]
  | GoToAPIService.LocationDevices l _ _ => [Lit "Getting devices for location: "; Fmt l]
  | GoToAPIService.LocationUsers l _ _ => [Lit "Getting users for location: "; Fmt l]
  | GoToAPIService.ListExtensions k _ _ _ => [Lit "Getting extensions for account: "; Fmt k]
  | GoToAPIService.ListPhoneNumbers k _ _ _ =>
      [Lit "Getting phone numbers for account: "; Fmt k]
  | GoToAPIService.PhoneNumberDetail p _ => [Lit "Getting phone number details for: "; Fmt p]
  | GoToAPIService.ListDeviceModels _ _ _ => [Lit "Getting device models"]
  | GoToAPIService.DeviceButtons d _ =>
      [Lit "Getting button configuration for device: "; Fmt d]
  | GoToAPIService.RebootDevice d _ => [Lit "Rebooting device: "; Fmt d]
  | GoToAPIService.ResyncDevice d _ => [Lit "Resyncing device: "; Fmt d]
  | GoToAPIService.ExtensionDetail e _ => [Lit "Getting extension details for: "; Fmt e]
  end.

(** The query parameters of a paginated call. *)
Definition page_params (account_key : option pyval) (page_size page_marker : option pyval)
  : list (string * pyval) :=
  (match account_key with Some k => [("accountKey", k)] | None => [] end)
  ++ [("pageSize", default_arg (PInt 50) page_size)]
  ++ (if truthy (default_arg PNone page_marker)
      then [("pageMarker", default_arg PNone page_marker)] else []).

Definition kwargs_of (op : GoToAPIService.operation) : kwargs :=
  match op with
  | GoToAPIService.ListLocations k _ ps pm | GoToAPIService.ListDevices k _ ps pm
  | GoToAPIService.ListExtensions k _ ps pm | GoToAPIService.ListPhoneNumbers k _ ps pm =>
      kw_params (page_params (Some k) ps pm)
  | GoToAPIService.ListDeviceModels _ ps pm | GoToAPIService.LocationDevices _ ps pm
  | GoToAPIService.LocationUsers _ ps pm =>
      kw_params (page_params None ps pm)
  | _ => no_kwargs
  end.

(** An upstream reply that is not a 200: another status, or the transport
    raising. *)
Definition upstream_failure (r : reply) : bool :=
  match r with
  | Fails _ => true
  | Answer r => negb (status_code r =? 200)
  end.

(** The [params] a request was sent with. *)
Definition query_params (rq : request) : list (string * pyval) :=
  match Dict.get "params" (rq_kwargs rq) with
  | Some (PDict params) => params
  | _ => []
  end.

(** [d.get(k, dflt)] on the entries of a dictionary. *)
Definition get_or (d : list (string * pyval)) (k : string) (dflt : pyval) : pyval :=
  match Dict.get k d with Some v => v | None => dflt end.

(** The record of the join for a device of a location, with the fixed
    defaults for the fields the upstream leaves out. *)
Definition record_of (location device : list (string * pyval)) : pyval :=
  PDict [("device_id", get_or device "id" PNone);
         ("device_status", get_or device "status" PNone);
         ("license_key", get_or device "licenseKey" PNone);
         ("location_id", get_or location "id" PNone);
         ("location_name", get_or location "name" (PStr "Unknown Location"));
         ("location_address", get_or location "address" (PDict []));
         ("used_for_emergency", get_or location "usedForEmergencyServices" (PBool false))].

(** [entry] is one of the dictionaries a list response holds under
    [items]. *)
Definition listed_in (response : pyval) (entry : list (string * pyval)) : Prop :=
  exists items entries,
    py_getitem response "items" = Return items /\
    py_iter items = Return entries /\
    In (PDict entry) entries.

(** [device] is listed in what [fetch] answered, in some world, for the
    devices of [location]. *)
Definition fetched_for (fetch : pyval -> option pyval -> option pyval -> M pyval)
    (location device : list (string * pyval)) : Prop :=
  exists w devices_response,
    fst (fetch (get_or location "id" PNone) (Some (PInt 100)) None w)
      = Return devices_response /\
    listed_in devices_response device.

(** The token exchange [exchange_code_for_token] asks the provider for. *)
Definition exchange_event (cfg : settings) (code state : pyval) : event :=
  FetchToken (AuthService.client_id cfg) (AuthService.redirect_uri cfg) state
             (AuthService.token_url cfg) code (AuthService.client_secret cfg).

(** [session.get(k)] in a world. *)
Definition session_value (k : string) (w : world) : pyval :=
  match Dict.get k (w_session w) with Some v => v | None => PNone end.

(** What [is_authenticated] decides, as a function of the session. *)
Definition authenticated_session (s : list (string * pyval)) : bool :=
  match Dict.get "access_token" s with
  | Some (PDict d) => Dict.mem "access_token" d
  | _ => false
  end.

(** The phase of a login attempt a session is in. *)
Inductive login_phase : Type := NOT_STARTED | AWAITING_CALLBACK | AUTHENTICATED.

Definition phase_of (s : list (string * pyval)) : login_phase :=
  if authenticated_session s then AUTHENTICATED
  else match Dict.get "oauth_state" s with
       | Some v => if truthy v then AWAITING_CALLBACK else NOT_STARTED
       | None => NOT_STARTED
       end.

(** The account key the [locations] and [devices] handlers work with:
    [session.get('account_key') or request.args.get('account_key')]. *)
Definition effective_key (request : flask_request) (w : world) : pyval :=
  py_or (session_value "account_key" w) (multidict_get (args request) "account_key").


(** A sequence of requests to protected handlers, served one after the
    other on the same session. *)
Fixpoint serve_all (cfg : settings) (net : upstream)
    (rs : list (App.protected * flask_request)) : M (list flask_response) :=
  match rs with
  | [] => ret []
  | (r, request) :: rs' =>
      answer <- App.serve cfg net r request ;;
      answers <- serve_all cfg net rs' ;;
      ret (answer :: answers)
  end.

(* ===================================================================== *)
(** ** Sample inputs                                                      *)
(* ===================================================================== *)

Definition empty_world : world := mkWorld [] [] [] [].

Definition ok (body : pyval) : reply := Answer (mkResponse 200 "" (Return body)).

Definition location_A : pyval := PDict [("id", PStr "A"); ("name", PStr "Alpha")].
Definition location_B : pyval := PDict [("id", PStr "B"); ("name", PStr "Beta")].
Definition device_1 : pyval := PDict [("id", PStr "dev-1"); ("status", PStr "ONLINE")].

(** An upstream with two locations: A holds one device, and the device
    listing of B fails. *)
Definition two_locations : upstream := fun _ rq =>
  match rq_url rq with
  | [_; _; Lit "locations"] => ok (PDict [("items", PList [location_A; location_B])])
  | [_; _; Lit "locations/"; Fmt (PStr "A"); Lit "/devices"] =>
      ok (PDict [("items", PList [device_1])])
  | _ => Answer (mkResponse 500 "Internal Server Error" (Raise (Exn ValueError [])))
  end.

(** A test double for [get_location_devices]: one device at A, a failed
    fetch ([None]) anywhere else. *)
Definition stub_location_devices (location_id : pyval) (page_size page_marker : option pyval)
  : M pyval :=
  ret (if py_eq location_id (PStr "A") then PDict [("items", PList [device_1])] else PNone).

(** A test double that finds one device without any field at every
    location. *)
Definition stub_bare_device (location_id : pyval) (page_size page_marker : option pyval)
  : M pyval :=
  ret (PDict [("items", PList [PDict []])]).

(** An upstream with a single location that has no field at all. *)
Definition one_bare_location : upstream := fun _ _ =>
  ok (PDict [("items", PList [PDict []])]).

Definition failing_upstream : upstream := fun _ _ =>
  Answer (mkResponse 500 "Internal Server Error" (Raise (Exn ValueError []))).

(** The body of the specification's example. *)
Definition example_body : pyval :=
  PDict [("items", PList [PDict [("id", PStr "1")]]); ("nextPageMarker", PStr "abc")].

Definition example_upstream : upstream := fun _ _ => ok example_body.

Definition sample_settings : settings :=
  mkSettings (PStr "client-id") (PStr "client-secret")
             (PStr "http://localhost:5000/auth/callback")
             (PStr "https://authentication.logmeininc.com/oauth/authorize")
             (PStr "https://authentication.logmeininc.com/oauth/token")
             (PStr "GoTo Device Location Manager") true.

(** The library against a provider that accepts every code: the
    authorization URL carries the state it is given, and [fetch_token],
    called with [code] and no [authorization_response], posts the code
    without looking at the state. *)
Definition accepting_provider : oauthlib :=
  mkOauthlib
    (fun client_id scope redirect_uri state auth_url => Return (auth_url, state))
    (fun _ ev =>
       match ev with
       | Http _ => Raise (Exn OtherException [])
       | _ => Return (PDict [("access_token", PStr "tok"); ("token_type", PStr "Bearer")])
       end).

(** A session that is signed in, with or without an account key. *)
Definition signed_in (account_key : option string) : world :=
  mkWorld [] []
    (("access_token", PDict [("access_token", PStr "tok")])
     :: match account_key with Some k => [("account_key", PStr k)] | None => [] end)
    [].

(** A GET request with the given URL parameters. *)
Definition get_request (url_args : list (string * string)) : flask_request :=
  mkFlaskRequest "GET" url_args [] (Return PNone) [].

(** A session waiting for the callback of a login started with state
    [issued]. *)
Definition awaiting_callback (issued : string) : world :=
  mkWorld [] [] [("oauth_state", PStr issued)] [].

(** Calls of the client used as examples. *)
Definition list_locations_call : GoToAPIService.operation :=
  GoToAPIService.ListLocations (PStr "acct") (PStr "tok") None None.

Definition list_with_marker : GoToAPIService.operation :=
  GoToAPIService.ListLocations (PStr "acct") (PStr "tok") None (Some (PStr "abc")).

Definition list_with_empty_marker : GoToAPIService.operation :=
  GoToAPIService.ListLocations (PStr "acct") (PStr "tok") None (Some (PStr "")).

(** The request an example call sends when its token is "tok". *)
Definition request_for (op : GoToAPIService.operation) : request :=
  request_of (method_of op) (endpoint_of op) (PStr "tok") (kwargs_of op).

(** A token structure without [access_token]. *)
Definition refresh_only_token : pyval := PDict [("refresh_token", PStr "r")].

(** A request to [locations] whose URL carries an account key, on a session
    that already holds another one, and on a session that holds none. *)
Definition url_key_request : flask_request := get_request [("account_key", "URL-KEY")].
Definition session_with_key : world := signed_in (Some "SESSION-KEY").
Definition session_without_key : world := signed_in None.

(** A callback whose state is not the one the login was started with. *)
Definition forged_callback : flask_request :=
  get_request [("code", "the-code"); ("state", "forged")].

(** The record of a device without fields at a location without fields. *)
Definition bare_record : pyval := record_of [] [].

(* ===================================================================== *)
(** ** app/config.py: the start-up check                                  *)
(* ===================================================================== *)

(** [getattr(Config, var)] for the variables [validate] asks for. *)
Definition config_attr (cfg : settings) (var : string) : outcome pyval :=
  if String.eqb var "GOTO_CLIENT_ID" then Return (GOTO_CLIENT_ID cfg)
  else if String.eqb var "GOTO_CLIENT_SECRET" then Return (GOTO_CLIENT_SECRET cfg)
  else Raise (Exn AttributeError [Lit var]).

(** [[var for var in vars if not getattr(cls, var)]] *)
Fixpoint unset_variables (cfg : settings) (vars : list string) : outcome (list string) :=
  match vars with
  | [] => Return []
  | var :: vars' =>
      match config_attr cfg var with
      | Raise e => Raise e
      | Return v =>
          match unset_variables cfg vars' with
          | Raise e => Raise e
          | Return rest => Return (if negb (truthy v) then var :: rest else rest)
          end
      end
  end.

(** [Config.validate()] *)
Definition validate (cfg : settings) : outcome bool :=
  let required_vars := ["GOTO_CLIENT_ID"; "GOTO_CLIENT_SECRET"] in
  match unset_variables cfg required_vars with
  | Raise e => Raise e
  | Return missing =>
      match missing with
      | [] => Return true
      | _ =>
          Raise (Exn ValueError
                   [Lit "Missing required environment variables: ";
                    Fmt (PStr (String.concat ", " missing))])
      end
  end.

(* ===================================================================== *)
(** ** Vocabulary of the further properties                               *)
(* ===================================================================== *)

(** The headers every request of the client is sent with. *)
Definition bearer_headers (access_token : pyval) : list (string * text) :=
  [("Authorization", [Lit "Bearer "; Fmt access_token]);
   ("Content-Type", [Lit "application/json"])].

(** The error line logged for an exception caught around the request. *)
Definition caught_line (e : exn) : text :=
  [Lit (match exn_class e with
        | RequestException => "API request failed: "
        | _ => "Unexpected error making API request: "
        end); fmt_exn e].

(** The error line logged for an answer that is not a 200. *)
Definition status_line (r : response) : text :=
  if status_code r =? 401
  then [Lit "Authentication failed - token may be expired"]
  else [Lit "API request failed with status "; Fmt (PInt (status_code r));
        Lit ": "; Lit (resp_text r)].

(** The error line an upstream failure is logged with: the caught
    exception of the transport, or the status of the answer. *)
Definition failure_line (r : reply) : text :=
  match r with
  | Fails e => caught_line e
  | Answer r => status_line r
  end.

(** The request [is_token_valid] probes the upstream with. *)
Definition probe_request (access_token : pyval) : request :=
  mkRequest "get" [Lit "https://api.jive.com/voice-admin/v1/accounts"]
    [("Authorization", [Lit "Bearer "; Fmt access_token])]
    [("timeout", PInt 10)].

(** The line the join logs first. *)
Definition join_line (account_key : pyval) : text :=
  [Lit "Searching devices by location for account: "; Fmt account_key].

(** The [ValueError] of [validate] for the variables named in [names]. *)
Definition missing_variables (names : string) : exn :=
  Exn ValueError [Lit "Missing required environment variables: "; Fmt (PStr names)].

(** An [AuthenticationError] that wraps its [cause] behind [prefix]. *)
Definition wrapped (prefix : string) (cause : exn) : exn :=
  Exn AuthenticationError [Lit prefix; fmt_exn cause].

(** The call of the library that refreshes a token. *)
Definition refresh_event (cfg : settings) (refresh_token : pyval) : event :=
  RefreshToken (AuthService.client_id cfg) (AuthService.token_url cfg) refresh_token
               (AuthService.client_secret cfg).

(** What [oauth.authorization_url] answers in a deployment. *)
Definition library_url (cfg : settings) (lib : oauthlib) (state : pyval)
  : outcome (pyval * pyval) :=
  oauth_authorization_url lib (AuthService.client_id cfg) AuthService.scope
    (AuthService.redirect_uri cfg) state (AuthService.auth_url cfg).

(** A whole login: the start of the flow, then the provider's callback. *)
Definition login_flow (cfg : settings) (lib : oauthlib) (token_urlsafe : string)
    (callback : flask_request) : M flask_response :=
  _ <- App.authenticate cfg lib token_urlsafe ;;
  App.auth_callback cfg lib callback.

(** The protected handlers that ask for an account key before they do
    anything else. *)
Definition needs_account_key (r : App.protected) : bool :=
  match r with
  | App.Locations | App.Devices | App.DeviceLocations | App.PhoneNumbers
  | App.Extensions | App.DeviceModels | App.RebootDeviceById _
  | App.ResyncDeviceById _ | App.DeviceDetails _ | App.DeviceLocation _
  | App.PhoneNumberDetails _ | App.DeviceManagement => true
  | _ => false
  end.

(** What such a handler answers when it finds no account key. *)
Definition asks_for_account_key (r : flask_response) : bool :=
  match r with
  | Redirect "dashboard" [] => true
  | Jsonify [("success", V (PBool false));
             ("message", V (PStr "No account key in session"))] 200 => true
  | _ => false
  end.

(** A computation that answers in every world: it never raises. *)
Definition always_answers {A} (m : M A) : Prop :=
  forall w, exists a w', m w = (Return a, w').

(** The number of members over all the groups of a grouping. *)
Definition members_total {A} (g : list (pyval * list A)) : nat :=
  length (concat (map snd g)).

(** The type an extension is grouped under. *)
Definition extension_type (ext : list (string * pyval)) : pyval :=
  get_or ext "type" (PStr "UNKNOWN").

(* ===================================================================== *)
(** ** Further sample inputs                                              *)
(* ===================================================================== *)

(** An upstream that answers 200 with a body that is not JSON. *)
Definition unparsable_upstream : upstream := fun _ _ =>
  Answer (mkResponse 200 "<html>" (Raise (Exn RequestException [Lit "Expecting value"]))).

(** An upstream that refuses the token. *)
Definition unauthorized_upstream : upstream := fun _ _ =>
  Answer (mkResponse 401 "Unauthorized" (Raise (Exn RequestException []))).

Definition unauthorized_response : response :=
  mkResponse 401 "Unauthorized" (Raise (Exn RequestException [])).

Definition example_response : response := mkResponse 200 "" (Return example_body).

(** The entries of the sample locations and device. *)
Definition entries_A : list (string * pyval) := [("id", PStr "A"); ("name", PStr "Alpha")].
Definition entries_B : list (string * pyval) := [("id", PStr "B"); ("name", PStr "Beta")].
Definition entries_device_1 : list (string * pyval) :=
  [("id", PStr "dev-1"); ("status", PStr "ONLINE")].

(** The token the accepting provider hands out. *)
Definition sample_token : list (string * pyval) :=
  [("access_token", PStr "tok"); ("token_type", PStr "Bearer")].

(** A callback that brings back the state "issued". *)
Definition matching_callback : flask_request :=
  get_request [("code", "the-code"); ("state", "issued")].

(** The account-key form of the dashboard, filled in. *)
Definition key_form : flask_request :=
  mkFlaskRequest "POST" [] [("account_key", "NEW-KEY")] (Return PNone) [].

(** Two extensions: a line, and one without a type. *)
Definition sample_extensions : list pyval := [PDict [("type", PStr "LINE")]; PDict []].

Definition sample_groups : list (pyval * list pyval) :=
  [(PStr "LINE", [PDict [("type", PStr "LINE")]]); (PStr "UNKNOWN", [PDict []])].

(* ===================================================================== *)
(** ** Facts about the monad and the dictionaries                         *)
(* ===================================================================== *)

Import GoToAPIService.

Lemma bind_returns {A B} (m : M A) (k : A -> M B) (w w' : world) (b : B) :
  bind m k w = (Return b, w') ->
  exists a w1, m w = (Return a, w1) /\ k a w1 = (Return b, w').
Proof.
  unfold bind. destruct (m w) as [[a|e] w1]; [|discriminate].
  intros H. exists a, w1. split; [reflexivity|exact H].
Qed.

Lemma lift_returns {A} (o : outcome A) (w w' : world) (a : A) :
  lift o w = (Return a, w') -> o = Return a /\ w' = w.
Proof. unfold lift. intros H. inversion H. split; reflexivity. Qed.

Lemma py_get_returns (v : pyval) (k : string) (dflt r : pyval) :
  py_get v k dflt = Return r -> exists d, v = PDict d /\ r = get_or d k dflt.
Proof.
  destruct v as [| | | | |d]; cbn; try discriminate.
  intros H. exists d. split; [reflexivity|].
  unfold get_or. destruct (Dict.get k d); inversion H; reflexivity.
Qed.

Lemma app_one_neq {A} (l : list A) (x : A) : l <> l ++ [x].
Proof.
  intros H. apply (f_equal (@length A)) in H.
  rewrite length_app in H. cbn in H. lia.
Qed.


Lemma Dict_get_set {V} (k : string) (v : V) (d : list (string * V)) :
  Dict.get k (Dict.set k v d) = Some v.
Proof.
  induction d as [|[k' v'] d IH]; cbn.
  - rewrite String.eqb_refl. reflexivity.
  - destruct (String.eqb k k') eqn:E; cbn; rewrite E; [reflexivity|exact IH].
Qed.

(* ===================================================================== *)
(** ** The authenticated API client                                       *)
(* ===================================================================== *)

Section APIClient.
Variable net : upstream.

(** The three ways [_make_authenticated_request] can go: no token bound,
    a falsy token, a truthy token. *)
Lemma mar_missing_token method endpoint kw w :
  _make_authenticated_request net method endpoint None kw w =
  (Raise missing_access_token, w).
Proof. reflexivity. Qed.

Lemma mar_falsy_token method endpoint t kw w :
  truthy t = false ->
  _make_authenticated_request net method endpoint (Some t) kw w =
  (Return PNone, logged ERROR [Lit "No access token provided - cannot make API request"] w).
Proof. intros H. unfold _make_authenticated_request. rewrite H. reflexivity. Qed.

Lemma mar_truthy_token method endpoint t kw w :
  truthy t = true ->
  let rq := request_of method endpoint t kw in
  _make_authenticated_request net method endpoint (Some t) kw w =
  match net (w_net w) rq with
  | Answer r =>
      if status_code r =? 200 then
        match resp_json r with
        | Return j => (Return j, sent rq w)
        | Raise e =>
            (Return PNone,
             logged ERROR
               [Lit (match exn_class e with
                     | RequestException => "API request failed: "
                     | _ => "Unexpected error making API request: " end); fmt_exn e]
               (sent rq w))
        end
      else if status_code r =? 401 then
        (Return PNone,
         logged ERROR [Lit "Authentication failed - token may be expired"] (sent rq w))
      else
        (Return PNone,
         logged ERROR [Lit "API request failed with status "; Fmt (PInt (status_code r));
                       Lit ": "; Lit (resp_text r)] (sent rq w))
  | Fails e =>
      (Return PNone,
       logged ERROR
         [Lit (match exn_class e with
               | RequestException => "API request failed: "
               | _ => "Unexpected error making API request: " end); fmt_exn e]
         (sent rq w))
  end.
Proof.
  intros H rq. subst rq. unfold _make_authenticated_request. rewrite H. cbn [negb].
  unfold try_except, bind, requests_request, request_of, sent, logged. cbv zeta.
  destruct (net (w_net w) _) as [r|e].
  - destruct (status_code r =? 200).
    + unfold lift. destruct (resp_json r) as [j|e]; [reflexivity|].
      destruct e as [[] msg]; reflexivity.
    + destruct (status_code r =? 401); reflexivity.
  - destruct e as [[] msg]; reflexivity.
Qed.

(** Every operation logs one line and hands over to
    [_make_authenticated_request] with the method, endpoint and parameters
    of the table, and with the access token of [token_of], if any. *)
Lemma call_shape (op : operation) (w : world) :
  call net op w =
  _make_authenticated_request net (method_of op) (endpoint_of op) (token_of op)
    (kwargs_of op) (logged INFO (info_of op) w).
Proof.
  destruct op; try reflexivity;
    cbn [call method_of endpoint_of token_of kwargs_of info_of];
    unfold get_locations, get_devices, get_extensions, get_phone_numbers,
      get_device_models, get_location_devices, get_location_users, page_params;
    cbv zeta;
    destruct (truthy (default_arg PNone page_marker)); reflexivity.
Qed.

(** An operation reaches the upstream only when it is given a truthy access
    token, and then with the request of the table. *)
Lemma call_sends (op : operation) (w : world) (rq : request) :
  w_net (snd (call net op w)) = w_net w ++ [Http rq] ->
  exists t, token_of op = Some t /\ truthy t = true /\
            rq = request_of (method_of op) (endpoint_of op) t (kwargs_of op).
Proof.
  rewrite call_shape. destruct (token_of op) as [t|].
  - destruct (truthy t) eqn:Ht.
    + intros H. exists t. split; [reflexivity|]. split; [exact Ht|].
      rewrite (mar_truthy_token _ _ _ _ _ Ht) in H. cbv zeta in H.
      cbn [logged w_net] in H.
      assert (E : w_net w ++ [Http (request_of (method_of op) (endpoint_of op) t (kwargs_of op))]
                  = w_net w ++ [Http rq]).
      { rewrite <- H. clear H.
        destruct (net _ _) as [r|e]; [|reflexivity].
        destruct (status_code r =? 200);
          [destruct (resp_json r)|destruct (status_code r =? 401)]; reflexivity. }
      apply app_inv_head in E. congruence.
    + rewrite (mar_falsy_token _ _ _ _ _ Ht). cbn. intros H.
      exfalso. exact (app_one_neq _ _ H).
  - rewrite mar_missing_token. cbn. intros H.
    exfalso. exact (app_one_neq _ _ H).
Qed.

Lemma call_with_token (op : operation) (t : pyval) (w : world) :
  token_of op = Some t -> truthy t = true ->
  w_net (snd (call net op w))
  = w_net w ++ [Http (request_of (method_of op) (endpoint_of op) t (kwargs_of op))].
Proof.
  intros Ht Htr. rewrite call_shape, Ht.
  rewrite (mar_truthy_token _ _ _ _ _ Htr). cbv zeta.
  destruct (net _ _) as [r|e]; [|reflexivity].
  destruct (status_code r =? 200);
    [destruct (resp_json r)|destruct (status_code r =? 401)]; reflexivity.
Qed.

(** With an empty or absent ([None]) access token, an operation that takes
    one returns [None] and sends nothing. *)
Lemma empty_token_returns_none (op : operation) (t : pyval) (w : world) :
  token_of op = Some t -> truthy t = false ->
  call net op w =
  (Return PNone,
   logged ERROR [Lit "No access token provided - cannot make API request"]
     (logged INFO (info_of op) w)).
Proof.
  intros Ht Hf. rewrite call_shape, Ht. apply mar_falsy_token. exact Hf.
Qed.


(** The requests an operation adds to the trace. *)
Lemma call_trace (op : operation) (w : world) :
  w_net (snd (call net op w)) = w_net w \/
  exists t, token_of op = Some t /\
    w_net (snd (call net op w))
    = w_net w ++ [Http (request_of (method_of op) (endpoint_of op) t (kwargs_of op))].
Proof.
  destruct (token_of op) as [t|] eqn:Ht.
  - destruct (truthy t) eqn:Htr.
    + right. exists t. split; [reflexivity|]. apply call_with_token; assumption.
    + left. rewrite (empty_token_returns_none _ _ _ Ht Htr). reflexivity.
  - left. rewrite call_shape, Ht. reflexivity.
Qed.


(** C1 (as the code has it): the two operations on a location take no
    access token and pass none on, so every call of them raises [TypeError]
    while binding the arguments of [_make_authenticated_request]; they do
    not return [None].  Nothing is sent: the world only gains the log line. *)
Theorem C1_location_operations_raise
    (location_id : pyval) (page_size page_marker : option pyval) (w : world) :
  get_location_devices net location_id page_size page_marker w
    = (Raise missing_access_token,
       logged INFO [Lit "Getting devices for location: "; Fmt location_id] w)
  /\
  get_location_users net location_id page_size page_marker w
    = (Raise missing_access_token,
       logged INFO [Lit "Getting users for location: "; Fmt location_id] w).
Proof.
  split.
  - exact (call_shape (LocationDevices location_id page_size page_marker) w).
  - exact (call_shape (LocationUsers location_id page_size page_marker) w).
Qed.

(** C5 (as the code has it): the two operations on a location pass no
    access token on, so they raise [TypeError] to the caller whatever the
    upstream would answer, also when it fails on every request; they do not
    return [None] and log no diagnostic.  Every other operation does what
    the claim says: when its request meets a status other than 200 or an
    exception of the transport, it returns [None] and logs that failure as
    one error line. *)
Theorem C5_location_operations_raise_on_upstream_failure (op : operation) (w : world) :
  match token_of op with
  | None =>
      (exists location_id page_size page_marker,
         op = LocationDevices location_id page_size page_marker \/
         op = LocationUsers location_id page_size page_marker) /\
      call net op w = (Raise missing_access_token, logged INFO (info_of op) w)
  | Some t =>
      let rq := request_of (method_of op) (endpoint_of op) t (kwargs_of op) in
      truthy t = true ->
      upstream_failure (net (w_net w) rq) = true ->
      call net op w =
        (Return PNone,
         logged ERROR (failure_line (net (w_net w) rq))
           (sent rq (logged INFO (info_of op) w)))
  end
  /\
  (forall h rq, upstream_failure (failing_upstream h rq) = true) /\
  call failing_upstream (LocationDevices (PStr "loc-1") None None) empty_world
    = (Raise missing_access_token,
       logged INFO [Lit "Getting devices for location: "; Fmt (PStr "loc-1")] empty_world).
Proof.
  split; [|split; [intros h rq; reflexivity|reflexivity]].
  destruct (token_of op) as [t|] eqn:Hop.
  - intros rq Htr Hfail. subst rq.
    rewrite call_shape, Hop, (mar_truthy_token _ _ _ _ _ Htr). cbv zeta.
    cbn [logged w_net].
    destruct (net _ _) as [r|e]; cbn in Hfail; [|reflexivity].
    unfold failure_line, status_line.
    destruct (status_code r =? 200); [discriminate|].
    destruct (status_code r =? 401); reflexivity.
  - split.
    + destruct op; cbn in Hop; try discriminate;
        eexists _, _, _; [left|right]; reflexivity.
    + rewrite call_shape, Hop. reflexivity.
Qed.

(** C6 (as the code has it): the two operations on a location pass no
    access token on, so they raise [TypeError] to the caller and ask the
    upstream nothing: an upstream that would answer 200 is never heard, and
    no parsed body is returned.  Every other operation does what the claim
    says: when its request is answered 200 with a body that parses to
    [body], it returns [body] itself, and the world gains the info line and
    the request, nothing else. *)
Theorem C6_location_operations_raise_under_200 (op : operation) (w : world) :
  match token_of op with
  | None =>
      (exists location_id page_size page_marker,
         op = LocationDevices location_id page_size page_marker \/
         op = LocationUsers location_id page_size page_marker) /\
      call net op w = (Raise missing_access_token, logged INFO (info_of op) w)
  | Some t =>
      let rq := request_of (method_of op) (endpoint_of op) t (kwargs_of op) in
      truthy t = true ->
      forall (r : response) (body : pyval),
        net (w_net w) rq = Answer r ->
        status_code r = 200 ->
        resp_json r = Return body ->
        call net op w = (Return body, sent rq (logged INFO (info_of op) w))
  end
  /\
  (forall h rq, example_upstream h rq = ok example_body) /\
  call example_upstream (LocationDevices (PStr "loc-1") None None) empty_world
    = (Raise missing_access_token,
       logged INFO [Lit "Getting devices for location: "; Fmt (PStr "loc-1")] empty_world)
  /\
  call example_upstream (LocationUsers (PStr "loc-1") None None) empty_world
    = (Raise missing_access_token,
       logged INFO [Lit "Getting users for location: "; Fmt (PStr "loc-1")] empty_world).
Proof.
  split; [|split; [intros h rq; reflexivity|split; reflexivity]].
  destruct (token_of op) as [t|] eqn:Hop.
  - intros rq Htr r body Hr Hs Hj. subst rq.
    rewrite call_shape, Hop, (mar_truthy_token _ _ _ _ _ Htr). cbv zeta.
    cbn [logged w_net]. rewrite Hr, Hs, Hj. reflexivity.
  - split.
    + destruct op; cbn in Hop; try discriminate;
        eexists _, _, _; [left|right]; reflexivity.
    + rewrite call_shape, Hop. reflexivity.
Qed.

(** C9 (amended): every request a paginated list operation sends carries
    [pageSize], 50 when no [page_size] is supplied, and carries [pageMarker]
    exactly when the supplied [page_marker] is truthy (a non-empty string),
    with the value unchanged; an empty [page_marker] is left out. *)
Theorem C9_pagination_parameters (op : operation) (page_size page_marker : option pyval)
    (w : world) (rq : request) :
  pagination_of op = Some (page_size, page_marker) ->
  w_net (snd (call net op w)) = w_net w ++ [Http rq] ->
  Dict.get "pageSize" (query_params rq) = Some (default_arg (PInt 50) page_size)
  /\
  Dict.get "pageMarker" (query_params rq) =
    match page_marker with
    | Some m => if truthy m then Some m else None
    | None => None
    end.
Proof.
  intros Hp Hsent.
  destruct (call_sends _ _ _ Hsent) as (t & Ht & Htr & ->).
  destruct op; cbn in Hp; inversion Hp; subst; cbn in Ht; try discriminate;
    unfold query_params, request_of, page_params; cbn;
    (destruct page_marker as [m|]; cbn; [destruct (truthy m)|]; cbn; split; reflexivity).
Qed.
End APIClient.

(* ===================================================================== *)
(** ** The devices-by-location join                                       *)
(* ===================================================================== *)

Section Join.
Variable net : upstream.

Lemma device_info_returns (lid lname location device r : pyval) (w w' : world) :
  device_info lid lname location device w = (Return r, w') ->
  exists ld dd, location = PDict ld /\ device = PDict dd /\
    r = PDict [("device_id", get_or dd "id" PNone);
               ("device_status", get_or dd "status" PNone);
               ("license_key", get_or dd "licenseKey" PNone);
               ("location_id", lid);
               ("location_name", lname);
               ("location_address", get_or ld "address" (PDict []));
               ("used_for_emergency", get_or ld "usedForEmergencyServices" (PBool false))].
Proof.
  unfold device_info. intros H.
  repeat (apply bind_returns in H; destruct H as (? & ? & H0 & H); cbv beta in H;
          apply lift_returns in H0; destruct H0 as [H0 ->];
          apply py_get_returns in H0; destruct H0 as (? & H0 & ->);
          first [subst device | subst location | (inversion H0; clear H0; subst)]).
  unfold ret in H. inversion H; subst.
  eexists _, _. split; [reflexivity|]. split; reflexivity.
Qed.

(** Invariant of the loop over the devices of one location: what it adds
    to the list are records of that location. *)
Lemma devices_loop_records (lid lname location : pyval) (devices : list pyval) :
  forall (acc data : list pyval) (w w' : world),
  for_each devices
    (fun device device_location_data =>
       info <- device_info lid lname location device ;;
       ret (device_location_data ++ [info])) acc w = (Return data, w') ->
  forall r, In r data ->
    In r acc \/
    exists ld dd, location = PDict ld /\ In (PDict dd) devices /\
      r = PDict [("device_id", get_or dd "id" PNone);
                 ("device_status", get_or dd "status" PNone);
                 ("license_key", get_or dd "licenseKey" PNone);
                 ("location_id", lid);
                 ("location_name", lname);
                 ("location_address", get_or ld "address" (PDict []));
                 ("used_for_emergency", get_or ld "usedForEmergencyServices" (PBool false))].
Proof.
  induction devices as [|device devices IH]; intros acc data w w' H r Hr.
  - cbn in H. inversion H; subst. left; exact Hr.
  - cbn [for_each] in H.
    apply bind_returns in H. destruct H as (acc1 & w1 & Hstep & Hrest).
    apply bind_returns in Hstep. destruct Hstep as (info & w2 & Hinfo & Hret).
    inversion Hret; subst; clear Hret.
    apply device_info_returns in Hinfo. destruct Hinfo as (ld & dd & -> & -> & ->).
    destruct (IH _ _ _ _ Hrest r Hr) as [Hin|(ld' & dd' & E & Hd & ->)].
    + apply in_app_or in Hin. destruct Hin as [Hin|[<-|[]]].
      * left; exact Hin.
      * right. exists ld, dd. split; [reflexivity|]. split; [left; reflexivity|reflexivity].
    + right. exists ld', dd'. split; [exact E|]. split; [right; exact Hd|reflexivity].
Qed.

Lemma location_step_records
    (fetch : pyval -> option pyval -> option pyval -> M pyval)
    (location : pyval) (acc data : list pyval) (w w' : world) :
  location_step fetch location acc w = (Return data, w') ->
  forall r, In r data ->
    In r acc \/
    exists ld dd, location = PDict ld /\ fetched_for fetch ld dd /\ r = record_of ld dd.
Proof.
  unfold location_step. intros H r Hr.
  apply bind_returns in H. destruct H as (lid & w1 & H0 & H); cbv beta in H.
  apply lift_returns in H0. destruct H0 as [H0 ->].
  apply py_get_returns in H0. destruct H0 as (ld & -> & ->).
  apply bind_returns in H. destruct H as (lname & w1 & H0 & H); cbv beta in H.
  apply lift_returns in H0. destruct H0 as [H0 ->].
  apply py_get_returns in H0. destruct H0 as (ld0 & E & ->).
  inversion E; subst ld0; clear E.
  apply bind_returns in H. destruct H as (devices_response & w1 & Hfetch & H); cbv beta in H.
  apply bind_returns in H. destruct H as (has_items & w2 & _ & H); cbv beta in H.
  destruct has_items.
  - apply bind_returns in H. destruct H as (devices & w3 & Hitems & H); cbv beta in H.
    apply lift_returns in Hitems. destruct Hitems as [Hitems ->].
    apply bind_returns in H. destruct H as (devs & w4 & Hiter & H); cbv beta in H.
    apply lift_returns in Hiter. destruct Hiter as [Hiter ->].
    destruct (devices_loop_records _ _ _ _ _ _ _ _ H r Hr)
      as [Hin|(ld' & dd & E & Hdev & ->)].
    + left; exact Hin.
    + inversion E; subst ld'. right. exists ld, dd. split; [reflexivity|].
      split; [|reflexivity].
      exists w, devices_response. split; [rewrite Hfetch; reflexivity|].
      exists devices, devs. split; [exact Hitems|]. split; [exact Hiter|exact Hdev].
  - inversion H; subst. left; exact Hr.
Qed.

(** Invariant of the loop over the locations. *)
Lemma locations_loop_records
    (fetch : pyval -> option pyval -> option pyval -> M pyval)
    (locs : list pyval) :
  forall (acc data : list pyval) (w w' : world),
  for_each locs (location_step fetch) acc w = (Return data, w') ->
  forall r, In r data ->
    In r acc \/
    exists ld dd, In (PDict ld) locs /\ fetched_for fetch ld dd /\ r = record_of ld dd.
Proof.
  induction locs as [|location locs IH]; intros acc data w w' H r Hr.
  - cbn in H. inversion H; subst. left; exact Hr.
  - cbn [for_each] in H.
    apply bind_returns in H. destruct H as (acc1 & w1 & Hstep & Hrest).
    destruct (IH _ _ _ _ Hrest r Hr) as [Hin|(ld & dd & Hl & Hf & ->)].
    + destruct (location_step_records _ _ _ _ _ _ Hstep r Hin)
        as [Hacc|(ld & dd & -> & Hf & ->)].
      * left; exact Hacc.
      * right. exists ld, dd. split; [left; reflexivity|]. split; [exact Hf|reflexivity].
    + right. exists ld, dd. split; [right; exact Hl|]. split; [exact Hf|reflexivity].
Qed.

(** The loop of the join does apply the defaults: every record the join
    returns, whatever method answers for
    [self.get_location_devices], is built from a location listed by the
    upstream and from a device fetched for that location, with the fixed
    defaults: [location_name] is 'Unknown Location' when the location has no
    [name], [used_for_emergency] is [False] without
    [usedForEmergencyServices], [location_address] is the empty dictionary
    without [address], and [device_id], [device_status], [license_key] are
    [None] when the device has no [id], [status], [licenseKey]. *)
Lemma join_records_use_defaults_for_any_fetch
    (fetch : pyval -> option pyval -> option pyval -> M pyval)
    (account_key access_token : pyval) (w w' : world)
    (records : list pyval) (record : pyval) :
  search_devices_by_location_via net fetch account_key access_token w
    = (Return (PList records), w') ->
  In record records ->
  exists locations_response location device,
    fst (get_locations net account_key access_token (Some (PInt 100)) None
           (logged INFO [Lit "Searching devices by location for account: "; Fmt account_key]
              w))
      = Return locations_response /\
    listed_in locations_response location /\
    fetched_for fetch location device /\
    record = record_of location device /\
    (Dict.get "name" location = None ->
       py_getitem record "location_name" = Return (PStr "Unknown Location")) /\
    (Dict.get "usedForEmergencyServices" location = None ->
       py_getitem record "used_for_emergency" = Return (PBool false)) /\
    (Dict.get "address" location = None ->
       py_getitem record "location_address" = Return (PDict [])) /\
    (Dict.get "id" device = None -> py_getitem record "device_id" = Return PNone) /\
    (Dict.get "status" device = None -> py_getitem record "device_status" = Return PNone) /\
    (Dict.get "licenseKey" device = None -> py_getitem record "license_key" = Return PNone).
Proof.
  unfold search_devices_by_location_via. intros H Hr.
  apply bind_returns in H. destruct H as ([] & w1 & Hlog & H); cbv beta in H.
  inversion Hlog; subst w1; clear Hlog.
  apply bind_returns in H. destruct H as (locations_response & w2 & Hloc & H); cbv beta in H.
  apply bind_returns in H. destruct H as (failed & w3 & _ & H); cbv beta in H.
  destruct failed.
  - apply bind_returns in H. destruct H as (? & w4 & _ & H). inversion H; subst.
    destruct Hr.
  - apply bind_returns in H. destruct H as (locations & w4 & Hitems & H); cbv beta in H.
    apply lift_returns in Hitems. destruct Hitems as [Hitems ->].
    apply bind_returns in H. destruct H as (locs & w5 & Hiter & H); cbv beta in H.
    apply lift_returns in Hiter. destruct Hiter as [Hiter ->].
    apply bind_returns in H. destruct H as (data & w6 & Hloop & H); cbv beta in H.
    apply bind_returns in H. destruct H as (n & w7 & _ & H); cbv beta in H.
    apply bind_returns in H. destruct H as (? & w8 & _ & H). inversion H; subst.
    destruct (locations_loop_records _ _ _ _ _ _ Hloop record Hr)
      as [[]|(ld & dd & Hl & Hf & ->)].
    exists locations_response, ld, dd.
    split; [unfold logged; rewrite Hloc; reflexivity|].
    split; [exists locations, locs; repeat split; assumption|].
    split; [exact Hf|]. split; [reflexivity|].
    repeat split; intros E; cbn; unfold get_or; rewrite E; reflexivity.
Qed.

(** With the class's own [get_location_devices], which raises at every
    call, the join never gets as far as building a record: whenever it
    returns a list, the list is empty. *)
Lemma shipped_join_returns_no_record (account_key access_token : pyval) (w w' : world)
    (records : list pyval) :
  search_devices_by_location net account_key access_token w = (Return (PList records), w') ->
  records = [].
Proof.
  unfold search_devices_by_location, search_devices_by_location_via. intros H.
  apply bind_returns in H. destruct H as (? & w1 & _ & H); cbv beta in H.
  apply bind_returns in H. destruct H as (locations_response & w2 & _ & H); cbv beta in H.
  apply bind_returns in H. destruct H as (failed & w3 & _ & H); cbv beta in H.
  destruct failed.
  - apply bind_returns in H. destruct H as (? & w4 & _ & H). inversion H; reflexivity.
  - apply bind_returns in H. destruct H as (locations & w4 & _ & H); cbv beta in H.
    apply bind_returns in H. destruct H as (locs & w5 & _ & H); cbv beta in H.
    apply bind_returns in H. destruct H as (data & w6 & Hloop & H); cbv beta in H.
    apply bind_returns in H. destruct H as (n & w7 & _ & H); cbv beta in H.
    apply bind_returns in H. destruct H as (? & w8 & _ & H). inversion H; subst.
    destruct records as [|r rest]; [reflexivity|exfalso].
    destruct (locations_loop_records _ _ _ _ _ _ Hloop r (or_introl eq_refl))
      as [[]|(ld & dd & _ & (wf & response & Hfetch & _) & _)].
    change (get_location_devices net (get_or ld "id" PNone) (Some (PInt 100)) None wf)
      with (call net (LocationDevices (get_or ld "id" PNone) (Some (PInt 100)) None) wf)
      in Hfetch.
    rewrite call_shape in Hfetch. discriminate Hfetch.
Qed.
End Join.

(** C2 (as the code has it): with two locations A and B upstream, the join
    raises [TypeError] at the first location, at the call of
    [get_location_devices]; it returns no record, and the only request it
    sends is the listing of the locations. *)
Theorem C2_join_raises_on_first_location :
  fst (search_devices_by_location two_locations (PStr "acct") (PStr "tok") empty_world)
    = Raise missing_access_token
  /\
  http_requests (snd (search_devices_by_location two_locations (PStr "acct") (PStr "tok")
                        empty_world))
    = [request_of "GET" [Lit "locations"] (PStr "tok")
         (kw_params [("accountKey", PStr "acct"); ("pageSize", PInt 100)])].
Proof. split; vm_compute; reflexivity. Qed.

(** The loop of the join does skip a location whose fetch failed: run
    against a test double that finds one device at A and fails at B, it
    returns the single record of A. *)
Lemma join_skips_failed_location :
  fst (search_devices_by_location_via two_locations stub_location_devices
         (PStr "acct") (PStr "tok") empty_world)
  = Return (PList [PDict [("device_id", PStr "dev-1");
                          ("device_status", PStr "ONLINE");
                          ("license_key", PNone);
                          ("location_id", PStr "A");
                          ("location_name", PStr "Alpha");
                          ("location_address", PDict []);
                          ("used_for_emergency", PBool false)]]).
Proof. vm_compute. reflexivity. Qed.

(** C10 (as the code has it): the join produces no record at all, so no
    default is ever applied: whenever it returns a list, the list is
    empty.  With one location upstream that has no field, holding one device
    that has no field, it raises [TypeError] at the call of
    [get_location_devices]; it does not return the record with
    'Unknown Location', and the only request it sends is the listing of the
    locations. *)
Theorem C10_join_raises_before_any_default :
  (forall (net : upstream) (account_key access_token : pyval) (w w' : world)
          (records : list pyval) (record : pyval),
     search_devices_by_location net account_key access_token w
       = (Return (PList records), w') ->
     ~ In record records)
  /\
  fst (search_devices_by_location one_bare_location (PStr "acct") (PStr "tok") empty_world)
    = Raise missing_access_token
  /\
  http_requests (snd (search_devices_by_location one_bare_location (PStr "acct") (PStr "tok")
                        empty_world))
    = [request_of "GET" [Lit "locations"] (PStr "tok")
         (kw_params [("accountKey", PStr "acct"); ("pageSize", PInt 100)])].
Proof.
  split; [|split; vm_compute; reflexivity].
  intros net account_key access_token w w' records record H Hin.
  rewrite (shipped_join_returns_no_record net _ _ _ _ _ H) in Hin. exact Hin.
Qed.

(* ===================================================================== *)
(** ** The session and token manager                                      *)
(* ===================================================================== *)

Section Auth.
Variable cfg : settings.
Variable net : upstream.
Variable lib : oauthlib.

(** C7: for a token that is falsy (None, an empty dictionary), or a
    dictionary without the key [access_token], [is_token_valid] returns
    [False] and leaves the world as it was: no request is sent. *)
Theorem C7_token_without_access_token_is_invalid (token : pyval) (w : world) :
  truthy token = false \/
  (exists d, token = PDict d /\ Dict.get "access_token" d = None) ->
  AuthService.is_token_valid net token w = (Return false, w).
Proof.
  intros [Hf|(d & -> & Hd)]; unfold AuthService.is_token_valid, bind.
  - rewrite Hf. reflexivity.
  - destruct (truthy (PDict d)); [|reflexivity].
    cbn. unfold Dict.mem. rewrite Hd. reflexivity.
Qed.

(** [exchange_code_for_token] asks the provider once, and raises
    [AuthenticationError] exactly when that exchange raises. *)
Lemma exchange_code_for_token_spec (code : pyval) (state : option pyval) (w : world) :
  let ev := exchange_event cfg code (default_arg PNone state) in
  let w1 := mkWorld (w_log w) (w_net w ++ [ev]) (w_session w) (w_flashes w) in
  AuthService.exchange_code_for_token cfg lib code state w =
  match oauth_provider lib (w_net w) ev with
  | Return token =>
      (Return token,
       logged INFO [Lit "Successfully exchanged authorization code for token"] w1)
  | Raise e =>
      (Raise (Exn AuthenticationError [Lit "Failed to exchange code for token: "; fmt_exn e]),
       logged ERROR [Lit "Error exchanging code for token: "; fmt_exn e] w1)
  end.
Proof.
  cbv zeta.
  unfold AuthService.exchange_code_for_token, try_except, bind, AuthService.provider_call,
    exchange_event.
  destruct (oauth_provider lib (w_net w) _); reflexivity.
Qed.

(** C4 (amended): a callback that brings a code, no error, and a state that
    differs from the one in the session (or finds none there) is answered
    by a redirect to the home page with the state-mismatch message; the
    session is left as it was and the provider is not called.
    [exchange_code_for_token] itself compares no state: on these very
    arguments its outcome is the provider's. *)
Theorem C4_state_mismatch_is_rejected_by_the_callback
    (request : flask_request) (w : world) :
  let code := multidict_get (args request) "code" in
  let state := multidict_get (args request) "state" in
  let error := multidict_get (args request) "error" in
  let session_state := session_value "oauth_state" w in
  truthy error = false ->
  truthy code = true ->
  truthy session_state = false \/ py_eq state session_state = false ->
  (exists w',
     App.auth_callback cfg lib request w = (Return (Redirect "index" []), w') /\
     w_session w' = w_session w /\
     w_net w' = w_net w /\
     w_flashes w' = w_flashes w ++
       [([Lit "Authentication failed due to state mismatch. Please try again."], "error")])
  /\
  (forall w0,
     fst (AuthService.exchange_code_for_token cfg lib code (Some state) w0) =
     match oauth_provider lib (w_net w0) (exchange_event cfg code state) with
     | Return token => Return token
     | Raise e =>
         Raise (Exn AuthenticationError [Lit "Failed to exchange code for token: "; fmt_exn e])
     end).
Proof.
  intros code state error session_state He Hc Hm. split.
  - unfold App.auth_callback, try_except. fold code state error.
    unfold bind at 1. unfold logger_info at 1, log.
    unfold bind at 1. unfold session_get at 1.
    unfold bind at 1. unfold logger_info at 1, log.
    rewrite He, Hc. cbn [negb w_session].
    unfold bind at 1. unfold session_get at 1. cbn [w_session].
    fold (session_value "oauth_state" w). fold session_state.
    assert (Hor : negb (truthy session_state) || negb (py_eq state session_state) = true).
    { destruct Hm as [-> | ->]; [reflexivity|apply orb_true_r]. }
    rewrite Hor. cbn. eexists. repeat split.
  - intros w0. rewrite exchange_code_for_token_spec. cbv zeta. cbn [default_arg].
    destruct (oauth_provider lib (w_net w0) _); reflexivity.
Qed.
End Auth.

(* ===================================================================== *)
(** ** The handlers                                                       *)
(* ===================================================================== *)

Section Handlers.
Variable cfg : settings.
Variable net : upstream.

Lemma is_authenticated_spec (w : world) :
  exists l msg,
    App.is_authenticated w = (Return (authenticated_session (w_session w)), logged l msg w).
Proof.
  unfold App.is_authenticated, authenticated_session, bind, session_contains, Dict.mem,
    session_getitem.
  destruct (Dict.get "access_token" (w_session w)) as [token|] eqn:E;
    cbn -[Dict.get]; rewrite ?E.
  - destruct token as [| | | | |d]; cbn -[Dict.get]; try (eexists _, _; reflexivity).
    unfold Dict.mem. destruct (Dict.get "access_token" d); eexists _, _; reflexivity.
  - eexists _, _; reflexivity.
Qed.

(** The entry check of a protected handler, on a session that is not
    authenticated: the handler goes on with its refusal. *)
Lemma guard_rejects {A} (reject body : M A) (w : world) :
  authenticated_session (w_session w) = false ->
  exists l msg,
    bind App.is_authenticated (fun a => if negb a then reject else body) w
    = reject (logged l msg w).
Proof.
  intros Hs. destruct (is_authenticated_spec w) as (l & msg & H).
  exists l, msg. unfold bind. rewrite H, Hs. reflexivity.
Qed.

Lemma rejected (r : App.protected) (request : flask_request) (w : world) :
  authenticated_session (w_session w) = false ->
  exists resp w',
    App.serve cfg net r request w = (Return resp, w') /\
    App.refusal resp = true /\
    w_session w' = w_session w /\ w_net w' = w_net w.
Proof.
  intros Hs.
  destruct r; cbn [App.serve];
    [ unfold App.dashboard; unfold bind at 1; unfold session_keys; unfold bind at 1;
      unfold logger_info, log
    | unfold App.locations | unfold App.devices | unfold App.device_locations
    | unfold App.phone_numbers | unfold App.extensions | unfold App.device_models
    | unfold App.reboot_device | unfold App.resync_device | unfold App.location_detail
    | unfold App.api_device_details | unfold App.device_details
    | unfold App.device_location | unfold App.phone_number_details
    | unfold App.reboot_device_api | unfold App.resync_device_api
    | unfold App.device_management | unfold App.extension_details ];
    match goal with
    | |- context [bind App.is_authenticated (fun a => if negb a then ?rej else ?body) ?w0] =>
        destruct (guard_rejects rej body w0 Hs) as (l & msg & ->)
    end;
    cbn; eexists _, _; repeat split; reflexivity.
Qed.

Lemma serve_all_rejected (rs : list (App.protected * flask_request)) :
  forall w, authenticated_session (w_session w) = false ->
  exists answers w',
    serve_all cfg net rs w = (Return answers, w') /\
    forallb App.refusal answers = true /\
    w_session w' = w_session w /\ w_net w' = w_net w.
Proof.
  induction rs as [|[r request] rs IH]; intros w Hs.
  - exists [], w. repeat split.
  - destruct (rejected r request w Hs) as (a & w1 & E1 & Hr & Hs1 & Hn1).
    assert (Hs' : authenticated_session (w_session w1) = false) by (rewrite Hs1; exact Hs).
    destruct (IH w1 Hs') as (answers & w2 & E2 & Hrs & Hs2 & Hn2).
    exists (a :: answers), w2. cbn [serve_all]. unfold bind. rewrite E1, E2.
    repeat split.
    + cbn. rewrite Hr, Hrs. reflexivity.
    + congruence.
    + congruence.
Qed.

(** C8: logout answers with a redirect to the home page and leaves a
    session without token, account key or OAuth state, back in the phase
    NOT_STARTED; [is_authenticated] is then false, and every protected
    handler served afterwards on that session, in any number and order,
    answers with its refusal and sends nothing upstream. *)
Theorem C8_logout_ends_the_session (w : world)
    (subsequent : list (App.protected * flask_request)) :
  let after := snd (App.logout w) in
  fst (App.logout w) = Return (Redirect "index" []) /\
  Dict.get "access_token" (w_session after) = None /\
  Dict.get "account_key" (w_session after) = None /\
  Dict.get "oauth_state" (w_session after) = None /\
  phase_of (w_session after) = NOT_STARTED /\
  fst (App.is_authenticated after) = Return false /\
  exists answers w',
    serve_all cfg net subsequent after = (Return answers, w') /\
    forallb App.refusal answers = true /\
    w_net w' = w_net after.
Proof.
  cbv zeta. repeat split.
  destruct (serve_all_rejected subsequent (snd (App.logout w)) eq_refl)
    as (answers & w' & E & Hr & _ & Hn).
  exists answers, w'. repeat split; assumption.
Qed.




End Handlers.

(* ===================================================================== *)
(** ** The properties at concrete inputs                                  *)
(* ===================================================================== *)


(** The other branch of the handler: the session holds no account key, and
    the key of the URL is used and stored. *)
Lemma url_key_is_stored_when_the_session_has_none :
  session_value "account_key" session_without_key = PNone /\
  session_value "account_key"
    (snd (App.locations sample_settings example_upstream url_key_request session_without_key))
    = PStr "URL-KEY" /\
  map (fun rq => Dict.get "accountKey" (query_params rq))
    (http_requests
       (snd (App.locations sample_settings example_upstream url_key_request
               session_without_key)))
    = [Some (PStr "URL-KEY")].
Proof. repeat split; vm_compute; reflexivity. Qed.


(** C4, counterexample: the login was started with state "issued"; the
    exchange is called with state "forged" and returns the token. *)
Lemma C4_forged_state_is_exchanged :
  fst (AuthService.get_authorization_url sample_settings accepting_provider
         (Some (PStr "issued")) empty_world)
    = Return (GOTO_AUTH_URL sample_settings, PStr "issued") /\
  py_eq (PStr "forged") (PStr "issued") = false /\
  fst (AuthService.exchange_code_for_token sample_settings accepting_provider
         (PStr "the-code") (Some (PStr "forged")) empty_world)
    = Return (PDict [("access_token", PStr "tok"); ("token_type", PStr "Bearer")]).
Proof. repeat split; vm_compute; reflexivity. Qed.

Lemma C4_witness :
  truthy (multidict_get (args forged_callback) "error") = false /\
  truthy (multidict_get (args forged_callback) "code") = true /\
  py_eq (multidict_get (args forged_callback) "state")
        (session_value "oauth_state" (awaiting_callback "issued")) = false /\
  exists w',
    App.auth_callback sample_settings accepting_provider forged_callback
      (awaiting_callback "issued") = (Return (Redirect "index" []), w') /\
    w_session w' = w_session (awaiting_callback "issued") /\
    w_net w' = w_net (awaiting_callback "issued") /\
    w_flashes w' = w_flashes (awaiting_callback "issued") ++
      [([Lit "Authentication failed due to state mismatch. Please try again."], "error")].
Proof.
  split; [reflexivity|]. split; [reflexivity|]. split; [reflexivity|].
  apply (proj1 (C4_state_mismatch_is_rejected_by_the_callback sample_settings
                  accepting_provider forged_callback (awaiting_callback "issued")
                  eq_refl eq_refl (or_intror eq_refl))).
Defined.

Lemma C7_witness :
  Dict.get "access_token" [("refresh_token", PStr "r")] = None /\
  AuthService.is_token_valid example_upstream refresh_only_token empty_world
    = (Return false, empty_world).
Proof.
  split; [reflexivity|].
  apply (C7_token_without_access_token_is_invalid example_upstream refresh_only_token
           empty_world).
  right. exists [("refresh_token", PStr "r")]. split; reflexivity.
Defined.

(** C9, counterexample: [get_locations] is called with the empty string as
    [page_marker]; the request it sends has no [pageMarker]. *)
Lemma C9_empty_marker_is_dropped :
  pagination_of list_with_empty_marker = Some (None, Some (PStr "")) /\
  map query_params
    (http_requests (snd (call example_upstream list_with_empty_marker empty_world)))
  = [[("accountKey", PStr "acct"); ("pageSize", PInt 50)]].
Proof. split; vm_compute; reflexivity. Qed.

Lemma C9_witness :
  pagination_of list_with_marker = Some (None, Some (PStr "abc")) /\
  w_net (snd (call example_upstream list_with_marker empty_world))
    = w_net empty_world ++ [Http (request_for list_with_marker)] /\
  Dict.get "pageSize" (query_params (request_for list_with_marker)) = Some (PInt 50) /\
  Dict.get "pageMarker" (query_params (request_for list_with_marker)) = Some (PStr "abc").
Proof.
  split; [reflexivity|]. split; [reflexivity|].
  apply (C9_pagination_parameters example_upstream list_with_marker None (Some (PStr "abc"))
           empty_world (request_for list_with_marker)); reflexivity.
Defined.

(** Run against a test double that finds one device without fields at a
    location without fields, the join returns the record made of the
    defaults only. *)
Lemma join_records_use_defaults_with_a_double :
  search_devices_by_location_via one_bare_location stub_bare_device
    (PStr "acct") (PStr "tok") empty_world
  = (Return (PList [bare_record]),
     snd (search_devices_by_location_via one_bare_location stub_bare_device
            (PStr "acct") (PStr "tok") empty_world)) /\
  In bare_record [bare_record] /\
  exists locations_response location device,
    fst (get_locations one_bare_location (PStr "acct") (PStr "tok") (Some (PInt 100)) None
           (logged INFO [Lit "Searching devices by location for account: "; Fmt (PStr "acct")]
              empty_world))
      = Return locations_response /\
    listed_in locations_response location /\
    fetched_for stub_bare_device location device /\
    bare_record = record_of location device /\
    (Dict.get "name" location = None ->
       py_getitem bare_record "location_name" = Return (PStr "Unknown Location")) /\
    (Dict.get "usedForEmergencyServices" location = None ->
       py_getitem bare_record "used_for_emergency" = Return (PBool false)) /\
    (Dict.get "address" location = None ->
       py_getitem bare_record "location_address" = Return (PDict [])) /\
    (Dict.get "id" device = None -> py_getitem bare_record "device_id" = Return PNone) /\
    (Dict.get "status" device = None ->
       py_getitem bare_record "device_status" = Return PNone) /\
    (Dict.get "licenseKey" device = None ->
       py_getitem bare_record "license_key" = Return PNone).
Proof.
  split; [vm_compute; reflexivity|]. split; [left; reflexivity|].
  apply (join_records_use_defaults_for_any_fetch one_bare_location stub_bare_device
           (PStr "acct") (PStr "tok") empty_world
           (snd (search_devices_by_location_via one_bare_location stub_bare_device
                   (PStr "acct") (PStr "tok") empty_world))
           [bare_record] bare_record).
  - vm_compute; reflexivity.
  - left; reflexivity.
Defined.

(* ===================================================================== *)
(** ** Further properties of the API client                               *)
(* ===================================================================== *)

Section APIClientMore.
Variable net : upstream.

(** With an access token in its signature, an operation returns. *)
Lemma call_returns_with_token (op : operation) (t : pyval) (w : world) :
  token_of op = Some t -> exists v, fst (call net op w) = Return v.
Proof.
  intros Hop. rewrite call_shape, Hop.
  destruct (truthy t) eqn:Ht.
  - rewrite (mar_truthy_token _ _ _ _ _ _ Ht). cbv zeta.
    destruct (net _ _) as [r|e]; [|eexists; reflexivity].
    destruct (status_code r =? 200);
      [destruct (resp_json r)|destruct (status_code r =? 401)]; eexists; reflexivity.
  - rewrite (mar_falsy_token _ _ _ _ _ _ Ht). eexists; reflexivity.
Qed.

(** When the upstream fails on whatever it is asked, an operation that
    takes an access token returns [None]; it touches neither the session
    nor the flashed messages. *)
Lemma call_fails_to_none (op : operation) (t : pyval) (w : world) :
  (forall h rq, upstream_failure (net h rq) = true) ->
  token_of op = Some t ->
  exists w',
    call net op w = (Return PNone, w') /\
    w_session w' = w_session w /\
    w_flashes w' = w_flashes w.
Proof.
  intros Hfail Hop. rewrite call_shape, Hop.
  destruct (truthy t) eqn:Ht.
  - rewrite (mar_truthy_token _ _ _ _ _ _ Ht). cbv zeta.
    match goal with |- context [net ?h ?rq] => specialize (Hfail h rq);
      destruct (net h rq) as [r|e] end; [|eexists; repeat split].
    cbn in Hfail. destruct (status_code r =? 200); [discriminate|].
    destruct (status_code r =? 401); eexists; repeat split.
  - rewrite (mar_falsy_token _ _ _ _ _ _ Ht). eexists; repeat split.
Qed.

(** With a truthy access token, an operation sends its request and
    returns; it touches neither the session nor the flashed messages. *)
Lemma call_with_truthy_token (op : operation) (t : pyval) (w : world) :
  token_of op = Some t -> truthy t = true ->
  exists v w',
    call net op w = (Return v, w') /\
    w_net w' = w_net w ++ [Http (request_of (method_of op) (endpoint_of op) t (kwargs_of op))] /\
    w_session w' = w_session w /\
    w_flashes w' = w_flashes w.
Proof.
  intros Hop Ht. rewrite call_shape, Hop, (mar_truthy_token _ _ _ _ _ _ Ht). cbv zeta.
  destruct (net _ _) as [r|e]; [|eexists _, _; repeat split].
  destruct (status_code r =? 200);
    [destruct (resp_json r)|destruct (status_code r =? 401)]; eexists _, _; repeat split.
Qed.

(** X1: An operation of the API client raises exactly when its method passes
    no access token on (the two per-location listings), and then it raises the
    TypeError of the missing argument; every other operation returns a value
    whatever the upstream does. *)
Theorem operation_raises_only_without_token (op : operation) (w : world) :
  match token_of op with
  | Some _ => exists v, fst (call net op w) = Return v
  | None => fst (call net op w) = Raise missing_access_token
  end.
Proof.
  destruct (token_of op) as [t|] eqn:Hop.
  - exact (call_returns_with_token op t w Hop).
  - rewrite call_shape, Hop. reflexivity.
Qed.

(** X2: When an operation sends its request and the upstream answers 200 with
    a body whose JSON decoding raises, the operation returns None and logs the
    caught exception as an error: as 'API request failed' for a
    RequestException, as 'Unexpected error making API request' otherwise. *)
Theorem unparsable_body_is_absent_value (op : operation) (w : world) (rq : request)
    (r : response) (e : exn) :
  w_net (snd (call net op w)) = w_net w ++ [Http rq] ->
  net (w_net w) rq = Answer r ->
  status_code r = 200 ->
  resp_json r = Raise e ->
  call net op w =
  (Return PNone, logged ERROR (caught_line e) (sent rq (logged INFO (info_of op) w))).
Proof.
  intros Hsent Hr Hs Hj.
  destruct (call_sends _ _ _ _ Hsent) as (t & Ht & Htr & ->).
  rewrite call_shape, Ht, (mar_truthy_token _ _ _ _ _ _ Htr). cbv zeta.
  cbn [logged w_net]. rewrite Hr, Hs, Hj. reflexivity.
Qed.

Lemma endpoints_have_no_leading_slash (op : operation) :
  text_lstrip_slash (endpoint_of op) = endpoint_of op.
Proof. destruct op; reflexivity. Qed.

(** X3: An operation sends at most one request; when it sends one, its token
    is truthy and the request goes to base_url + '/' + endpoint with the
    operation's method, the headers Authorization: 'Bearer <token>' and
    Content-Type: application/json, and the operation's keyword arguments. *)
Theorem requests_carry_the_bearer_token (op : operation) (w : world) :
  w_net (snd (call net op w)) = w_net w \/
  exists t,
    token_of op = Some t /\ truthy t = true /\
    w_net (snd (call net op w)) =
    w_net w ++ [Http (mkRequest (method_of op)
                        ([Lit base_url; Lit "/"] ++ endpoint_of op)
                        (bearer_headers t)
                        (kw_rest (kwargs_of op)))].
Proof.
  destruct (call_trace net op w) as [H|(t & Ht & H)]; [left; exact H|].
  right. exists t. split; [exact Ht|].
  assert (Htr : truthy t = true).
  { destruct (truthy t) eqn:E; [reflexivity|].
    rewrite (empty_token_returns_none _ _ _ _ Ht E) in H. cbn in H.
    exfalso. exact (app_one_neq _ _ H). }
  split; [exact Htr|]. rewrite H. unfold request_of.
  rewrite endpoints_have_no_leading_slash.
  destruct op; reflexivity.
Qed.

(** X4: When an operation sends its request and the upstream answers with a
    status other than 200, the operation returns None and logs one error line:
    'Authentication failed - token may be expired' for 401, the status and the
    response text otherwise. *)
Theorem non_200_answers_are_logged (op : operation) (w : world) (rq : request)
    (r : response) :
  w_net (snd (call net op w)) = w_net w ++ [Http rq] ->
  net (w_net w) rq = Answer r ->
  status_code r <> 200 ->
  call net op w =
  (Return PNone, logged ERROR (status_line r) (sent rq (logged INFO (info_of op) w))).
Proof.
  intros Hsent Hr Hs.
  destruct (call_sends _ _ _ _ Hsent) as (t & Ht & Htr & ->).
  rewrite call_shape, Ht, (mar_truthy_token _ _ _ _ _ _ Htr). cbv zeta.
  cbn [logged w_net]. rewrite Hr. unfold status_line.
  destruct (status_code r =? 200) eqn:E; [apply Z.eqb_eq in E; contradiction|].
  destruct (status_code r =? 401); reflexivity.
Qed.
End APIClientMore.

(* ===================================================================== *)
(** ** Further properties of the join                                     *)
(* ===================================================================== *)

Section JoinMore.
Variable net : upstream.

(** X5: When the listing of the locations comes back falsy (None, an empty
    dict) or without the key 'items', the join logs 'Failed to get locations'
    and returns the empty list, without fetching the devices of any location. *)
Theorem join_without_locations_is_empty
    (fetch : pyval -> option pyval -> option pyval -> M pyval)
    (account_key access_token response : pyval) (w w1 : world) :
  get_locations net account_key access_token (Some (PInt 100)) None
    (logged INFO (join_line account_key) w) = (Return response, w1) ->
  truthy response = false \/ py_contains "items" response = Return false ->
  search_devices_by_location_via net fetch account_key access_token w =
  (Return (PList []), logged ERROR [Lit "Failed to get locations"] w1).
Proof.
  intros Hloc Hbad. unfold search_devices_by_location_via.
  unfold bind at 1. unfold logger_info at 1, log.
  change (mkWorld (w_log w ++ [(INFO, [Lit "Searching devices by location for account: ";
                                      Fmt account_key])])
            (w_net w) (w_session w) (w_flashes w))
    with (logged INFO (join_line account_key) w).
  unfold bind at 1. rewrite Hloc.
  unfold bind at 1.
  destruct Hbad as [Hf|Hc].
  - rewrite Hf. reflexivity.
  - destruct (truthy response); [|reflexivity].
    cbn [negb]. unfold bind, lift. rewrite Hc. reflexivity.
Qed.

(** X6: When the listing of the locations has at least one location, the join
    as shipped raises the TypeError of the missing access token at the first
    location, right after the log line of its device fetch. *)
Theorem join_raises_when_a_location_is_listed
    (account_key access_token : pyval) (w w1 : world)
    (body first : list (string * pyval)) (rest : list pyval) :
  get_locations net account_key access_token (Some (PInt 100)) None
    (logged INFO (join_line account_key) w) = (Return (PDict body), w1) ->
  Dict.get "items" body = Some (PList (PDict first :: rest)) ->
  search_devices_by_location net account_key access_token w =
  (Raise missing_access_token,
   logged INFO [Lit "Getting devices for location: "; Fmt (get_or first "id" PNone)] w1).
Proof.
  intros Hloc Hitems.
  unfold search_devices_by_location, search_devices_by_location_via.
  unfold bind at 1. unfold logger_info at 1, log.
  change (mkWorld (w_log w ++ [(INFO, [Lit "Searching devices by location for account: ";
                                      Fmt account_key])])
            (w_net w) (w_session w) (w_flashes w))
    with (logged INFO (join_line account_key) w).
  unfold bind at 1. rewrite Hloc.
  assert (Ht : truthy (PDict body) = true).
  { destruct body; [discriminate|reflexivity]. }
  unfold bind at 1. rewrite Ht. cbn [negb].
  unfold bind at 1. unfold lift at 1. cbn [py_contains]. unfold Dict.mem. rewrite Hitems.
  unfold ret at 1. cbn [negb].
  unfold bind at 1. unfold lift at 1. cbn [py_getitem]. rewrite Hitems.
  unfold bind at 1. unfold lift at 1. cbn [py_iter].
  unfold bind at 1. cbn [for_each]. unfold bind at 1.
  unfold location_step. unfold bind at 1. unfold lift at 1. cbn [py_get].
  fold (get_or first "id" PNone).
  assert (E : match Dict.get "id" first with Some x => Return x | None => Return PNone end
              = Return (get_or first "id" PNone)).
  { unfold get_or. destruct (Dict.get "id" first); reflexivity. }
  rewrite E. unfold bind at 1. unfold lift at 1. cbn [py_get].
  destruct (match Dict.get "name" first with
            | Some x => Return x | None => Return (PStr "Unknown Location") end)
    as [lname|e] eqn:En.
  2:{ destruct (Dict.get "name" first); discriminate. }
  unfold bind at 1.
  change (get_location_devices net (get_or first "id" PNone) (Some (PInt 100)) None w1)
    with (call net (LocationDevices (get_or first "id" PNone) (Some (PInt 100)) None) w1).
  rewrite call_shape. reflexivity.
Qed.

(** X8: In the loop of the join, a location whose device fetch returns a falsy
    value or a value without 'items' leaves the records gathered so far
    unchanged. *)
Theorem failed_fetch_adds_no_record
    (fetch : pyval -> option pyval -> option pyval -> M pyval)
    (location : list (string * pyval)) (acc : list pyval)
    (response : pyval) (w w1 : world) :
  fetch (get_or location "id" PNone) (Some (PInt 100)) None w = (Return response, w1) ->
  truthy response = false \/ py_contains "items" response = Return false ->
  location_step fetch (PDict location) acc w = (Return acc, w1).
Proof.
  intros Hf Hbad. unfold location_step.
  unfold bind at 1. unfold lift at 1. cbn [py_get].
  assert (E : match Dict.get "id" location with Some x => Return x | None => Return PNone end
              = Return (get_or location "id" PNone)).
  { unfold get_or. destruct (Dict.get "id" location); reflexivity. }
  rewrite E. unfold bind at 1. unfold lift at 1.
  destruct (match Dict.get "name" location with
            | Some x => Return x | None => Return (PStr "Unknown Location") end)
    as [lname|e] eqn:En.
  2:{ destruct (Dict.get "name" location); discriminate. }
  unfold bind at 1. rewrite Hf. unfold bind at 1.
  destruct Hbad as [Hb|Hb].
  - rewrite Hb. reflexivity.
  - destruct (truthy response); [|reflexivity].
    unfold lift. rewrite Hb. reflexivity.
Qed.

Lemma device_info_of_dicts (location device : list (string * pyval)) (w : world) :
  device_info (get_or location "id" PNone) (get_or location "name" (PStr "Unknown Location"))
    (PDict location) (PDict device) w
  = (Return (record_of location device), w).
Proof.
  unfold device_info, bind, lift, ret, record_of, get_or. cbn [py_get].
  destruct (Dict.get "id" device), (Dict.get "status" device),
    (Dict.get "licenseKey" device), (Dict.get "address" location),
    (Dict.get "usedForEmergencyServices" location); reflexivity.
Qed.

Lemma devices_loop_of_dicts (location : list (string * pyval))
    (devices : list (list (string * pyval))) :
  forall (acc : list pyval) (w : world),
  for_each (map PDict devices)
    (fun device device_location_data =>
       info <- device_info (get_or location "id" PNone)
                 (get_or location "name" (PStr "Unknown Location"))
                 (PDict location) device ;;
       ret (device_location_data ++ [info])) acc w
  = (Return (acc ++ map (record_of location) devices), w).
Proof.
  induction devices as [|d devices IH]; intros acc w.
  - cbn. rewrite app_nil_r. reflexivity.
  - cbn [map for_each]. unfold bind at 1. unfold bind at 1.
    rewrite device_info_of_dicts. cbn [ret]. unfold ret at 1.
    rewrite IH. rewrite <- app_assoc. reflexivity.
Qed.

(** X9: In the loop of the join, a location whose device fetch returns a dict
    with 'items' appends one record per device, in the order of the devices,
    after the records gathered so far. *)
Theorem fetched_devices_are_appended_in_order
    (fetch : pyval -> option pyval -> option pyval -> M pyval)
    (location body : list (string * pyval)) (devices : list (list (string * pyval)))
    (acc : list pyval) (w w1 : world) :
  fetch (get_or location "id" PNone) (Some (PInt 100)) None w = (Return (PDict body), w1) ->
  Dict.get "items" body = Some (PList (map PDict devices)) ->
  location_step fetch (PDict location) acc w =
  (Return (acc ++ map (record_of location) devices), w1).
Proof.
  intros Hf Hitems. unfold location_step.
  unfold bind at 1. unfold lift at 1. cbn [py_get].
  assert (E : match Dict.get "id" location with Some x => Return x | None => Return PNone end
              = Return (get_or location "id" PNone)).
  { unfold get_or. destruct (Dict.get "id" location); reflexivity. }
  rewrite E.
  assert (E' : match Dict.get "name" location with
               | Some x => Return x | None => Return (PStr "Unknown Location") end
               = Return (get_or location "name" (PStr "Unknown Location"))).
  { unfold get_or. destruct (Dict.get "name" location); reflexivity. }
  unfold bind at 1. unfold lift at 1. rewrite E'.
  unfold bind at 1. rewrite Hf.
  assert (Ht : truthy (PDict body) = true).
  { destruct body; [discriminate|reflexivity]. }
  unfold bind at 1. rewrite Ht. unfold lift at 1. cbn [py_contains]. unfold Dict.mem.
  rewrite Hitems.
  unfold bind at 1. unfold lift at 1. cbn [py_getitem]. rewrite Hitems.
  unfold bind at 1. unfold lift at 1. cbn [py_iter].
  apply devices_loop_of_dicts.
Qed.
End JoinMore.

(* ===================================================================== *)
(** ** Further properties of the session and token manager                *)
(* ===================================================================== *)

Section AuthMore.
Variable cfg : settings.
Variable net : upstream.
Variable lib : oauthlib.

(** X10: get_authorization_url, exchange_code_for_token and
    refresh_access_token return what the OAuth library returns, and turn any
    exception of the library into an AuthenticationError whose message is the
    method's prefix followed by the text of the exception. *)
Theorem auth_service_wraps_every_failure
    (state : option pyval) (code refresh_token : pyval) (w : world) :
  fst (AuthService.get_authorization_url cfg lib state w) =
    match library_url cfg lib (default_arg PNone state) with
    | Return r => Return r
    | Raise e => Raise (wrapped "Failed to generate authorization URL: " e)
    end
  /\
  fst (AuthService.exchange_code_for_token cfg lib code state w) =
    match oauth_provider lib (w_net w) (exchange_event cfg code (default_arg PNone state)) with
    | Return token => Return token
    | Raise e => Raise (wrapped "Failed to exchange code for token: " e)
    end
  /\
  fst (AuthService.refresh_access_token cfg lib refresh_token w) =
    match oauth_provider lib (w_net w) (refresh_event cfg refresh_token) with
    | Return token => Return token
    | Raise e => Raise (wrapped "Failed to refresh token: " e)
    end.
Proof.
  split; [|split].
  - unfold AuthService.get_authorization_url, library_url, try_except, bind, lift.
    cbv zeta. destruct (oauth_authorization_url lib _ _ _ _ _); reflexivity.
  - rewrite exchange_code_for_token_spec. cbv zeta.
    destruct (oauth_provider lib (w_net w) _); reflexivity.
  - unfold AuthService.refresh_access_token, try_except, bind, AuthService.provider_call,
      refresh_event.
    destruct (oauth_provider lib (w_net w) _); reflexivity.
Qed.

Lemma is_token_valid_probe (token : list (string * pyval)) (access_token : pyval)
    (w : world) :
  Dict.get "access_token" token = Some access_token ->
  AuthService.is_token_valid net (PDict token) w =
  match net (w_net w) (probe_request access_token) with
  | Answer r => (Return (status_code r =? 200), sent (probe_request access_token) w)
  | Fails e =>
      (Return false,
       logged WARNING [Lit "Token validation failed: "; fmt_exn e]
         (sent (probe_request access_token) w))
  end.
Proof.
  intros Hk.
  assert (Ht : truthy (PDict token) = true).
  { destruct token; [discriminate|reflexivity]. }
  unfold AuthService.is_token_valid.
  unfold bind at 1. rewrite Ht. cbn [negb].
  unfold bind at 1. unfold lift at 1. cbn [py_contains]. unfold Dict.mem. rewrite Hk.
  unfold ret at 1. cbn [negb].
  unfold try_except. unfold bind at 1. unfold lift at 1. cbn [py_getitem]. rewrite Hk.
  unfold bind at 1. unfold requests_get, requests_request.
  fold (probe_request access_token).
  destruct (net (w_net w) (probe_request access_token)) as [r|e]; reflexivity.
Qed.

(** X11: For a token dict that has the key 'access_token', is_token_valid
    sends exactly one GET to https://api.jive.com/voice-admin/v1/accounts with
    that token as bearer and a timeout of 10, and returns True exactly when
    the answer has status 200; a failed request gives False, not an exception. *)
Theorem token_is_valid_exactly_on_200 (token : list (string * pyval))
    (access_token : pyval) (w : world) :
  Dict.get "access_token" token = Some access_token ->
  fst (AuthService.is_token_valid net (PDict token) w) =
    Return (match net (w_net w) (probe_request access_token) with
            | Answer r => status_code r =? 200
            | Fails _ => false
            end)
  /\
  w_net (snd (AuthService.is_token_valid net (PDict token) w)) =
    w_net w ++ [Http (probe_request access_token)].
Proof.
  intros Hk. rewrite (is_token_valid_probe _ _ _ Hk).
  destruct (net (w_net w) (probe_request access_token)); split; reflexivity.
Qed.
End AuthMore.

(** X12: Config.validate returns True when GOTO_CLIENT_ID and
    GOTO_CLIENT_SECRET are both truthy; otherwise it raises a ValueError whose
    message lists exactly the falsy ones, in that order, separated by ', '. *)
Theorem validate_names_the_unset_variables (cfg : settings) :
  validate cfg =
  match truthy (GOTO_CLIENT_ID cfg), truthy (GOTO_CLIENT_SECRET cfg) with
  | true, true => Return true
  | false, true => Raise (missing_variables "GOTO_CLIENT_ID")
  | true, false => Raise (missing_variables "GOTO_CLIENT_SECRET")
  | false, false => Raise (missing_variables "GOTO_CLIENT_ID, GOTO_CLIENT_SECRET")
  end.
Proof.
  unfold validate. cbn.
  destruct (truthy (GOTO_CLIENT_ID cfg)), (truthy (GOTO_CLIENT_SECRET cfg)); reflexivity.
Qed.

(* ===================================================================== *)
(** ** Further properties of the login handlers                           *)
(* ===================================================================== *)

Lemma Dict_get_remove_same {V} (k : string) (d : list (string * V)) :
  Dict.get k (Dict.remove k d) = None.
Proof.
  induction d as [|[k' v'] d IH]; cbn; [reflexivity|].
  destruct (String.eqb k k') eqn:E; [exact IH|]. cbn. rewrite E. exact IH.
Qed.

Lemma Dict_get_remove_other {V} (k k' : string) (d : list (string * V)) :
  String.eqb k k' = false -> Dict.get k (Dict.remove k' d) = Dict.get k d.
Proof.
  intros Hne. induction d as [|[k0 v0] d IH]; cbn; [reflexivity|].
  destruct (String.eqb k' k0) eqn:E.
  - apply String.eqb_eq in E. subst k0. rewrite Hne. exact IH.
  - cbn. rewrite IH. reflexivity.
Qed.

Lemma Dict_get_set_other {V} (k k' : string) (v : V) (d : list (string * V)) :
  String.eqb k k' = false -> Dict.get k (Dict.set k' v d) = Dict.get k d.
Proof.
  intros Hne. induction d as [|[k0 v0] d IH]; cbn.
  - rewrite Hne. reflexivity.
  - destruct (String.eqb k' k0) eqn:E; cbn.
    + apply String.eqb_eq in E. subst k0. rewrite Hne. reflexivity.
    + rewrite IH. reflexivity.
Qed.

Section LoginMore.
Variable cfg : settings.
Variable lib : oauthlib.

(** X13: is_authenticated never raises, sends nothing upstream and changes
    neither the session nor the flashed messages: it writes one log line and
    answers whether the session holds under 'access_token' a dict that has the
    key 'access_token'. *)
Theorem is_authenticated_only_reads_the_session (w : world) :
  exists entry,
    App.is_authenticated w =
    (Return (authenticated_session (w_session w)),
     mkWorld (w_log w ++ [entry]) (w_net w) (w_session w) (w_flashes w)).
Proof.
  destruct (is_authenticated_spec w) as (l & msg & H).
  exists (l, msg). exact H.
Qed.

(** The callback once its state is found to match: the outcome is the
    provider's. *)
Lemma auth_callback_validated (request : flask_request) (w : world) :
  let code := multidict_get (args request) "code" in
  let state := multidict_get (args request) "state" in
  let error := multidict_get (args request) "error" in
  let session_state := session_value "oauth_state" w in
  truthy error = false ->
  truthy code = true ->
  truthy session_state = true ->
  py_eq state session_state = true ->
  exists w',
    App.auth_callback cfg lib request w =
      (Return (match oauth_provider lib (w_net w) (exchange_event cfg code state) with
               | Return _ => Redirect "dashboard" []
               | Raise _ => Redirect "index" []
               end), w') /\
    w_net w' = w_net w ++ [exchange_event cfg code state] /\
    w_session w' =
      match oauth_provider lib (w_net w) (exchange_event cfg code state) with
      | Return token =>
          Dict.remove "oauth_state" (Dict.set "access_token" token (w_session w))
      | Raise _ => w_session w
      end /\
    w_flashes w' = w_flashes w ++
      [match oauth_provider lib (w_net w) (exchange_event cfg code state) with
       | Return _ => ([Lit "Authentication successful!"], "success")
       | Raise _ => ([Lit "Authentication failed. Please try again."], "error")
       end].
Proof.
  intros code state error session_state He Hc Hs Hm.
  unfold App.auth_callback, try_except. fold code state error.
  unfold bind at 1. unfold logger_info at 1, log.
  unfold bind at 1. unfold session_get at 1.
  unfold bind at 1. unfold logger_info at 1, log.
  rewrite He, Hc. cbn [negb w_session].
  unfold bind at 1. unfold session_get at 1. cbn [w_session].
  fold (session_value "oauth_state" w). fold session_state.
  rewrite Hs, Hm. cbn [negb orb].
  unfold bind at 1. rewrite exchange_code_for_token_spec. cbv zeta.
  cbn [default_arg w_net].
  destruct (oauth_provider lib (w_net w) (exchange_event cfg code state)) as [token|e];
    cbn; eexists; repeat split.
Qed.

(** The callback when the state does not match, or none is pending. *)
Lemma auth_callback_mismatch (request : flask_request) (w : world) :
  truthy (multidict_get (args request) "error") = false ->
  truthy (multidict_get (args request) "code") = true ->
  truthy (session_value "oauth_state" w) = false \/
  py_eq (multidict_get (args request) "state") (session_value "oauth_state" w) = false ->
  exists w',
    App.auth_callback cfg lib request w = (Return (Redirect "index" []), w') /\
    w_session w' = w_session w /\
    w_net w' = w_net w.
Proof.
  intros He Hc Hm.
  unfold App.auth_callback, try_except.
  unfold bind at 1. unfold logger_info at 1, log.
  unfold bind at 1. unfold session_get at 1.
  unfold bind at 1. unfold logger_info at 1, log.
  rewrite He, Hc. cbn [negb w_session].
  unfold bind at 1. unfold session_get at 1. cbn [w_session].
  fold (session_value "oauth_state" w).
  assert (Hor : negb (truthy (session_value "oauth_state" w))
                || negb (py_eq (multidict_get (args request) "state")
                               (session_value "oauth_state" w)) = true).
  { destruct Hm as [-> | ->]; [reflexivity|apply orb_true_r]. }
  rewrite Hor. cbn. eexists. repeat split.
Qed.

(** The callback when the state matches and the provider accepts. *)
Lemma matching_callback_like (request : flask_request) (w : world) (token : pyval) :
  truthy (multidict_get (args request) "error") = false ->
  truthy (multidict_get (args request) "code") = true ->
  truthy (session_value "oauth_state" w) = true ->
  py_eq (multidict_get (args request) "state") (session_value "oauth_state" w) = true ->
  oauth_provider lib (w_net w)
    (exchange_event cfg (multidict_get (args request) "code")
       (multidict_get (args request) "state")) = Return token ->
  exists w',
    App.auth_callback cfg lib request w = (Return (Redirect "dashboard" []), w') /\
    Dict.get "access_token" (w_session w') = Some token /\
    Dict.get "oauth_state" (w_session w') = None.
Proof.
  intros He Hc Hs Hm Hp.
  destruct (auth_callback_validated request w He Hc Hs Hm) as (w' & E & _ & Hsess & _).
  rewrite Hp in E, Hsess.
  exists w'. split; [exact E|]. rewrite Hsess. split.
  - rewrite Dict_get_remove_other by reflexivity. apply Dict_get_set.
  - apply Dict_get_remove_same.
Qed.

(** X14: A callback without error, with a code and with a state equal to the
    non-empty state of the session, for which the provider returns a token,
    redirects to the dashboard, stores the token under 'access_token', removes
    'oauth_state', leaves every other session key as it was and asks the
    provider exactly once. *)
Theorem matching_callback_stores_the_token (request : flask_request) (w : world)
    (token : pyval) :
  let code := multidict_get (args request) "code" in
  let state := multidict_get (args request) "state" in
  truthy (multidict_get (args request) "error") = false ->
  truthy code = true ->
  truthy (session_value "oauth_state" w) = true ->
  py_eq state (session_value "oauth_state" w) = true ->
  oauth_provider lib (w_net w) (exchange_event cfg code state) = Return token ->
  exists w',
    App.auth_callback cfg lib request w = (Return (Redirect "dashboard" []), w') /\
    Dict.get "access_token" (w_session w') = Some token /\
    Dict.get "oauth_state" (w_session w') = None /\
    (forall k, String.eqb k "access_token" = false -> String.eqb k "oauth_state" = false ->
               Dict.get k (w_session w') = Dict.get k (w_session w)) /\
    w_net w' = w_net w ++ [exchange_event cfg code state].
Proof.
  intros code state He Hc Hs Hm Hp.
  destruct (auth_callback_validated request w He Hc Hs Hm) as (w' & E & Hn & Hsess & _).
  fold code state in E, Hn, Hsess. rewrite Hp in E, Hsess.
  exists w'. split; [exact E|]. rewrite Hsess.
  split; [|split; [|split]].
  - rewrite Dict_get_remove_other by reflexivity. apply Dict_get_set.
  - apply Dict_get_remove_same.
  - intros k Ha Ho. rewrite (Dict_get_remove_other _ _ _ Ho).
    apply Dict_get_set_other. exact Ha.
  - exact Hn.
Qed.

(** X15: The callback never raises and has two outcomes only: a redirect to
    the index page with the session unchanged, or a redirect to the dashboard
    with a token stored under 'access_token' and no 'oauth_state' left. *)
Theorem auth_callback_always_answers (request : flask_request) (w : world) :
  exists w',
    (App.auth_callback cfg lib request w = (Return (Redirect "index" []), w') /\
     w_session w' = w_session w)
    \/
    (App.auth_callback cfg lib request w = (Return (Redirect "dashboard" []), w') /\
     Dict.get "oauth_state" (w_session w') = None /\
     exists token, Dict.get "access_token" (w_session w') = Some token).
Proof.
  destruct (truthy (multidict_get (args request) "error")) eqn:He.
  { eexists. left. unfold App.auth_callback, try_except.
    unfold bind at 1. unfold logger_info at 1, log.
    unfold bind at 1. unfold session_get at 1.
    unfold bind at 1. unfold logger_info at 1, log.
    rewrite He. cbn. split; reflexivity. }
  destruct (truthy (multidict_get (args request) "code")) eqn:Hc.
  2:{ eexists. left. unfold App.auth_callback, try_except.
      unfold bind at 1. unfold logger_info at 1, log.
      unfold bind at 1. unfold session_get at 1.
      unfold bind at 1. unfold logger_info at 1, log.
      rewrite He, Hc. cbn. split; reflexivity. }
  destruct (truthy (session_value "oauth_state" w)) eqn:Hs.
  2:{ destruct (auth_callback_mismatch request w He Hc (or_introl Hs)) as (w' & E & Hsess & _).
      exists w'. left. split; assumption. }
  destruct (py_eq (multidict_get (args request) "state") (session_value "oauth_state" w))
    eqn:Hm.
  2:{ destruct (auth_callback_mismatch request w He Hc (or_intror Hm)) as (w' & E & Hsess & _).
      exists w'. left. split; assumption. }
  destruct (auth_callback_validated request w He Hc Hs Hm) as (w' & E & _ & Hsess & _).
  exists w'.
  destruct (oauth_provider lib (w_net w) _) as [token|e].
  - right. split; [exact E|]. rewrite Hsess. split.
    + apply Dict_get_remove_same.
    + exists token. rewrite Dict_get_remove_other by reflexivity. apply Dict_get_set.
  - left. split; assumption.
Qed.
End LoginMore.

Section LoginMore2.
Variable cfg : settings.
Variable lib : oauthlib.

(** The callback when the provider reported an error, or sent no code. *)
Lemma auth_callback_refused_early (request : flask_request) (w : world) :
  truthy (multidict_get (args request) "error") = true \/
  truthy (multidict_get (args request) "code") = false ->
  exists w',
    App.auth_callback cfg lib request w = (Return (Redirect "index" []), w') /\
    w_session w' = w_session w /\
    w_net w' = w_net w.
Proof.
  intros H. unfold App.auth_callback, try_except.
  unfold bind at 1. unfold logger_info at 1, log.
  unfold bind at 1. unfold session_get at 1.
  unfold bind at 1. unfold logger_info at 1, log.
  destruct (truthy (multidict_get (args request) "error")) eqn:He.
  - cbn. eexists. repeat split.
  - destruct H as [H|H]; [discriminate|]. rewrite H. cbn. eexists. repeat split.
Qed.

(** X16: If the callback contacts the provider at all, then the request had no
    error, had a code, the session held a truthy state and the state of the
    request was equal to it. *)
Theorem provider_is_asked_only_after_the_state_check (request : flask_request) (w : world) :
  w_net (snd (App.auth_callback cfg lib request w)) <> w_net w ->
  truthy (multidict_get (args request) "error") = false /\
  truthy (multidict_get (args request) "code") = true /\
  truthy (session_value "oauth_state" w) = true /\
  py_eq (multidict_get (args request) "state") (session_value "oauth_state" w) = true.
Proof.
  intros Hn.
  destruct (truthy (multidict_get (args request) "error")) eqn:He.
  { destruct (auth_callback_refused_early request w (or_introl He)) as (w' & E & _ & Hn').
    rewrite E in Hn. contradiction. }
  destruct (truthy (multidict_get (args request) "code")) eqn:Hc.
  2:{ destruct (auth_callback_refused_early request w (or_intror Hc)) as (w' & E & _ & Hn').
      rewrite E in Hn. contradiction. }
  destruct (truthy (session_value "oauth_state" w)) eqn:Hs.
  2:{ destruct (auth_callback_mismatch cfg lib request w He Hc (or_introl Hs))
        as (w' & E & _ & Hn').
      rewrite E in Hn. contradiction. }
  destruct (py_eq (multidict_get (args request) "state") (session_value "oauth_state" w))
    eqn:Hm.
  2:{ destruct (auth_callback_mismatch cfg lib request w He Hc (or_intror Hm))
        as (w' & E & _ & Hn').
      rewrite E in Hn. contradiction. }
  repeat split.
Qed.

(** [authenticate], by what the library answers. *)
Lemma authenticate_spec (token_urlsafe : string) (w : world) :
  exists w',
    App.authenticate cfg lib token_urlsafe w =
      (Return (match library_url cfg lib (PStr token_urlsafe) with
               | Return r => RedirectTo (fst r)
               | Raise _ => Redirect "index" []
               end), w') /\
    w_net w' = w_net w /\
    w_session w' =
      match library_url cfg lib (PStr token_urlsafe) with
      | Return r => Dict.set "oauth_state" (snd r) (w_session w)
      | Raise _ => w_session w
      end.
Proof.
  unfold App.authenticate, try_except, AuthService.get_authorization_url, library_url.
  unfold try_except, bind, lift. cbn [default_arg].
  destruct (oauth_authorization_url lib _ _ _ _ _) as [r|e]; cbn; eexists; repeat split.
Qed.

(** X17: authenticate sends nothing upstream; when the library gives an
    authorization URL and a state, it redirects to that URL and stores that
    state under 'oauth_state', leaving the other session keys as they were;
    when the library raises, it redirects to the index page with the session
    unchanged. *)
Theorem authenticate_stores_the_state_it_hands_out (token_urlsafe : string) (w : world) :
  exists w',
    w_net w' = w_net w /\
    match library_url cfg lib (PStr token_urlsafe) with
    | Return (url, state) =>
        App.authenticate cfg lib token_urlsafe w = (Return (RedirectTo url), w') /\
        Dict.get "oauth_state" (w_session w') = Some state /\
        forall k, String.eqb k "oauth_state" = false ->
                  Dict.get k (w_session w') = Dict.get k (w_session w)
    | Raise _ =>
        App.authenticate cfg lib token_urlsafe w = (Return (Redirect "index" []), w') /\
        w_session w' = w_session w
    end.
Proof.
  destruct (authenticate_spec token_urlsafe w) as (w' & E & Hn & Hs).
  exists w'. split; [exact Hn|].
  destruct (library_url cfg lib (PStr token_urlsafe)) as [[url state]|e].
  - cbn in E, Hs. split; [exact E|]. rewrite Hs. split.
    + apply Dict_get_set.
    + intros k Hk. apply Dict_get_set_other. exact Hk.
  - split; assumption.
Qed.

(** X18: authenticate followed by a callback that brings back the non-empty
    state just issued, with a code and no error, for which the provider
    returns a token dict with 'access_token', ends on the dashboard with an
    authenticated session and no pending state. *)
Theorem login_round_trip (token_urlsafe : string) (callback : flask_request)
    (w : world) (url : pyval) (state : string) (token : list (string * pyval)) :
  let code := multidict_get (args callback) "code" in
  library_url cfg lib (PStr token_urlsafe) = Return (url, PStr state) ->
  state <> "" ->
  multidict_get (args callback) "state" = PStr state ->
  truthy (multidict_get (args callback) "error") = false ->
  truthy code = true ->
  oauth_provider lib (w_net w) (exchange_event cfg code (PStr state)) = Return (PDict token) ->
  Dict.mem "access_token" token = true ->
  exists w',
    login_flow cfg lib token_urlsafe callback w = (Return (Redirect "dashboard" []), w') /\
    authenticated_session (w_session w') = true /\
    phase_of (w_session w') = AUTHENTICATED /\
    Dict.get "oauth_state" (w_session w') = None.
Proof.
  intros code Hurl Hne Hst He Hc Hp Hk.
  destruct (authenticate_spec token_urlsafe w) as (w1 & E1 & Hn1 & Hs1).
  rewrite Hurl in E1, Hs1. cbn [fst snd] in E1, Hs1.
  assert (Hv : session_value "oauth_state" w1 = PStr state).
  { unfold session_value. rewrite Hs1, Dict_get_set. reflexivity. }
  assert (Htr : truthy (session_value "oauth_state" w1) = true).
  { rewrite Hv. cbn. destruct (String.eqb state "") eqn:E; [|reflexivity].
    apply String.eqb_eq in E. contradiction. }
  assert (Hm : py_eq (multidict_get (args callback) "state") (session_value "oauth_state" w1)
               = true).
  { rewrite Hv, Hst. cbn. apply String.eqb_refl. }
  destruct (matching_callback_like cfg lib callback w1 (PDict token) He Hc Htr Hm)
    as (w' & E2 & Ht & Ho).
  { rewrite Hst, Hn1. exact Hp. }
  exists w'. unfold login_flow, bind. rewrite E1. split; [exact E2|].
  assert (Ha : authenticated_session (w_session w') = true).
  { unfold authenticated_session. rewrite Ht. exact Hk. }
  split; [exact Ha|]. split; [|exact Ho].
  unfold phase_of. rewrite Ha. reflexivity.
Qed.
End LoginMore2.

(* ===================================================================== *)
(** ** Further properties of the protected handlers                       *)
(* ===================================================================== *)

Section HandlersMore.
Variable cfg : settings.
Variable net : upstream.

(** The entry check of a protected handler, on an authenticated session:
    the handler goes on with its body. *)
Lemma guard_passes {A} (reject body : M A) (w : world) :
  authenticated_session (w_session w) = true ->
  exists l msg,
    bind App.is_authenticated (fun a => if negb a then reject else body) w
    = body (logged l msg w).
Proof.
  intros Hs. destruct (is_authenticated_spec w) as (l & msg & H).
  exists l, msg. unfold bind. rewrite H, Hs. reflexivity.
Qed.

(** X19: For an authenticated session, a POST to the dashboard with a non-
    empty form field 'account_key' stores it in the session, renders the
    dashboard with it, leaves the other session keys as they were and sends
    nothing upstream. *)
Theorem dashboard_form_sets_the_account_key (request : flask_request) (w : world)
    (key : string) :
  authenticated_session (w_session w) = true ->
  method request = "POST" ->
  Dict.get "account_key" (form request) = Some key ->
  key <> "" ->
  exists w',
    App.dashboard cfg request w =
      (Return (Render "dashboard.html"
                 [("account_key", V (PStr key)); ("app_title", V (APP_TITLE cfg))] 200), w') /\
    Dict.get "account_key" (w_session w') = Some (PStr key) /\
    (forall k, String.eqb k "account_key" = false ->
               Dict.get k (w_session w') = Dict.get k (w_session w)) /\
    w_net w' = w_net w.
Proof.
  intros Ha Hm Hf Hne.
  assert (Ht : truthy (multidict_get (form request) "account_key") = true).
  { unfold multidict_get. rewrite Hf. cbn.
    destruct (String.eqb key "") eqn:E; [|reflexivity].
    apply String.eqb_eq in E. contradiction. }
  unfold App.dashboard. unfold bind at 1. unfold session_keys. unfold bind at 1.
  unfold logger_info at 1, log.
  match goal with
  | |- context [bind App.is_authenticated (fun a => if negb a then ?rej else ?body) ?w0] =>
      destruct (guard_passes rej body w0 Ha) as (l & msg & ->)
  end.
  rewrite Hm, Ht. cbn -[Dict.get Dict.set].
  unfold multidict_get at 1 2 3. rewrite Hf. cbn -[Dict.get Dict.set].
  rewrite Dict_get_set. cbn -[Dict.get Dict.set].
  assert (Hk : truthy (PStr key) = true).
  { unfold multidict_get in Ht. rewrite Hf in Ht. exact Ht. }
  unfold py_or. rewrite Hk.
  eexists. split; [reflexivity|]. cbn -[Dict.get Dict.set].
  split; [apply Dict_get_set|]. split; [|reflexivity].
  intros k Hother. apply Dict_get_set_other. exact Hother.
Qed.

(** X20: Each of the twelve handlers that need an account key, run on an
    authenticated session without one (and without one in the URL), answers
    with the redirect to the dashboard or with the JSON refusal 'No account
    key in session', sends nothing upstream and leaves the session unchanged. *)
Theorem no_account_key_no_request (r : App.protected) (request : flask_request)
    (w : world) :
  needs_account_key r = true ->
  authenticated_session (w_session w) = true ->
  truthy (session_value "account_key" w) = false ->
  truthy (multidict_get (args request) "account_key") = false ->
  exists resp w',
    App.serve cfg net r request w = (Return resp, w') /\
    asks_for_account_key resp = true /\
    w_net w' = w_net w /\
    w_session w' = w_session w.
Proof.
  intros Hr Ha Hs Hu. unfold session_value in Hs.
  destruct r; try discriminate Hr; cbn [App.serve];
    [ unfold App.locations | unfold App.devices | unfold App.device_locations
    | unfold App.phone_numbers | unfold App.extensions | unfold App.device_models
    | unfold App.reboot_device | unfold App.resync_device | unfold App.device_details
    | unfold App.device_location | unfold App.phone_number_details
    | unfold App.device_management ];
    match goal with
    | |- context [bind App.is_authenticated (fun a => if negb a then ?rej else ?body) ?w0] =>
        destruct (guard_passes rej body w0 Ha) as (l & msg & ->)
    end;
    destruct (Dict.get "account_key" (w_session w)) as [v|] eqn:E;
    unfold try_except, bind, session_get, py_or; cbn -[Dict.get]; rewrite ?E;
    cbn -[Dict.get]; rewrite ?Hs, ?Hu; cbn -[Dict.get]; rewrite ?Hu;
    eexists _, _; repeat split; reflexivity.
Qed.
End HandlersMore.

(* ===================================================================== *)
(** ** The handlers never raise                                           *)
(* ===================================================================== *)

Lemma ret_answers {A} (a : A) : always_answers (ret a).
Proof. intros w. exists a, w. reflexivity. Qed.

Lemma bind_answers {A B} (m : M A) (k : A -> M B) :
  always_answers m -> (forall a, always_answers (k a)) -> always_answers (bind m k).
Proof.
  intros Hm Hk w. destruct (Hm w) as (a & w1 & E).
  destruct (Hk a w1) as (b & w2 & E'). exists b, w2.
  unfold bind. rewrite E. exact E'.
Qed.

Lemma try_except_answers {A} (m : M A) (h : exn -> M A) :
  (forall e, always_answers (h e)) -> always_answers (try_except m h).
Proof.
  intros Hh w. unfold try_except. destruct (m w) as [[a|e] w1].
  - exists a, w1. reflexivity.
  - apply Hh.
Qed.

Lemma log_answers (l : level) (msg : text) : always_answers (log l msg).
Proof. intros w. eexists _, _. reflexivity. Qed.

Lemma flash_answers (msg : text) (category : string) : always_answers (flash msg category).
Proof. intros w. eexists _, _. reflexivity. Qed.

Lemma session_get_answers (k : string) : always_answers (session_get k).
Proof. intros w. eexists _, _. reflexivity. Qed.

Lemma session_set_answers (k : string) (v : pyval) : always_answers (session_set k v).
Proof. intros w. eexists _, _. reflexivity. Qed.

Lemma session_keys_answers : always_answers session_keys.
Proof. intros w. eexists _, _. reflexivity. Qed.

Lemma is_authenticated_answers : always_answers App.is_authenticated.
Proof.
  intros w. destruct (is_authenticated_spec w) as (l & msg & H).
  eexists _, _. exact H.
Qed.

(** Splits a handler into its steps, down to the [try] blocks, whose
    handlers are followed instead of their bodies. *)
Ltac follow_steps :=
  repeat first
    [ apply ret_answers
    | apply is_authenticated_answers
    | apply session_keys_answers
    | apply session_get_answers
    | apply session_set_answers
    | apply flash_answers
    | apply log_answers
    | apply try_except_answers; intros
    | apply bind_answers; [|intros]
    | match goal with
      | |- always_answers (if ?c then _ else _) => destruct c
      end ].

Section NeverRaise.
Variable cfg : settings.
Variable net : upstream.
Variable lib : oauthlib.

(** X21: No exception of the API client, of the session lookups or of the
    request's JSON body escapes a protected handler: on every request and in
    every state each of the eighteen handlers answers with a response. *)
Theorem protected_handlers_never_raise (r : App.protected) (request : flask_request) :
  always_answers (App.serve cfg net r request).
Proof.
  destruct r; cbn [App.serve];
    [ unfold App.dashboard | unfold App.locations | unfold App.devices
    | unfold App.device_locations | unfold App.phone_numbers | unfold App.extensions
    | unfold App.device_models | unfold App.reboot_device | unfold App.resync_device
    | unfold App.location_detail | unfold App.api_device_details
    | unfold App.device_details | unfold App.device_location
    | unfold App.phone_number_details | unfold App.reboot_device_api
    | unfold App.resync_device_api | unfold App.device_management
    | unfold App.extension_details ];
    follow_steps.
Qed.

(** X22: The handlers that need no login (index, authenticate, auth_callback,
    logout, favicon, debug_session) answer with a response on every request
    and in every state; no exception of the OAuth library escapes them. *)
Theorem open_handlers_never_raise (token_urlsafe : string) (request : flask_request) :
  always_answers (App.index cfg) /\
  always_answers (App.authenticate cfg lib token_urlsafe) /\
  always_answers (App.auth_callback cfg lib request) /\
  always_answers App.logout /\
  always_answers App.favicon /\
  always_answers (App.debug_session cfg request).
Proof.
  repeat split.
  - unfold App.index. follow_steps.
  - unfold App.authenticate. follow_steps.
  - unfold App.auth_callback. follow_steps.
  - unfold App.logout. follow_steps. intros w. eexists _, _. reflexivity.
  - unfold App.favicon. follow_steps.
  - unfold App.debug_session. follow_steps.
Qed.
End NeverRaise.

(* ===================================================================== *)
(** ** What the pages show                                                *)
(* ===================================================================== *)

(** Passes the entry check of a handler on an authenticated session. *)
Ltac pass_guard Ha :=
  match goal with
  | |- context [bind App.is_authenticated (fun a => if negb a then ?rej else ?body) ?w0] =>
      let l := fresh "l" in
      let msg := fresh "msg" in
      destruct (guard_passes rej body w0 Ha) as (l & msg & ->)
  end.

(** Runs the next step of a handler when it is [session.get(k)]. *)
Ltac read_session k w :=
  unfold bind at 1; unfold session_get at 1; cbn [w_session logged];
  fold (session_value k w).

Section Pages.
Variable cfg : settings.
Variable net : upstream.

(** What an authenticated session holds. *)
Lemma authenticated_token (s : list (string * pyval)) :
  authenticated_session s = true ->
  exists d t, Dict.get "access_token" s = Some (PDict d) /\
              Dict.get "access_token" d = Some t /\
              truthy (PDict d) = true.
Proof.
  unfold authenticated_session, Dict.mem. intros H.
  destruct (Dict.get "access_token" s) as [[| | | | |d]|]; try discriminate.
  destruct (Dict.get "access_token" d) as [t|] eqn:E; [|discriminate].
  exists d, t. split; [reflexivity|]. split; [exact E|].
  destruct d; [discriminate|reflexivity].
Qed.

(** X23: For an authenticated session the page of a location never renders:
    get_location_devices raises the TypeError of the missing access token, the
    handler flashes 'Error fetching location details: ...' and redirects to
    the dashboard, having sent nothing upstream. *)
Theorem location_detail_never_renders (location_id : string) (w : world) :
  authenticated_session (w_session w) = true ->
  exists w',
    App.location_detail cfg net location_id w = (Return (Redirect "dashboard" []), w') /\
    w_net w' = w_net w /\
    w_session w' = w_session w /\
    w_flashes w' = w_flashes w ++
      [([Lit "Error fetching location details: "; fmt_exn missing_access_token], "error")].
Proof.
  intros Ha. unfold App.location_detail.
  match goal with
  | |- context [bind App.is_authenticated (fun a => if negb a then ?rej else ?body) ?w0] =>
      destruct (guard_passes rej body w0 Ha) as (l & msg & ->)
  end.
  unfold try_except. unfold bind at 1.
  change (get_location_devices net (PStr location_id) None None)
    with (call net (LocationDevices (PStr location_id) None None)).
  rewrite call_shape. cbn. eexists. repeat split.
Qed.

(** X24: For an authenticated session with an account key, POST
    /device/<id>/reboot answers success whatever the upstream answers or fails
    with, and the one request it sends carries the whole token dict of the
    session, not its access-token string, after 'Bearer '. *)
Theorem reboot_by_id_reports_success (device_id : string) (w : world) :
  authenticated_session (w_session w) = true ->
  truthy (session_value "account_key" w) = true ->
  exists w',
    App.reboot_device net device_id w =
      (Return (Jsonify [("success", V (PBool true));
                        ("message", V (PStr "Device reboot initiated successfully"))] 200),
       w') /\
    w_net w' = w_net w ++
      [Http (mkRequest "POST"
               [Lit base_url; Lit "/"; Lit "devices/"; Fmt (PStr device_id); Lit "/reboot"]
               (bearer_headers (session_value "access_token" w)) [])].
Proof.
  intros Ha Hk. destruct (authenticated_token _ Ha) as (d & t & Hd & _ & Htr).
  unfold App.reboot_device.
  match goal with
  | |- context [bind App.is_authenticated (fun a => if negb a then ?rej else ?body) ?w0] =>
      destruct (guard_passes rej body w0 Ha) as (l & msg & ->)
  end.
  unfold bind at 1. unfold session_get at 1. cbn [w_session logged].
  fold (session_value "account_key" w). rewrite Hk. cbn [negb].
  unfold try_except. unfold bind at 1. unfold session_get at 1. cbn [w_session logged].
  fold (session_value "access_token" w).
  assert (Hv : session_value "access_token" w = PDict d).
  { unfold session_value. rewrite Hd. reflexivity. }
  rewrite Hv, Htr. cbn [negb].
  unfold bind at 1.
  change (GoToAPIService.reboot_device net (PStr device_id) (PDict d))
    with (call net (RebootDevice (PStr device_id) (PDict d))).
  destruct (call_with_truthy_token net (RebootDevice (PStr device_id) (PDict d)) (PDict d)
              (logged l msg w) eq_refl Htr) as (v & w1 & -> & Hn & _ & _).
  cbn. eexists. split; [reflexivity|]. cbn. exact Hn.
Qed.

(** X25: For a session whose token has 'access_token', /api/device/<id>
    answers with the value get_device_details returns, as JSON with status
    200, and with the error 'Device not found' and status 404 when that value
    is None. *)
Theorem api_device_details_passes_the_device_through (device_id : string) (w : world)
    (token : list (string * pyval)) (access_token : pyval) :
  Dict.get "access_token" (w_session w) = Some (PDict token) ->
  Dict.get "access_token" token = Some access_token ->
  exists entry data,
    fst (get_device_details net (PStr device_id) access_token
           (mkWorld (w_log w ++ [entry]) (w_net w) (w_session w) (w_flashes w)))
      = Return data /\
    fst (App.api_device_details net device_id w) =
      Return (if is_none data
              then Jsonify [("error", V (PStr "Device not found"))] 404
              else JsonifyValue data 200).
Proof.
  intros Hs Ht.
  assert (Ha : authenticated_session (w_session w) = true).
  { unfold authenticated_session, Dict.mem. rewrite Hs, Ht. reflexivity. }
  assert (Htr : truthy (PDict token) = true).
  { destruct token; [discriminate|reflexivity]. }
  unfold App.api_device_details. pass_guard Ha.
  unfold try_except. read_session "access_token" w.
  assert (Hv : session_value "access_token" w = PDict token).
  { unfold session_value. rewrite Hs. reflexivity. }
  rewrite Hv, Htr. cbn [negb].
  unfold bind at 1. unfold lift at 1. cbn [py_getitem]. rewrite Ht.
  unfold bind at 1.
  exists (l, msg).
  change (get_device_details net (PStr device_id) access_token)
    with (call net (DeviceDetail (PStr device_id) access_token)).
  fold (logged l msg w).
  destruct (call_returns_with_token net (DeviceDetail (PStr device_id) access_token)
              access_token (logged l msg w) eq_refl) as (v & Hv').
  destruct (call net (DeviceDetail (PStr device_id) access_token) (logged l msg w))
    as [[data|e] w1]; cbn [fst] in Hv'; [|discriminate].
  exists data. split; [reflexivity|].
  destruct (is_none data); reflexivity.
Qed.

(** X26: For an authenticated session with an account key, when the upstream
    answers the locations listing with 200 and a JSON object, the locations
    page renders that object's 'items' (the empty list when absent), the
    account key and the object's 'nextPageMarker' (None when absent). *)
Theorem locations_page_shows_the_upstream_listing (request : flask_request) (w : world)
    (token body : list (string * pyval)) (access_token : pyval) (r : response) :
  let key := effective_key request w in
  Dict.get "access_token" (w_session w) = Some (PDict token) ->
  Dict.get "access_token" token = Some access_token ->
  truthy access_token = true ->
  truthy key = true ->
  net (w_net w)
      (request_of "GET" [Lit "locations"] access_token
         (kw_params [("accountKey", key); ("pageSize", PInt 50)])) = Answer r ->
  status_code r = 200 ->
  resp_json r = Return (PDict body) ->
  fst (App.locations cfg net request w) =
  Return (Render "locations.html"
            [("locations", V (get_or body "items" (PList [])));
             ("account_key", V key);
             ("next_page_marker", V (get_or body "nextPageMarker" PNone));
             ("app_title", V (APP_TITLE cfg))] 200).
Proof.
  intros key Hs Ht Htr Hk Hr Hst Hj.
  assert (Ha : authenticated_session (w_session w) = true).
  { unfold authenticated_session, Dict.mem. rewrite Hs, Ht. reflexivity. }
  unfold App.locations. pass_guard Ha.
  read_session "account_key" w. fold (effective_key request w). fold key.
  rewrite Hk. cbn [negb].
  unfold bind at 1.
  assert (exists w2,
            (if truthy (multidict_get (args request) "account_key")
             then session_set "account_key" key else ret tt) (logged l msg w) = (Return tt, w2)
            /\ w_net w2 = w_net w
            /\ Dict.get "access_token" (w_session w2) = Some (PDict token))
    as (w2 & -> & Hn2 & Hs2).
  { destruct (truthy (multidict_get (args request) "account_key"));
      eexists; (split; [reflexivity|]); (split; [reflexivity|]); cbn [w_session logged].
    - rewrite Dict_get_set_other by reflexivity. exact Hs.
    - exact Hs. }
  unfold try_except. unfold bind at 1. unfold session_getitem. rewrite Hs2.
  unfold bind at 1. unfold lift at 1. cbn [py_getitem]. rewrite Ht.
  unfold bind at 1.
  change (get_locations net key access_token None None)
    with (call net (ListLocations key access_token None None)).
  rewrite call_shape. cbn [token_of].
  rewrite (mar_truthy_token _ _ _ _ _ _ Htr). cbv zeta. cbn [logged w_net].
  rewrite Hn2.
  change (request_of (method_of (ListLocations key access_token None None))
            (endpoint_of (ListLocations key access_token None None)) access_token
            (kwargs_of (ListLocations key access_token None None)))
    with (request_of "GET" [Lit "locations"] access_token
            (kw_params [("accountKey", key); ("pageSize", PInt 50)])).
  rewrite Hr, Hst, Hj. cbn.
  unfold get_or. destruct (Dict.get "items" body), (Dict.get "nextPageMarker" body);
    reflexivity.
Qed.
End Pages.

Section PagesOnFailure.
Variable cfg : settings.
Variable net : upstream.

(** Whatever the shipped join returns is the empty list. *)
Lemma shipped_join_value (account_key access_token v : pyval) (w w' : world) :
  search_devices_by_location net account_key access_token w = (Return v, w') ->
  v = PList [].
Proof.
  intros H.
  assert (Hl : exists records, v = PList records).
  { revert H. unfold search_devices_by_location, search_devices_by_location_via. intros H.
    apply bind_returns in H. destruct H as (? & w1 & _ & H); cbv beta in H.
    apply bind_returns in H. destruct H as (locations_response & w2 & _ & H); cbv beta in H.
    apply bind_returns in H. destruct H as (failed & w3 & _ & H); cbv beta in H.
    destruct failed.
    - apply bind_returns in H. destruct H as (? & w4 & _ & H). inversion H.
      exists []. reflexivity.
    - apply bind_returns in H. destruct H as (locations & w4 & _ & H); cbv beta in H.
      apply bind_returns in H. destruct H as (locs & w5 & _ & H); cbv beta in H.
      apply bind_returns in H. destruct H as (data & w6 & _ & H); cbv beta in H.
      apply bind_returns in H. destruct H as (n & w7 & _ & H); cbv beta in H.
      apply bind_returns in H. destruct H as (? & w8 & _ & H). inversion H.
      exists data. reflexivity. }
  destruct Hl as (records & ->).
  rewrite (shipped_join_returns_no_record net _ _ _ _ _ H). reflexivity.
Qed.

(** X7: Whenever the join as shipped returns, it returns the empty list: it
    never returns a device record. *)
Theorem shipped_join_never_returns_a_record
    (account_key access_token v : pyval) (w w' : world) :
  search_devices_by_location net account_key access_token w = (Return v, w') ->
  v = PList [].
Proof. exact (shipped_join_value account_key access_token v w w'). Qed.

(** X27: For an authenticated session with an account key the device-locations
    page never shows a location group: it renders the page with an empty list
    of groups, or the error page 'Failed to retrieve device locations'. *)
Theorem device_locations_page_shows_no_group (w : world) :
  authenticated_session (w_session w) = true ->
  truthy (session_value "account_key" w) = true ->
  exists page,
    fst (App.device_locations net w) = Return page /\
    (page = Render "device_locations.html"
              [("location_groups", V (PList []));
               ("account_key", V (session_value "account_key" w))] 200
     \/
     exists e,
       page = Render "error.html"
                [("error_message", V (PStr "Failed to retrieve device locations"));
                 ("error_details", T [fmt_exn e])] 200).
Proof.
  intros Ha Hk. destruct (authenticated_token _ Ha) as (d & t & Hd & _ & Htr).
  unfold App.device_locations. pass_guard Ha.
  read_session "account_key" w. rewrite Hk. cbn [negb].
  unfold try_except. read_session "access_token" w.
  assert (Hv : session_value "access_token" w = PDict d).
  { unfold session_value. rewrite Hd. reflexivity. }
  rewrite Hv, Htr. cbn [negb].
  unfold bind at 1.
  destruct (search_devices_by_location net (session_value "account_key" w) (PDict d)
              (logged l msg w)) as [[v|e] w1] eqn:E.
  - apply shipped_join_value in E. subst v.
    eexists. split; [reflexivity|]. left. reflexivity.
  - eexists. split; [reflexivity|]. right. exists e. reflexivity.
Qed.

(** X28: When every upstream request fails or is answered with a status other
    than 200, the locations page and the devices page of an authenticated
    session with an account key flash 'Failed to fetch locations/devices.
    Please try again.' and redirect to the dashboard. *)
Theorem failed_listing_sends_back_to_the_dashboard (request : flask_request) (w : world) :
  (forall h rq, upstream_failure (net h rq) = true) ->
  authenticated_session (w_session w) = true ->
  truthy (effective_key request w) = true ->
  (exists w',
     App.locations cfg net request w = (Return (Redirect "dashboard" []), w') /\
     w_flashes w' = w_flashes w ++
       [([Lit "Failed to fetch locations. Please try again."], "error")])
  /\
  (exists w',
     App.devices cfg net request w = (Return (Redirect "dashboard" []), w') /\
     w_flashes w' = w_flashes w ++
       [([Lit "Failed to fetch devices. Please try again."], "error")]).
Proof.
  intros Hfail Ha Hk. destruct (authenticated_token _ Ha) as (d & t & Hd & Ht & _).
  split.
  - unfold App.locations. pass_guard Ha.
    read_session "account_key" w. fold (effective_key request w).
    rewrite Hk. cbn [negb]. unfold bind at 1.
    assert (exists w2,
              (if truthy (multidict_get (args request) "account_key")
               then session_set "account_key" (effective_key request w) else ret tt)
                (logged l msg w) = (Return tt, w2)
              /\ w_flashes w2 = w_flashes w
              /\ Dict.get "access_token" (w_session w2) = Some (PDict d))
      as (w2 & -> & Hf2 & Hs2).
    { destruct (truthy (multidict_get (args request) "account_key"));
        eexists; (split; [reflexivity|]); (split; [reflexivity|]); cbn [w_session logged].
      - rewrite Dict_get_set_other by reflexivity. exact Hd.
      - exact Hd. }
    unfold try_except. unfold bind at 1. unfold session_getitem. rewrite Hs2.
    unfold bind at 1. unfold lift at 1. cbn [py_getitem]. rewrite Ht.
    unfold bind at 1.
    change (get_locations net (effective_key request w) t None None)
      with (call net (ListLocations (effective_key request w) t None None)).
    destruct (call_fails_to_none net (ListLocations (effective_key request w) t None None)
                t w2 Hfail eq_refl) as (w3 & -> & _ & Hf3).
    cbn. eexists. split; [reflexivity|]. cbn. rewrite Hf3, Hf2. reflexivity.
  - unfold App.devices. pass_guard Ha.
    read_session "account_key" w. fold (effective_key request w).
    rewrite Hk. cbn [negb]. unfold bind at 1.
    assert (exists w2,
              (if truthy (multidict_get (args request) "account_key")
               then session_set "account_key" (effective_key request w) else ret tt)
                (logged l msg w) = (Return tt, w2)
              /\ w_flashes w2 = w_flashes w
              /\ Dict.get "access_token" (w_session w2) = Some (PDict d))
      as (w2 & -> & Hf2 & Hs2).
    { destruct (truthy (multidict_get (args request) "account_key"));
        eexists; (split; [reflexivity|]); (split; [reflexivity|]); cbn [w_session logged].
      - rewrite Dict_get_set_other by reflexivity. exact Hd.
      - exact Hd. }
    unfold try_except. unfold bind at 1. unfold session_getitem. rewrite Hs2.
    unfold bind at 1. unfold lift at 1. cbn [py_getitem]. rewrite Ht.
    unfold bind at 1.
    change (get_devices net (effective_key request w) t None None)
      with (call net (ListDevices (effective_key request w) t None None)).
    destruct (call_fails_to_none net (ListDevices (effective_key request w) t None None)
                t w2 Hfail eq_refl) as (w3 & -> & _ & Hf3).
    cbn. eexists. split; [reflexivity|]. cbn. rewrite Hf3, Hf2. reflexivity.
Qed.

(** X29: When every upstream request fails or is answered with a status other
    than 200, the phone-numbers, extensions and device-models pages of an
    authenticated session with an account key still render, with an empty
    list. *)
Theorem list_pages_degrade_to_empty (w : world) :
  (forall h rq, upstream_failure (net h rq) = true) ->
  authenticated_session (w_session w) = true ->
  truthy (session_value "account_key" w) = true ->
  fst (App.phone_numbers net w) =
    Return (Render "phone_numbers.html"
              [("phone_numbers", V (PList []));
               ("account_key", V (session_value "account_key" w))] 200)
  /\
  fst (App.extensions net w) =
    Return (Render "extensions.html"
              [("extension_groups", Groups []);
               ("account_key", V (session_value "account_key" w))] 200)
  /\
  fst (App.device_models net w) =
    Return (Render "device_models.html"
              [("device_models", V (PList []));
               ("account_key", V (session_value "account_key" w))] 200).
Proof.
  intros Hfail Ha Hk. destruct (authenticated_token _ Ha) as (d & t & Hd & Ht & Htr).
  assert (Hv : session_value "access_token" w = PDict d).
  { unfold session_value. rewrite Hd. reflexivity. }
  split; [|split].
  - unfold App.phone_numbers. pass_guard Ha.
    read_session "account_key" w. rewrite Hk. cbn [negb].
    unfold try_except. read_session "access_token" w. rewrite Hv, Htr. cbn [negb].
    unfold bind at 1. unfold lift at 1. cbn [py_getitem]. rewrite Ht.
    unfold bind at 1.
    change (get_phone_numbers net (session_value "account_key" w) t None None)
      with (call net (ListPhoneNumbers (session_value "account_key" w) t None None)).
    destruct (call_fails_to_none net
                (ListPhoneNumbers (session_value "account_key" w) t None None)
                t (logged l msg w) Hfail eq_refl) as (w3 & -> & _ & _).
    reflexivity.
  - unfold App.extensions. pass_guard Ha.
    read_session "account_key" w. rewrite Hk. cbn [negb].
    unfold try_except. read_session "access_token" w. rewrite Hv, Htr. cbn [negb].
    unfold bind at 1. unfold lift at 1. cbn [py_getitem]. rewrite Ht.
    unfold bind at 1.
    change (get_extensions net (session_value "account_key" w) t None None)
      with (call net (ListExtensions (session_value "account_key" w) t None None)).
    destruct (call_fails_to_none net
                (ListExtensions (session_value "account_key" w) t None None)
                t (logged l msg w) Hfail eq_refl) as (w3 & -> & _ & _).
    reflexivity.
  - unfold App.device_models. pass_guard Ha.
    read_session "account_key" w. rewrite Hk. cbn [negb].
    unfold try_except. read_session "access_token" w. rewrite Hv, Htr. cbn [negb].
    unfold bind at 1. unfold lift at 1. cbn [py_getitem]. rewrite Ht.
    unfold bind at 1.
    change (get_device_models net t None None)
      with (call net (ListDeviceModels t None None)).
    destruct (call_fails_to_none net (ListDeviceModels t None None)
                t (logged l msg w) Hfail eq_refl) as (w3 & -> & _ & _).
    reflexivity.
Qed.
End PagesOnFailure.

(* ===================================================================== *)
(** ** The grouping of the extensions page                                *)
(* ===================================================================== *)

Lemma py_eq_refl_hashable (k : pyval) :
  check_hashable k = Return tt -> py_eq k k = true.
Proof.
  destruct k as [|b|z|s| |]; cbn; try discriminate; intros _.
  - reflexivity.
  - destruct b; reflexivity.
  - apply Z.eqb_refl.
  - apply String.eqb_refl.
Qed.

Lemma group_mem_app_self {A} (k : pyval) (a : A) (g : list (pyval * A)) :
  py_eq k k = true -> group_mem k (g ++ [(k, a)]) = true.
Proof.
  intros Hk. induction g as [|[k' a'] g IH]; cbn.
  - rewrite Hk. reflexivity.
  - rewrite IH. apply orb_true_r.
Qed.

Lemma group_modify_total {A} (k : pyval) (x : A) (g : list (pyval * list A)) :
  group_mem k g = true ->
  members_total (group_modify k (fun l => l ++ [x]) g) = S (members_total g).
Proof.
  unfold members_total. induction g as [|[k' l] g IH]; cbn [group_mem group_modify];
    [discriminate|].
  destruct (py_eq k k'); cbn [orb map snd concat].
  - intros _. rewrite !length_app. cbn [length]. lia.
  - intros H. rewrite !length_app, (IH H). lia.
Qed.

Lemma group_modify_members {A} (k : pyval) (x : A) (g : list (pyval * list A))
    (key : pyval) (members : list A) :
  In (key, members) (group_modify k (fun l => l ++ [x]) g) ->
  In (key, members) g \/
  (py_eq k key = true /\ exists old, In (key, old) g /\ members = old ++ [x]).
Proof.
  induction g as [|[k' l] g IH]; cbn; [intros []|].
  destruct (py_eq k k') eqn:E; cbn.
  - intros [H|H].
    + inversion H; subst. right. split; [exact E|]. exists l. split; [left|]; reflexivity.
    + left. right. exact H.
  - intros [H|H].
    + left. left. exact H.
    + destruct (IH H) as [H'|(Hk & old & Ho & ->)].
      * left. right. exact H'.
      * right. split; [exact Hk|]. exists old. split; [right; exact Ho|reflexivity].
Qed.

(** One turn of the loop: the extension joins exactly one group, one
    whose key equals its type. *)
Lemma group_extension_step (ext : pyval) (g g' : list (pyval * list pyval))
    (w w' : world) :
  App.group_extension ext g w = (Return g', w') ->
  w' = w /\
  members_total g' = S (members_total g) /\
  exists d, ext = PDict d /\
    forall key members e, In (key, members) g' -> In e members ->
      (exists old, In (key, old) g /\ In e old) \/
      (e = ext /\ py_eq (extension_type d) key = true).
Proof.
  unfold App.group_extension. intros H.
  apply bind_returns in H. destruct H as (ext_type & w1 & H0 & H); cbv beta in H.
  apply lift_returns in H0. destruct H0 as [H0 ->].
  apply py_get_returns in H0. destruct H0 as (d & -> & ->).
  apply bind_returns in H. destruct H as ([] & w1 & H0 & H); cbv beta in H.
  apply lift_returns in H0. destruct H0 as [Hh ->].
  cbv zeta in H. unfold ret in H. inversion H; subst; clear H.
  fold (extension_type d) in *.
  pose proof (py_eq_refl_hashable _ Hh) as Hrefl.
  split; [reflexivity|].
  assert (Hmembers : forall g0 key members e,
            In (key, members)
               (group_modify (extension_type d) (fun l => l ++ [PDict d]) g0) ->
            In e members ->
            (exists old, In (key, old) g0 /\ In e old) \/
            (e = PDict d /\ py_eq (extension_type d) key = true)).
  { intros g0 key members e Hin He.
    destruct (group_modify_members _ _ _ _ _ Hin) as [H'|(Hk & old & Ho & ->)].
    - left. exists members. split; assumption.
    - apply in_app_or in He. destruct He as [He|[<-|[]]].
      + left. exists old. split; assumption.
      + right. split; [reflexivity|exact Hk]. }
  destruct (group_mem (extension_type d) g) eqn:Hm; cbn [negb].
  - split; [apply group_modify_total; exact Hm|].
    exists d. split; [reflexivity|]. apply Hmembers.
  - split.
    + rewrite group_modify_total by (apply group_mem_app_self; exact Hrefl).
      unfold members_total. rewrite map_app, concat_app, length_app. cbn. lia.
    + exists d. split; [reflexivity|]. intros key members e Hin He.
      destruct (Hmembers _ _ _ _ Hin He) as [(old & Ho & Hold)|H']; [|right; exact H'].
      apply in_app_or in Ho. destruct Ho as [Ho|[Ho|[]]].
      * left. exists old. split; assumption.
      * inversion Ho; subst. destruct Hold.
Qed.

Lemma group_extension_loop (exts : list pyval) :
  forall (acc g' : list (pyval * list pyval)) (w w' : world),
  for_each exts App.group_extension acc w = (Return g', w') ->
  w' = w /\
  members_total g' = (members_total acc + length exts)%nat /\
  forall key members e, In (key, members) g' -> In e members ->
    (exists old, In (key, old) acc /\ In e old) \/
    (In e exts /\ exists d, e = PDict d /\ py_eq (extension_type d) key = true).
Proof.
  induction exts as [|ext exts IH]; intros acc g' w w' H.
  - cbn in H. inversion H; subst. split; [reflexivity|]. split; [cbn; lia|].
    intros key members e Hin He. left. exists members. split; assumption.
  - cbn [for_each] in H. apply bind_returns in H. destruct H as (g1 & w1 & Hstep & Hrest).
    apply group_extension_step in Hstep. destruct Hstep as (-> & Ht & d & -> & Hm).
    destruct (IH _ _ _ _ Hrest) as (-> & Ht' & Hm').
    split; [reflexivity|]. split; [rewrite Ht', Ht; cbn; lia|].
    intros key members e Hin He.
    destruct (Hm' _ _ _ Hin He) as [(old & Ho & Hold)|(Hex & Hd)].
    + destruct (Hm _ _ _ Ho Hold) as [H'|(-> & Hk)].
      * left. exact H'.
      * right. split; [left; reflexivity|]. exists d. split; [reflexivity|exact Hk].
    + right. split; [right; exact Hex|exact Hd].
Qed.

(** X30: When the grouping of the extensions page goes through, the groups
    hold as many members as there were extensions, every member is one of the
    extensions, and it sits under the group of its own 'type' ('UNKNOWN' when
    it has none). *)
Theorem extension_groups_keep_every_extension (exts : list pyval)
    (groups : list (pyval * list pyval)) (w w' : world) :
  for_each exts App.group_extension [] w = (Return groups, w') ->
  w' = w /\
  members_total groups = length exts /\
  forall key members e, In (key, members) groups -> In e members ->
    In e exts /\ exists d, e = PDict d /\ py_eq (extension_type d) key = true.
Proof.
  intros H. destruct (group_extension_loop _ _ _ _ _ H) as (-> & Ht & Hm).
  split; [reflexivity|]. split; [exact Ht|].
  intros key members e Hin He.
  destruct (Hm _ _ _ Hin He) as [(old & [] & _)|H']. exact H'.
Qed.

(* ===================================================================== *)
(** ** The further properties at concrete inputs                          *)
(* ===================================================================== *)

Lemma unparsable_body_witness :
  w_net (snd (call unparsable_upstream list_locations_call empty_world))
    = w_net empty_world ++ [Http (request_for list_locations_call)] /\
  call unparsable_upstream list_locations_call empty_world =
    (Return PNone,
     logged ERROR (caught_line (Exn RequestException [Lit "Expecting value"]))
       (sent (request_for list_locations_call)
          (logged INFO (info_of list_locations_call) empty_world))).
Proof.
  split; [reflexivity|].
  apply (unparsable_body_is_absent_value unparsable_upstream list_locations_call empty_world
           (request_for list_locations_call)
           (mkResponse 200 "<html>" (Raise (Exn RequestException [Lit "Expecting value"])))
           (Exn RequestException [Lit "Expecting value"])); reflexivity.
Defined.

Lemma non_200_witness :
  status_code unauthorized_response <> 200 /\
  call unauthorized_upstream list_locations_call empty_world =
    (Return PNone,
     logged ERROR [Lit "Authentication failed - token may be expired"]
       (sent (request_for list_locations_call)
          (logged INFO (info_of list_locations_call) empty_world))).
Proof.
  split; [discriminate|].
  apply (non_200_answers_are_logged unauthorized_upstream list_locations_call empty_world
           (request_for list_locations_call) unauthorized_response);
    [reflexivity|reflexivity|discriminate].
Defined.

Lemma join_without_locations_witness :
  truthy PNone = false /\
  search_devices_by_location_via failing_upstream stub_location_devices
    (PStr "acct") (PStr "tok") empty_world =
  (Return (PList []),
   logged ERROR [Lit "Failed to get locations"]
     (snd (get_locations failing_upstream (PStr "acct") (PStr "tok") (Some (PInt 100)) None
             (logged INFO (join_line (PStr "acct")) empty_world)))).
Proof.
  split; [reflexivity|].
  apply (join_without_locations_is_empty failing_upstream stub_location_devices
           (PStr "acct") (PStr "tok") PNone empty_world).
  - reflexivity.
  - left. reflexivity.
Defined.

Lemma join_raises_witness :
  Dict.get "items" [("items", PList [location_A; location_B])]
    = Some (PList (PDict entries_A :: [location_B])) /\
  search_devices_by_location two_locations (PStr "acct") (PStr "tok") empty_world =
  (Raise missing_access_token,
   logged INFO [Lit "Getting devices for location: "; Fmt (get_or entries_A "id" PNone)]
     (snd (get_locations two_locations (PStr "acct") (PStr "tok") (Some (PInt 100)) None
             (logged INFO (join_line (PStr "acct")) empty_world)))).
Proof.
  split; [reflexivity|].
  apply (join_raises_when_a_location_is_listed two_locations (PStr "acct") (PStr "tok")
           empty_world _ [("items", PList [location_A; location_B])] entries_A [location_B]);
    reflexivity.
Defined.

Lemma shipped_join_witness :
  search_devices_by_location failing_upstream (PStr "acct") (PStr "tok") empty_world =
    (Return (PList []),
     snd (search_devices_by_location failing_upstream (PStr "acct") (PStr "tok") empty_world)) /\
  PList [] = PList [].
Proof.
  split; [reflexivity|].
  apply (shipped_join_never_returns_a_record failing_upstream (PStr "acct") (PStr "tok")
           (PList []) empty_world
           (snd (search_devices_by_location failing_upstream (PStr "acct") (PStr "tok")
                   empty_world))).
  reflexivity.
Defined.

Lemma failed_fetch_witness :
  stub_location_devices (get_or entries_B "id" PNone) (Some (PInt 100)) None empty_world
    = (Return PNone, empty_world) /\
  location_step stub_location_devices (PDict entries_B) [PStr "kept"] empty_world
    = (Return [PStr "kept"], empty_world).
Proof.
  split; [reflexivity|].
  apply (failed_fetch_adds_no_record stub_location_devices entries_B [PStr "kept"] PNone
           empty_world empty_world).
  - reflexivity.
  - left. reflexivity.
Defined.

Lemma fetched_devices_witness :
  stub_location_devices (get_or entries_A "id" PNone) (Some (PInt 100)) None empty_world
    = (Return (PDict [("items", PList (map PDict [entries_device_1]))]), empty_world) /\
  location_step stub_location_devices (PDict entries_A) [] empty_world
    = (Return ([] ++ map (record_of entries_A) [entries_device_1]), empty_world).
Proof.
  split; [reflexivity|].
  apply (fetched_devices_are_appended_in_order stub_location_devices entries_A
           [("items", PList (map PDict [entries_device_1]))] [entries_device_1] []
           empty_world empty_world); reflexivity.
Defined.

Lemma token_probe_witness :
  Dict.get "access_token" sample_token = Some (PStr "tok") /\
  fst (AuthService.is_token_valid example_upstream (PDict sample_token) empty_world)
    = Return true /\
  w_net (snd (AuthService.is_token_valid example_upstream (PDict sample_token) empty_world))
    = w_net empty_world ++ [Http (probe_request (PStr "tok"))].
Proof.
  split; [reflexivity|].
  apply (token_is_valid_exactly_on_200 example_upstream sample_token (PStr "tok") empty_world).
  reflexivity.
Defined.

Lemma matching_callback_witness :
  py_eq (multidict_get (args matching_callback) "state")
        (session_value "oauth_state" (awaiting_callback "issued")) = true /\
  exists w',
    App.auth_callback sample_settings accepting_provider matching_callback
      (awaiting_callback "issued") = (Return (Redirect "dashboard" []), w') /\
    Dict.get "access_token" (w_session w') = Some (PDict sample_token) /\
    Dict.get "oauth_state" (w_session w') = None /\
    (forall k, String.eqb k "access_token" = false -> String.eqb k "oauth_state" = false ->
               Dict.get k (w_session w') = Dict.get k (w_session (awaiting_callback "issued"))) /\
    w_net w' = w_net (awaiting_callback "issued") ++
      [exchange_event sample_settings (PStr "the-code") (PStr "issued")].
Proof.
  split; [reflexivity|].
  apply (matching_callback_stores_the_token sample_settings accepting_provider
           matching_callback (awaiting_callback "issued") (PDict sample_token));
    reflexivity.
Defined.

Lemma provider_asked_witness :
  w_net (snd (App.auth_callback sample_settings accepting_provider matching_callback
                (awaiting_callback "issued")))
    <> w_net (awaiting_callback "issued") /\
  truthy (multidict_get (args matching_callback) "error") = false /\
  truthy (multidict_get (args matching_callback) "code") = true /\
  truthy (session_value "oauth_state" (awaiting_callback "issued")) = true /\
  py_eq (multidict_get (args matching_callback) "state")
        (session_value "oauth_state" (awaiting_callback "issued")) = true.
Proof.
  split; [vm_compute; discriminate|].
  apply (provider_is_asked_only_after_the_state_check sample_settings accepting_provider
           matching_callback (awaiting_callback "issued")).
  vm_compute. discriminate.
Defined.

Lemma login_round_trip_witness :
  library_url sample_settings accepting_provider (PStr "issued")
    = Return (GOTO_AUTH_URL sample_settings, PStr "issued") /\
  Dict.mem "access_token" sample_token = true /\
  exists w',
    login_flow sample_settings accepting_provider "issued" matching_callback empty_world
      = (Return (Redirect "dashboard" []), w') /\
    authenticated_session (w_session w') = true /\
    phase_of (w_session w') = AUTHENTICATED /\
    Dict.get "oauth_state" (w_session w') = None.
Proof.
  split; [reflexivity|]. split; [reflexivity|].
  apply (login_round_trip sample_settings accepting_provider "issued" matching_callback
           empty_world (GOTO_AUTH_URL sample_settings) "issued" sample_token);
    try reflexivity.
  discriminate.
Defined.

Lemma dashboard_form_witness :
  authenticated_session (w_session session_with_key) = true /\
  Dict.get "account_key" (w_session session_with_key) = Some (PStr "SESSION-KEY") /\
  exists w',
    App.dashboard sample_settings key_form session_with_key =
      (Return (Render "dashboard.html"
                 [("account_key", V (PStr "NEW-KEY"));
                  ("app_title", V (APP_TITLE sample_settings))] 200), w') /\
    Dict.get "account_key" (w_session w') = Some (PStr "NEW-KEY") /\
    (forall k, String.eqb k "account_key" = false ->
               Dict.get k (w_session w') = Dict.get k (w_session session_with_key)) /\
    w_net w' = w_net session_with_key.
Proof.
  split; [reflexivity|]. split; [reflexivity|].
  apply (dashboard_form_sets_the_account_key sample_settings key_form session_with_key
           "NEW-KEY"); try reflexivity.
  discriminate.
Defined.

Lemma no_account_key_witness :
  needs_account_key App.PhoneNumbers = true /\
  truthy (session_value "account_key" session_without_key) = false /\
  exists resp w',
    App.serve sample_settings example_upstream App.PhoneNumbers (get_request [])
      session_without_key = (Return resp, w') /\
    asks_for_account_key resp = true /\
    w_net w' = w_net session_without_key /\
    w_session w' = w_session session_without_key.
Proof.
  split; [reflexivity|]. split; [reflexivity|].
  apply (no_account_key_no_request sample_settings example_upstream App.PhoneNumbers
           (get_request []) session_without_key); reflexivity.
Defined.

Lemma location_detail_witness :
  authenticated_session (w_session session_with_key) = true /\
  exists w',
    App.location_detail sample_settings two_locations "A" session_with_key
      = (Return (Redirect "dashboard" []), w') /\
    w_net w' = w_net session_with_key /\
    w_session w' = w_session session_with_key /\
    w_flashes w' = w_flashes session_with_key ++
      [([Lit "Error fetching location details: "; fmt_exn missing_access_token], "error")].
Proof.
  split; [reflexivity|].
  apply (location_detail_never_renders sample_settings two_locations "A" session_with_key).
  reflexivity.
Defined.

Lemma reboot_by_id_witness :
  upstream_failure (failing_upstream [] (request_for list_locations_call)) = true /\
  exists w',
    App.reboot_device failing_upstream "dev-1" session_with_key =
      (Return (Jsonify [("success", V (PBool true));
                        ("message", V (PStr "Device reboot initiated successfully"))] 200),
       w') /\
    w_net w' = w_net session_with_key ++
      [Http (mkRequest "POST"
               [Lit base_url; Lit "/"; Lit "devices/"; Fmt (PStr "dev-1"); Lit "/reboot"]
               (bearer_headers (session_value "access_token" session_with_key)) [])].
Proof.
  split; [reflexivity|].
  apply (reboot_by_id_reports_success failing_upstream "dev-1" session_with_key);
    reflexivity.
Defined.

Lemma api_device_details_witness :
  Dict.get "access_token" (w_session session_with_key)
    = Some (PDict [("access_token", PStr "tok")]) /\
  exists entry data,
    fst (get_device_details example_upstream (PStr "dev-1") (PStr "tok")
           (mkWorld (w_log session_with_key ++ [entry]) (w_net session_with_key)
              (w_session session_with_key) (w_flashes session_with_key)))
      = Return data /\
    fst (App.api_device_details example_upstream "dev-1" session_with_key) =
      Return (if is_none data
              then Jsonify [("error", V (PStr "Device not found"))] 404
              else JsonifyValue data 200).
Proof.
  split; [reflexivity|].
  apply (api_device_details_passes_the_device_through example_upstream "dev-1"
           session_with_key [("access_token", PStr "tok")] (PStr "tok")); reflexivity.
Defined.

Lemma locations_page_witness :
  truthy (effective_key (get_request []) session_with_key) = true /\
  status_code example_response = 200 /\
  fst (App.locations sample_settings example_upstream (get_request []) session_with_key) =
  Return (Render "locations.html"
            [("locations", V (PList [PDict [("id", PStr "1")]]));
             ("account_key", V (PStr "SESSION-KEY"));
             ("next_page_marker", V (PStr "abc"));
             ("app_title", V (APP_TITLE sample_settings))] 200).
Proof.
  split; [reflexivity|]. split; [reflexivity|].
  apply (locations_page_shows_the_upstream_listing sample_settings example_upstream
           (get_request []) session_with_key [("access_token", PStr "tok")]
           [("items", PList [PDict [("id", PStr "1")]]); ("nextPageMarker", PStr "abc")]
           (PStr "tok") example_response); reflexivity.
Defined.

Lemma device_locations_page_witness :
  authenticated_session (w_session session_with_key) = true /\
  truthy (session_value "account_key" session_with_key) = true /\
  exists page,
    fst (App.device_locations two_locations session_with_key) = Return page /\
    (page = Render "device_locations.html"
              [("location_groups", V (PList []));
               ("account_key", V (session_value "account_key" session_with_key))] 200
     \/
     exists e,
       page = Render "error.html"
                [("error_message", V (PStr "Failed to retrieve device locations"));
                 ("error_details", T [fmt_exn e])] 200).
Proof.
  split; [reflexivity|]. split; [reflexivity|].
  apply (device_locations_page_shows_no_group two_locations session_with_key); reflexivity.
Defined.

Lemma failed_listing_witness :
  (forall h rq, upstream_failure (failing_upstream h rq) = true) /\
  (exists w',
     App.locations sample_settings failing_upstream (get_request []) session_with_key
       = (Return (Redirect "dashboard" []), w') /\
     w_flashes w' = w_flashes session_with_key ++
       [([Lit "Failed to fetch locations. Please try again."], "error")]) /\
  (exists w',
     App.devices sample_settings failing_upstream (get_request []) session_with_key
       = (Return (Redirect "dashboard" []), w') /\
     w_flashes w' = w_flashes session_with_key ++
       [([Lit "Failed to fetch devices. Please try again."], "error")]).
Proof.
  split; [intros h rq; reflexivity|].
  apply (failed_listing_sends_back_to_the_dashboard sample_settings failing_upstream
           (get_request []) session_with_key);
    first [reflexivity | intros h rq; reflexivity].
Defined.

Lemma list_pages_witness :
  truthy (session_value "account_key" session_with_key) = true /\
  fst (App.phone_numbers failing_upstream session_with_key) =
    Return (Render "phone_numbers.html"
              [("phone_numbers", V (PList []));
               ("account_key", V (session_value "account_key" session_with_key))] 200) /\
  fst (App.extensions failing_upstream session_with_key) =
    Return (Render "extensions.html"
              [("extension_groups", Groups []);
               ("account_key", V (session_value "account_key" session_with_key))] 200) /\
  fst (App.device_models failing_upstream session_with_key) =
    Return (Render "device_models.html"
              [("device_models", V (PList []));
               ("account_key", V (session_value "account_key" session_with_key))] 200).
Proof.
  split; [reflexivity|].
  apply (list_pages_degrade_to_empty failing_upstream session_with_key);
    first [reflexivity | intros h rq; reflexivity].
Defined.

Lemma extension_groups_witness :
  for_each sample_extensions App.group_extension [] empty_world
    = (Return sample_groups, empty_world) /\
  members_total sample_groups = length sample_extensions /\
  forall key members e, In (key, members) sample_groups -> In e members ->
    In e sample_extensions /\
    exists d, e = PDict d /\ py_eq (extension_type d) key = true.
Proof.
  split; [reflexivity|].
  apply (extension_groups_keep_every_extension sample_extensions sample_groups
           empty_world empty_world).
  reflexivity.
Defined.
